(** * DnD-Helper: the ability-score core, in two versions

    A shallow embedding of the two versions of the ability-score engine:

    - [V1] : [ability_score.py]      ([ScoreBase], [RacialBonus], [FeatBonus],
             [LevelBonus], [AbilityScores], [increment_attribute]);
    - [V2] : [src/ability_score.py]  ([AbilitySet], [BaseAbilities],
             [AbilityBonus], [CharacterStats], [add_bonus]).

    Python objects live in a heap (a finite map from locations to objects);
    an aggregator holds references to its four value sets, so that the
    in-place updates done by [add_bonus] are seen by [total_score] through
    whatever reference it reads.  Code that can raise runs in a state and
    exception monad. *)

From stdpp Require Import base option list gmap strings pretty.
From Stdlib Require Import ZArith Lia.

Local Open Scope Z_scope.

(** ** The fragment of Python the two files use *)

Module Py.

(** Values a caller can pass where the code expects an [int].  A finite
    [float] is kept as the dyadic [m * 2^e]; the code only ever asks whether
    such a value is an [int] instance.  The last three stand for the values
    that are not of a built-in scalar type: a list; a reference to an
    instance of a class that keeps the hash of [object] (the sets of the
    first version are such); a reference to an instance of a dataclass, which
    defines [__eq__] and so has no hash (the sets of the second version are
    such). *)
Inductive value :=
| VInt (z : Z)
| VBool (b : bool)
| VFloat (m e : Z)
| VStr (s : string)
| VNone
| VList (items : list Z)
| VObject (l : nat)
| VDataclass (l : nat).

(** [isinstance(v, int)], together with the integer [v] then stands for:
    [bool] is a subclass of [int], [True == 1] and [False == 0]. *)
Definition as_int (v : value) : option Z :=
  match v with
  | VInt z => Some z
  | VBool b => Some (Z.b2z b)
  | _ => None
  end.

Definition isinstance_int (v : value) : bool :=
  match as_int v with Some _ => true | None => false end.

(** [hash(v)] returns: a list and an instance of a dataclass with [__eq__]
    raise [TypeError] instead.  A test [v in d] on a dictionary [d] hashes
    [v] first. *)
Definition hashable (v : value) : bool :=
  match v with
  | VList _ | VDataclass _ => false
  | _ => true
  end.

(** An argument that is annotated with an [Enum] class [E]: either one of
    its members, or some other value passed in its place. *)
Inductive arg (E : Type) :=
| Member (e : E)
| Other (v : value).
Arguments Member {E} e.
Arguments Other {E} v.

(** *** [int / 2] and [math.floor]

    [n / 2] on an [int] is true division: the result is the binary64 float
    nearest to the exact quotient, ties going to the even significand, and
    [OverflowError] is raised when that float would not be finite.  A
    finite float is the pair of an integer significand and an exponent. *)
Record float := { significand : Z; exponent : Z }.

(** The integer nearest to [a / 2^sh] for [0 <= a] and [1 <= sh], ties to
    even. *)
Definition round_half_even (a sh : Z) : Z :=
  let q := Z.shiftr a sh in
  let r := Z.land a (Z.ones sh) in
  let half := Z.shiftl 1 (sh - 1) in
  if (half <? r) || ((r =? half) && Z.odd q) then q + 1 else q.

Definition int_truediv_2 (n : Z) : option float :=
  let a := Z.abs n in
  let bits := Z.log2 a + 1 in
  let '(m, e) :=
    if bits <=? 53 then (a, -1)
    else (round_half_even a (bits - 53), bits - 53 - 1) in
  if 2 ^ 1024 <=? Z.shiftl m e then None
  else Some {| significand := Z.sgn n * m; exponent := e |}.

(** [math.floor(x)] of a finite float is an exact [int]. *)
Definition math_floor (x : float) : Z :=
  Z.shiftl (significand x) (exponent x).

(** *** Exceptions and the monad *)

Inductive exn (msg : Type) :=
| ValueError (m : msg)
| OverflowError
| AttributeError
| TypeError
(** Reading through a reference to no object: it cannot happen in Python
    and is excluded for every well-formed state. *)
| DanglingReference.
Arguments ValueError {msg} m.
Arguments OverflowError {msg}.
Arguments AttributeError {msg}.
Arguments TypeError {msg}.
Arguments DanglingReference {msg}.

Inductive outcome (msg A : Type) :=
| Return (a : A)
| Raise (e : exn msg).
Arguments Return {msg A} a.
Arguments Raise {msg A} e.

Definition raised {msg A} (r : outcome msg A) : bool :=
  match r with Return _ => false | Raise _ => true end.

(** Computations over a state [St] that return or raise. *)
Definition M (msg St A : Type) : Type := St -> outcome msg A * St.

Section Monad.
Context {msg St : Type}.

Definition ret {A} (a : A) : M msg St A := fun h => (Return a, h).

Definition raise {A} (e : exn msg) : M msg St A := fun h => (Raise e, h).

Definition bind {A B} (m : M msg St A) (k : A -> M msg St B) : M msg St B :=
  fun h =>
    match m h with
    | (Return a, h') => k a h'
    | (Raise e, h') => (Raise e, h')
    end.

(** A validation that reads no state, run inside a stateful one. *)
Definition lift {A} (r : outcome msg A) : M msg St A := fun h => (r, h).

(** [for x in l: body(x)] *)
Fixpoint for_each {A} (l : list A) (body : A -> M msg St unit)
  : M msg St unit :=
  match l with
  | [] => ret tt
  | x :: l' => bind (body x) (fun _ => for_each l' body)
  end.

(** [sum(f(x) for x in l)], the accumulator starting at [0]. *)
Fixpoint sum_from {A} (acc : Z) (l : list A) (f : A -> M msg St Z)
  : M msg St Z :=
  match l with
  | [] => ret acc
  | x :: l' => bind (f x) (fun v => sum_from (acc + v) l' f)
  end.

Definition sum {A} (l : list A) (f : A -> M msg St Z) : M msg St Z :=
  sum_from 0 l f.
End Monad.

(** The same loop for a validation that reads no state. *)
Fixpoint check_each {msg A} (l : list A) (body : A -> outcome msg unit)
  : outcome msg unit :=
  match l with
  | [] => Return tt
  | x :: l' =>
      match body x with
      | Return _ => check_each l' body
      | Raise e => Raise e
      end
  end.

End Py.

Import Py.

Notation "x <- m ;; k" := (bind m (fun x => k))
  (at level 100, m at next level, right associativity,
   format "'[v' x  <-  m  ;;  '/' k ']'").
Notation "m ;;; k" := (bind m (fun _ => k))
  (at level 100, right associativity,
   format "'[v' m  ;;;  '/' k ']'").

(** ** The six abilities and a set of six values

    Both files declare the same [Ability] enumeration; its second payload
    (called [attr_name] in the first version and [field_name] in the second)
    is the name of the attribute that holds the ability's value. *)

Inductive Ability :=
| STRENGTH | DEXTERITY | CONSTITUTION | INTELLIGENCE | WISDOM | CHARISMA.

#[global] Instance Ability_eq_dec : EqDecision Ability.
Proof. solve_decision. Defined.

(** [for ability in Ability]: the members in definition order. *)
Definition Ability_members : list Ability :=
  [STRENGTH; DEXTERITY; CONSTITUTION; INTELLIGENCE; WISDOM; CHARISMA].

Definition field_name (a : Ability) : string :=
  match a with
  | STRENGTH => "strength"
  | DEXTERITY => "dexterity"
  | CONSTITUTION => "constitution"
  | INTELLIGENCE => "intelligence"
  | WISDOM => "wisdom"
  | CHARISMA => "charisma"
  end.

(** The six attributes of a value set, in the order of the constructors'
    parameters (wisdom before intelligence). *)
Record Scores (T : Type) := mkScores {
  strength : T;
  dexterity : T;
  constitution : T;
  wisdom : T;
  intelligence : T;
  charisma : T
}.
Arguments mkScores {T}.
Arguments strength {T}.
Arguments dexterity {T}.
Arguments constitution {T}.
Arguments wisdom {T}.
Arguments intelligence {T}.
Arguments charisma {T}.

(** [getattr(c, name)]; [None] stands for [AttributeError]. *)
Definition getattr {T} (c : Scores T) (name : string) : option T :=
  if String.eqb name "strength" then Some (strength c)
  else if String.eqb name "dexterity" then Some (dexterity c)
  else if String.eqb name "constitution" then Some (constitution c)
  else if String.eqb name "wisdom" then Some (wisdom c)
  else if String.eqb name "intelligence" then Some (intelligence c)
  else if String.eqb name "charisma" then Some (charisma c)
  else None.

(** [setattr(c, name, v)]; under another name Python adds a new attribute and
    leaves the six unchanged. *)
Definition setattr {T} (c : Scores T) (name : string) (v : T) : Scores T :=
  let '(mkScores s d co w i ch) := c in
  if String.eqb name "strength" then mkScores v d co w i ch
  else if String.eqb name "dexterity" then mkScores s v co w i ch
  else if String.eqb name "constitution" then mkScores s d v w i ch
  else if String.eqb name "wisdom" then mkScores s d co v i ch
  else if String.eqb name "intelligence" then mkScores s d co w v ch
  else if String.eqb name "charisma" then mkScores s d co w i v
  else c.

(** The value of ability [a] in a set, and its update. *)
Definition get {T} (a : Ability) (c : Scores T) : T :=
  match a with
  | STRENGTH => strength c
  | DEXTERITY => dexterity c
  | CONSTITUTION => constitution c
  | INTELLIGENCE => intelligence c
  | WISDOM => wisdom c
  | CHARISMA => charisma c
  end.

Definition set {T} (a : Ability) (v : T) (c : Scores T) : Scores T :=
  setattr c (field_name a) v.

Definition smap {T U} (f : T -> U) (c : Scores T) : Scores U :=
  mkScores (f (strength c)) (f (dexterity c)) (f (constitution c))
           (f (wisdom c)) (f (intelligence c)) (f (charisma c)).

(** The parameter defaults [strength: int = 0, ...]. *)
Definition zeros : Scores value :=
  mkScores (VInt 0) (VInt 0) (VInt 0) (VInt 0) (VInt 0) (VInt 0).

(** The integer an [int] instance stands for.  A set that passed its
    validation holds [int] instances only, and the heap keeps them as
    integers. *)
Definition to_Z (v : value) : Z := default 0 (as_int v).

(** [v < 0], as Python evaluates it on each kind of value. *)
Definition lt_0 {msg} (v : value) : outcome msg bool :=
  match v with
  | VInt z => Return (z <? 0)
  | VBool _ => Return false
  | VFloat m _ => Return (m <? 0)
  | VStr _ | VNone | VList _ | VObject _ | VDataclass _ => Raise TypeError
  end.

(** References to objects. *)
Definition loc := nat.

(** ** Objects with the six attributes, in a heap

    Each version has its own classes of objects; all of them carry the six
    attributes, read by [fields] and replaced by [with_fields]. *)

Class ValueSet (obj : Type) := {
  fields : obj -> Scores Z;
  with_fields : obj -> Scores Z -> obj
}.

Section Heap.
Context {msg obj : Type} `{ValueSet obj}.

(** Building an instance: the new object gets a reference not yet in use. *)
Definition alloc (o : obj) : M msg (gmap loc obj) loc :=
  fun h => let l := fresh (dom h) in (Return l, <[l := o]> h).

(** [getattr(c, name)] on the object that [c] refers to. *)
Definition obj_getattr (c : loc) (name : string) : M msg (gmap loc obj) Z :=
  fun h =>
    match h !! c with
    | None => (Raise DanglingReference, h)
    | Some o =>
        match getattr (fields o) name with
        | Some v => (Return v, h)
        | None => (Raise AttributeError, h)
        end
    end.

(** [setattr(c, name, v)]: the object is updated in place. *)
Definition obj_setattr (c : loc) (name : string) (v : Z)
  : M msg (gmap loc obj) unit :=
  fun h =>
    match h !! c with
    | None => (Raise DanglingReference, h)
    | Some o => (Return tt, <[c := with_fields o (setattr (fields o) name v)]> h)
    end.

(** Reading leaves the heap as it is: a computation is [reads_only] when
    the heap it returns is the heap it was given. *)
Definition reads_only {A} (m : M msg (gmap loc obj) A) : Prop :=
  forall h r h', m h = (r, h') -> h' = h.

End Heap.

(** What the two operations of a [ValueSet] owe each other. *)
Class ValueSetLaws (obj : Type) `{ValueSet obj} := {
  fields_with_fields : forall o f, fields (with_fields o f) = f;
  with_fields_fields : forall o, with_fields o (fields o) = o;
  with_fields_twice :
    forall o f g, with_fields (with_fields o f) g = with_fields o g
}.

(** ** What a state holds

    The four value sets of an aggregator, as plain data. *)

Record Layers := {
  base_set : Scores Z;
  racial_set : Scores Z;
  feat_set : Scores Z;
  level_set : Scores Z
}.

(** The sum of one ability over the four sets. *)
Definition sum_of_layers (L : Layers) (a : Ability) : Z :=
  get a (base_set L) + get a (racial_set L) + get a (feat_set L)
  + get a (level_set L).

(** A set after each entry of a batch has been added to its attribute. *)
Definition increase (f : Scores Z) (increments : list (Ability * value))
  : Scores Z :=
  fold_left (fun f '(a, v) => set a (get a f + to_Z v) f) increments f.

(** The amount a batch adds to one ability. *)
Definition amount_for (a : Ability) (increments : list (Ability * value)) : Z :=
  fold_right (fun '(b, v) acc => if decide (b = a) then to_Z v + acc else acc)
             0 increments.

(** An amount that is an [int] instance and positive. *)
Definition positive_int (v : value) : bool :=
  match as_int v with
  | Some n => 0 <? n
  | None => false
  end.

(** A value that is an [int] instance and at least [0]. *)
Definition nonneg_int (v : value) : bool :=
  match as_int v with
  | Some z => 0 <=? z
  | None => false
  end.

(** An entry whose amount, added to the current total of its ability, stays
    within [cap]. *)
Definition within (cap : Z) (L : Layers) (entry : Ability * value) : bool :=
  sum_of_layers L (fst entry) + to_Z (snd entry) <=? cap.

(** An entry that passes both checks. *)
Definition accepted (cap : Z) (L : Layers) (entry : Ability * value) : bool :=
  positive_int (snd entry) && within cap L entry.

(** A set whose six values are the given integers. *)
Definition ints (s d c w i ch : Z) : Scores value :=
  mkScores (VInt s) (VInt d) (VInt c) (VInt w) (VInt i) (VInt ch).

(** ** Second version: [src/ability_score.py] *)

Module V2.

Definition MAX_SCORE : Z := 20.

Inductive BonusType := RACIAL | FEAT | LEVEL.

#[global] Instance BonusType_eq_dec : EqDecision BonusType.
Proof. solve_decision. Defined.

(** The messages of the [ValueError]s the file raises:
    - [MustBeInteger a]: "{a} must be an integer";
    - [CannotBeNegativeForBonuses a]: "{a} cannot be negative for bonuses";
    - [BaseMustBeNonNegative a]: "Base {a} must be non-negative";
    - [BonusTypeMustBeEnum]: "Bonus type must be a BonusType enum value";
    - [SlotMustHaveType t]: "Racial bonus must have
      bonus_type=BonusType.RACIAL", and the same for feat and level;
    - [InvalidBonusType v]: "Invalid bonus type: {v}";
    - [BonusMustBePositiveInteger a]: "Bonus for {a} must be a positive
      integer";
    - [BonusWouldExceed a t m]: "Bonus would cause {a} ({t}) to exceed {m}". *)
Inductive msg :=
| MustBeInteger (a : Ability)
| CannotBeNegativeForBonuses (a : Ability)
| BaseMustBeNonNegative (a : Ability)
| BonusTypeMustBeEnum
| SlotMustHaveType (t : BonusType)
| InvalidBonusType (v : value)
| BonusMustBePositiveInteger (a : Ability)
| BonusWouldExceed (a : Ability) (new_total : Z) (max_score : Z).

(** Instances of the two concrete dataclasses.  An [AbilityBonus] carries
    its [bonus_type]; a [BaseAbilities] has no such attribute. *)
Inductive obj :=
| BaseAbilities (f : Scores Z)
| AbilityBonus (f : Scores Z) (bonus_type : BonusType).

#[global] Instance obj_value_set : ValueSet obj := {|
  fields o :=
    match o with
    | BaseAbilities f => f
    | AbilityBonus f _ => f
    end;
  with_fields o f :=
    match o with
    | BaseAbilities _ => BaseAbilities f
    | AbilityBonus _ t => AbilityBonus f t
    end
|}.

Abbreviation heap := (gmap loc obj).
Abbreviation Mh := (M msg heap).

(** [c.bonus_type] *)
Definition get_bonus_type (c : loc) : Mh BonusType :=
  fun h =>
    match h !! c with
    | None => (Raise DanglingReference, h)
    | Some (BaseAbilities _) => (Raise AttributeError, h)
    | Some (AbilityBonus _ t) => (Return t, h)
    end.

(** [AbilitySet.__post_init__]; [is_BaseAbilities] is
    [isinstance(self, BaseAbilities)]. *)
Definition AbilitySet_post_init (is_BaseAbilities : bool) (self : Scores value)
  : outcome msg unit :=
  check_each Ability_members (fun ability =>
    match getattr self (field_name ability) with
    | None => Raise AttributeError
    | Some value =>
        if negb (isinstance_int value)
        then Raise (ValueError (MustBeInteger ability))
        else
          match lt_0 value with
          | Raise e => Raise e
          | Return neg =>
              if neg && negb is_BaseAbilities
              then Raise (ValueError (CannotBeNegativeForBonuses ability))
              else Return tt
          end
    end).

(** [BaseAbilities.__post_init__] *)
Definition BaseAbilities_post_init (self : Scores value) : outcome msg unit :=
  match AbilitySet_post_init true self with
  | Raise e => Raise e
  | Return _ =>
      check_each Ability_members (fun ability =>
        match getattr self (field_name ability) with
        | None => Raise AttributeError
        | Some value =>
            match lt_0 value with
            | Raise e => Raise e
            | Return neg =>
                if neg then Raise (ValueError (BaseMustBeNonNegative ability))
                else Return tt
            end
        end)
  end.

(** [AbilityBonus.__post_init__] *)
Definition AbilityBonus_post_init
  (self : Scores value) (bonus_type : arg BonusType) : outcome msg unit :=
  match AbilitySet_post_init false self with
  | Raise e => Raise e
  | Return _ =>
      match bonus_type with
      | Member _ => Return tt
      | Other _ => Raise (ValueError BonusTypeMustBeEnum)
      end
  end.

(** [BaseAbilities(strength=..., ...)]: the reference to the new object, or
    the error of its validation. *)
Definition new_BaseAbilities (args : Scores value) : Mh loc :=
  lift (BaseAbilities_post_init args) ;;;
  alloc (BaseAbilities (smap to_Z args)).

(** [AbilityBonus(strength=..., ..., bonus_type=...)]; an instance that
    passed its validation has a member of [BonusType] as its tag. *)
Definition new_AbilityBonus (args : Scores value) (bonus_type : arg BonusType)
  : Mh loc :=
  lift (AbilityBonus_post_init args bonus_type) ;;;
  match bonus_type with
  | Member t => alloc (AbilityBonus (smap to_Z args) t)
  | Other _ => raise (ValueError BonusTypeMustBeEnum)
  end.

(** The attributes of a [CharacterStats]; none of them is assigned again
    after [__init__]. *)
Record CharacterStats := {
  _base_abilities : loc;
  _racial_bonus : loc;
  _feat_bonus : loc;
  _level_bonus : loc;
  _score_components : list loc
}.

(** [x or AbilityBonus(bonus_type=t)]: an instance of a dataclass is always
    true, so the default is built only for [None]. *)
Definition or_default (x : option loc) (t : BonusType) : Mh loc :=
  match x with
  | Some l => ret l
  | None => new_AbilityBonus zeros (Member t)
  end.

(** [CharacterStats.__init__] *)
Definition CharacterStats_init
  (base : loc) (racial feat level : option loc) : Mh CharacterStats :=
  racial_bonus <- or_default racial RACIAL ;;
  feat_bonus <- or_default feat FEAT ;;
  level_bonus <- or_default level LEVEL ;;
  t <- get_bonus_type racial_bonus ;;
  (if decide (t <> RACIAL) then raise (ValueError (SlotMustHaveType RACIAL))
   else ret tt) ;;;
  t <- get_bonus_type feat_bonus ;;
  (if decide (t <> FEAT) then raise (ValueError (SlotMustHaveType FEAT))
   else ret tt) ;;;
  t <- get_bonus_type level_bonus ;;
  (if decide (t <> LEVEL) then raise (ValueError (SlotMustHaveType LEVEL))
   else ret tt) ;;;
  ret {| _base_abilities := base;
         _racial_bonus := racial_bonus;
         _feat_bonus := feat_bonus;
         _level_bonus := level_bonus;
         _score_components := [base; racial_bonus; feat_bonus; level_bonus] |}.

(** [total_score] *)
Definition total_score (self : CharacterStats) (ability : Ability) : Mh Z :=
  sum (_score_components self) (fun c => obj_getattr c (field_name ability)).

(** [modifier]: [math.floor((self.total_score(ability) - 10) / 2)] *)
Definition modifier (self : CharacterStats) (ability : Ability) : Mh Z :=
  total <- total_score self ability ;;
  match int_truediv_2 (total - 10) with
  | None => raise OverflowError
  | Some x => ret (math_floor x)
  end.

(** The dictionary [bonus_map] of [add_bonus]: its keys are the three
    members of [BonusType]. *)
Definition bonus_map (self : CharacterStats) (t : BonusType) : loc :=
  match t with
  | RACIAL => _racial_bonus self
  | FEAT => _feat_bonus self
  | LEVEL => _level_bonus self
  end.

(** The body of the first loop of [add_bonus], for one item of
    [increments.items()]. *)
Definition check_increment (self : CharacterStats) (item : Ability * value)
  : Mh unit :=
  let '(ability, amount) := item in
  match as_int amount with
  | None => raise (ValueError (BonusMustBePositiveInteger ability))
  | Some n =>
      if n <=? 0
      then raise (ValueError (BonusMustBePositiveInteger ability))
      else
        total <- total_score self ability ;;
        let new_total := total + n in
        if MAX_SCORE <? new_total
        then raise (ValueError (BonusWouldExceed ability new_total MAX_SCORE))
        else ret tt
  end.

(** The first loop. *)
Definition validate_increments
  (self : CharacterStats) (increments : list (Ability * value)) : Mh unit :=
  for_each increments (check_increment self).

(** The second loop.  [current_value + amount] adds two [int]s here, every
    other amount having been refused by the first loop; the [TypeError]
    branch stands for an addition the code never reaches. *)
Definition apply_increments
  (target : loc) (increments : list (Ability * value)) : Mh unit :=
  for_each increments (fun '(ability, amount) =>
    current_value <- obj_getattr target (field_name ability) ;;
    match as_int amount with
    | None => raise TypeError
    | Some n => obj_setattr target (field_name ability) (current_value + n)
    end).

(** [add_bonus]; [increments] is the dictionary in insertion order. *)
Definition add_bonus
  (self : CharacterStats) (bonus_type : arg BonusType)
  (increments : list (Ability * value)) : Mh unit :=
  match bonus_type with
  | Other v =>
      (* [bonus_type not in bonus_map] hashes [bonus_type] *)
      if hashable v then raise (ValueError (InvalidBonusType v))
      else raise TypeError
  | Member t =>
      let target := bonus_map self t in
      validate_increments self increments ;;;
      apply_increments target increments
  end.

(** [stats_at h self L]: in heap [h], [self] is a [CharacterStats] over a
    [BaseAbilities] and three [AbilityBonus] instances, each tagged with its
    slot, which hold the values [L]. *)
Definition stats_at (h : heap) (self : CharacterStats) (L : Layers) : Prop :=
  h !! _base_abilities self = Some (BaseAbilities (base_set L)) /\
  h !! _racial_bonus self = Some (AbilityBonus (racial_set L) RACIAL) /\
  h !! _feat_bonus self = Some (AbilityBonus (feat_set L) FEAT) /\
  h !! _level_bonus self = Some (AbilityBonus (level_set L) LEVEL) /\
  _score_components self =
    [_base_abilities self; _racial_bonus self; _feat_bonus self;
     _level_bonus self].

(** The values after a batch has been added to the set of one category. *)
Definition add_to (t : BonusType) (increments : list (Ability * value))
  (L : Layers) : Layers :=
  match t with
  | RACIAL => {| base_set := base_set L;
                 racial_set := increase (racial_set L) increments;
                 feat_set := feat_set L;
                 level_set := level_set L |}
  | FEAT => {| base_set := base_set L;
               racial_set := racial_set L;
               feat_set := increase (feat_set L) increments;
               level_set := level_set L |}
  | LEVEL => {| base_set := base_set L;
                racial_set := racial_set L;
                feat_set := feat_set L;
                level_set := increase (level_set L) increments |}
  end.

(** The tag of the bonus set that ends up in a slot: the tag of the instance
    that was supplied, or the tag of the slot for the default that [__init__]
    builds in place of [None]. *)
Definition supplied_tag (h : heap) (x : option loc) (slot : BonusType)
  : option BonusType :=
  match x with
  | None => Some slot
  | Some l =>
      match h !! l with
      | Some (AbilityBonus _ t) => Some t
      | _ => None
      end
  end.

(** The message for an item that [add_bonus] does not accept: its amount
    is not a positive [int], or its new total is above [MAX_SCORE]. *)
Definition rejection (L : Layers) (item : Ability * value) : msg :=
  if positive_int (snd item)
  then BonusWouldExceed (fst item)
         (sum_of_layers L (fst item) + to_Z (snd item)) MAX_SCORE
  else BonusMustBePositiveInteger (fst item).

End V2.

(** ** First version: [ability_score.py] *)

Module V1.

Definition MAX_TOTAL : Z := 20.

Inductive ComponentScore := RACIAL_BONUS | FEAT_BONUS | LEVEL_BONUS.

#[global] Instance ComponentScore_eq_dec : EqDecision ComponentScore.
Proof. solve_decision. Defined.

(** In this file the payload of [Ability] is called [attr_name]. *)
Abbreviation attr_name := field_name.

(** The messages of the [ValueError]s the file raises:
    - [AllAttributesMustBeNonNegativeIntegers]: "All attributes must be
      non-negative integers";
    - [AllBonusesMustBeIntegers c]: "All racial bonuses must be integers",
      and the same for feat and level;
    - [InvalidComponent v]: "Invalid component: {v}. Must be one of [...]";
    - [IncrementMustBeInteger a]: "Increment for {a} must be an integer";
    - [IncrementMustBePositive a]: "Increment for {a} must be positive";
    - [IncrementWouldExceed a t m]: "Increment would cause {a} ({t}) to
      exceed MAX_ATTRIBUTE ({m})". *)
Inductive msg :=
| AllAttributesMustBeNonNegativeIntegers
| AllBonusesMustBeIntegers (c : ComponentScore)
| InvalidComponent (v : value)
| IncrementMustBeInteger (a : Ability)
| IncrementMustBePositive (a : Ability)
| IncrementWouldExceed (a : Ability) (new_total : Z) (max_total : Z).

(** Instances of the four subclasses of [CharacterAbility]. *)
Inductive obj :=
| ScoreBase (f : Scores Z)
| RacialBonus (f : Scores Z)
| FeatBonus (f : Scores Z)
| LevelBonus (f : Scores Z).

#[global] Instance obj_value_set : ValueSet obj := {|
  fields o :=
    match o with
    | ScoreBase f | RacialBonus f | FeatBonus f | LevelBonus f => f
    end;
  with_fields o f :=
    match o with
    | ScoreBase _ => ScoreBase f
    | RacialBonus _ => RacialBonus f
    | FeatBonus _ => FeatBonus f
    | LevelBonus _ => LevelBonus f
    end
|}.

Abbreviation heap := (gmap loc obj).
Abbreviation Mh := (M msg heap).

(** The list the four [__init__] methods test. *)
Definition arguments (args : Scores value) : list value :=
  [strength args; dexterity args; constitution args;
   wisdom args; intelligence args; charisma args].

(** [ScoreBase.__init__]: [all(isinstance(x, int) and x >= 0 for x in ...)] *)
Definition new_ScoreBase (args : Scores value) : Mh loc :=
  if negb (forallb (fun x => match as_int x with
                             | Some z => 0 <=? z
                             | None => false
                             end) (arguments args))
  then raise (ValueError AllAttributesMustBeNonNegativeIntegers)
  else alloc (ScoreBase (smap to_Z args)).

(** [RacialBonus.__init__]: [all(isinstance(x, int) for x in ...)] *)
Definition new_RacialBonus (args : Scores value) : Mh loc :=
  if negb (forallb isinstance_int (arguments args))
  then raise (ValueError (AllBonusesMustBeIntegers RACIAL_BONUS))
  else alloc (RacialBonus (smap to_Z args)).

(** [FeatBonus.__init__] *)
Definition new_FeatBonus (args : Scores value) : Mh loc :=
  if negb (forallb isinstance_int (arguments args))
  then raise (ValueError (AllBonusesMustBeIntegers FEAT_BONUS))
  else alloc (FeatBonus (smap to_Z args)).

(** [LevelBonus.__init__] *)
Definition new_LevelBonus (args : Scores value) : Mh loc :=
  if negb (forallb isinstance_int (arguments args))
  then raise (ValueError (AllBonusesMustBeIntegers LEVEL_BONUS))
  else alloc (LevelBonus (smap to_Z args)).

(** The attributes of an [AbilityScores]. *)
Record AbilityScores := {
  _score_base : loc;
  _racial_bonus : loc;
  _feat_bonus : loc;
  _level_bonus : loc
}.

(** [x or RacialBonus()] and its two siblings: an instance of
    [CharacterAbility] is always true. *)
Definition or_default (x : option loc) (new : Scores value -> Mh loc)
  : Mh loc :=
  match x with
  | Some l => ret l
  | None => new zeros
  end.

(** [AbilityScores.__init__] *)
Definition AbilityScores_init
  (base : loc) (racial feat level : option loc) : Mh AbilityScores :=
  racial_bonus <- or_default racial new_RacialBonus ;;
  feat_bonus <- or_default feat new_FeatBonus ;;
  level_bonus <- or_default level new_LevelBonus ;;
  ret {| _score_base := base;
         _racial_bonus := racial_bonus;
         _feat_bonus := feat_bonus;
         _level_bonus := level_bonus |}.

(** [_sum_scores].  Its filter [isinstance(c, CharacterAbility)] keeps every
    object of this heap. *)
Definition _sum_scores (self : AbilityScores) (attribute : Ability) : Mh Z :=
  sum [_score_base self; _racial_bonus self; _feat_bonus self; _level_bonus self]
      (fun c => obj_getattr c (attr_name attribute)).

(** [math.floor((value - 10) / 2)], the body of the six [_mod] properties. *)
Definition floor_half (value : Z) : Mh Z :=
  match int_truediv_2 (value - 10) with
  | None => raise OverflowError
  | Some x => ret (math_floor x)
  end.

Definition strength_mod (self : AbilityScores) : Mh Z :=
  value <- _sum_scores self STRENGTH ;; floor_half value.

Definition dexterity_mod (self : AbilityScores) : Mh Z :=
  value <- _sum_scores self DEXTERITY ;; floor_half value.

Definition constitution_mod (self : AbilityScores) : Mh Z :=
  value <- _sum_scores self CONSTITUTION ;; floor_half value.

Definition wisdom_mod (self : AbilityScores) : Mh Z :=
  value <- _sum_scores self WISDOM ;; floor_half value.

Definition intelligence_mod (self : AbilityScores) : Mh Z :=
  value <- _sum_scores self INTELLIGENCE ;; floor_half value.

Definition charisma_mod (self : AbilityScores) : Mh Z :=
  value <- _sum_scores self CHARISMA ;; floor_half value.

(** The property that belongs to an ability. *)
Definition mod_of (a : Ability) : AbilityScores -> Mh Z :=
  match a with
  | STRENGTH => strength_mod
  | DEXTERITY => dexterity_mod
  | CONSTITUTION => constitution_mod
  | INTELLIGENCE => intelligence_mod
  | WISDOM => wisdom_mod
  | CHARISMA => charisma_mod
  end.

(** The dictionary [component_map] of [increment_attribute]. *)
Definition component_map (self : AbilityScores) (c : ComponentScore) : loc :=
  match c with
  | RACIAL_BONUS => _racial_bonus self
  | FEAT_BONUS => _feat_bonus self
  | LEVEL_BONUS => _level_bonus self
  end.

(** The body of the first loop of [increment_attribute], for one item of
    [increments.items()]. *)
Definition check_amount (item : Ability * value) : Mh unit :=
  let '(ability, amount) := item in
  match as_int amount with
  | None => raise (ValueError (IncrementMustBeInteger ability))
  | Some n =>
      if n <=? 0 then raise (ValueError (IncrementMustBePositive ability))
      else ret tt
  end.

(** The first loop. *)
Definition validate_amounts (increments : list (Ability * value)) : Mh unit :=
  for_each increments check_amount.

(** The body of the second loop.  [current_total + amount], like
    [current_value + amount] in the third loop, adds two [int]s, every other
    amount having been refused by the first loop; the [TypeError] branches
    stand for additions the code never reaches. *)
Definition check_total (self : AbilityScores) (item : Ability * value)
  : Mh unit :=
  let '(ability, amount) := item in
  current_total <- _sum_scores self ability ;;
  match as_int amount with
  | None => raise TypeError
  | Some n =>
      let new_total := current_total + n in
      if MAX_TOTAL <? new_total
      then raise (ValueError (IncrementWouldExceed ability new_total MAX_TOTAL))
      else ret tt
  end.

(** The second loop. *)
Definition validate_totals
  (self : AbilityScores) (increments : list (Ability * value)) : Mh unit :=
  for_each increments (check_total self).

(** The third loop. *)
Definition apply_increments
  (target : loc) (increments : list (Ability * value)) : Mh unit :=
  for_each increments (fun '(ability, amount) =>
    current_value <- obj_getattr target (attr_name ability) ;;
    match as_int amount with
    | None => raise TypeError
    | Some n => obj_setattr target (attr_name ability) (current_value + n)
    end).

(** [increment_attribute]; [increments] is the dictionary in insertion
    order. *)
Definition increment_attribute
  (self : AbilityScores) (component : arg ComponentScore)
  (increments : list (Ability * value)) : Mh unit :=
  match component with
  | Other v =>
      (* [component not in component_map] hashes [component] *)
      if hashable v then raise (ValueError (InvalidComponent v))
      else raise TypeError
  | Member c =>
      let target := component_map self c in
      validate_amounts increments ;;;
      validate_totals self increments ;;;
      apply_increments target increments
  end.

(** [scores_at h self L]: in heap [h], [self] is an [AbilityScores] over a
    [ScoreBase], a [RacialBonus], a [FeatBonus] and a [LevelBonus], which hold
    the values [L]. *)
Definition scores_at (h : heap) (self : AbilityScores) (L : Layers) : Prop :=
  h !! _score_base self = Some (ScoreBase (base_set L)) /\
  h !! _racial_bonus self = Some (RacialBonus (racial_set L)) /\
  h !! _feat_bonus self = Some (FeatBonus (feat_set L)) /\
  h !! _level_bonus self = Some (LevelBonus (level_set L)).

(** The values after a batch has been added to the set of one component. *)
Definition add_to (c : ComponentScore) (increments : list (Ability * value))
  (L : Layers) : Layers :=
  match c with
  | RACIAL_BONUS => {| base_set := base_set L;
                       racial_set := increase (racial_set L) increments;
                       feat_set := feat_set L;
                       level_set := level_set L |}
  | FEAT_BONUS => {| base_set := base_set L;
                     racial_set := racial_set L;
                     feat_set := increase (feat_set L) increments;
                     level_set := level_set L |}
  | LEVEL_BONUS => {| base_set := base_set L;
                      racial_set := racial_set L;
                      feat_set := feat_set L;
                      level_set := increase (level_set L) increments |}
  end.

(** The message for an amount that is not a positive [int]. *)
Definition amount_rejection (item : Ability * value) : msg :=
  match as_int (snd item) with
  | None => IncrementMustBeInteger (fst item)
  | Some _ => IncrementMustBePositive (fst item)
  end.

(** The message for an item whose new total is above [MAX_TOTAL]. *)
Definition total_rejection (L : Layers) (item : Ability * value) : msg :=
  IncrementWouldExceed (fst item)
    (sum_of_layers L (fst item) + to_Z (snd item)) MAX_TOTAL.

End V1.

(** ** How the two versions correspond *)

(** The component of the first version that stands for a bonus type of the
    second. *)
Definition component_of (t : V2.BonusType) : V1.ComponentScore :=
  match t with
  | V2.RACIAL => V1.RACIAL_BONUS
  | V2.FEAT => V1.FEAT_BONUS
  | V2.LEVEL => V1.LEVEL_BONUS
  end.

Definition component_arg (x : arg V2.BonusType) : arg V1.ComponentScore :=
  match x with
  | Member t => Member (component_of t)
  | Other v => Other v
  end.

(** The class of the first version whose instances fill the slot of a bonus
    type. *)
Definition new_bonus_of (t : V2.BonusType) : Scores value -> V1.Mh loc :=
  match t with
  | V2.RACIAL => V1.new_RacialBonus
  | V2.FEAT => V1.new_FeatBonus
  | V2.LEVEL => V1.new_LevelBonus
  end.

(** Two exceptions of the same Python class. *)
Definition same_class {m1 m2} (e1 : exn m1) (e2 : exn m2) : Prop :=
  match e1, e2 with
  | ValueError _, ValueError _ => True
  | OverflowError, OverflowError => True
  | AttributeError, AttributeError => True
  | TypeError, TypeError => True
  | DanglingReference, DanglingReference => True
  | _, _ => False
  end.

(** Two runs that return the same value or raise exceptions of the same
    class. *)
Definition same_result {m1 m2 A} (r1 : outcome m1 A) (r2 : outcome m2 A)
  : Prop :=
  match r1, r2 with
  | Return a1, Return a2 => a1 = a2
  | Raise e1, Raise e2 => same_class e1 e2
  | _, _ => False
  end.

(** ** The states used as examples

    The scenario of the test suite: base scores 14, 12, 10, 8, 16, 10 and a
    racial bonus of 2 on strength and intelligence; the feat and level sets
    are the defaults. *)

Module Scenario.

(** [CharacterStats(base=BaseAbilities(14, 12, 10, 8, 16, 10),
    racial=AbilityBonus(bonus_type=RACIAL, strength=2, intelligence=2))] *)
Definition v2_build : V2.Mh V2.CharacterStats :=
  base <- V2.new_BaseAbilities (ints 14 12 10 8 16 10) ;;
  racial <- V2.new_AbilityBonus (ints 2 0 0 0 2 0) (Member V2.RACIAL) ;;
  V2.CharacterStats_init base (Some racial) None None.

Definition v2_stats : V2.CharacterStats :=
  {| V2._base_abilities := 0%nat;
     V2._racial_bonus := 1%nat;
     V2._feat_bonus := 2%nat;
     V2._level_bonus := 3%nat;
     V2._score_components := [0%nat; 1%nat; 2%nat; 3%nat] |}.

Definition v2_heap : V2.heap := snd (v2_build ∅).

(** [AbilityScores(ScoreBase(14, 12, 10, 8, 16, 10),
    RacialBonus(strength=2, intelligence=2))] *)
Definition v1_build : V1.Mh V1.AbilityScores :=
  base <- V1.new_ScoreBase (ints 14 12 10 8 16 10) ;;
  racial <- V1.new_RacialBonus (ints 2 0 0 0 2 0) ;;
  V1.AbilityScores_init base (Some racial) None None.

Definition v1_scores : V1.AbilityScores :=
  {| V1._score_base := 0%nat;
     V1._racial_bonus := 1%nat;
     V1._feat_bonus := 2%nat;
     V1._level_bonus := 3%nat |}.

Definition v1_heap : V1.heap := snd (v1_build ∅).

(** The values both states hold. *)
Definition layers : Layers :=
  {| base_set := mkScores 14 12 10 8 16 10;
     racial_set := mkScores 2 0 0 0 2 0;
     feat_set := mkScores 0 0 0 0 0 0;
     level_set := mkScores 0 0 0 0 0 0 |}.

(** One increment that fits and one that goes over the cap. *)
Definition mixed_batch : list (Ability * value) :=
  [(DEXTERITY, VInt 2); (STRENGTH, VInt 20)].

(** [CharacterStats(base=BaseAbilities(strength=25))] and the total of its
    strength. *)
Definition v2_build_25 : V2.Mh V2.CharacterStats :=
  base <- V2.new_BaseAbilities (ints 25 0 0 0 0 0) ;;
  V2.CharacterStats_init base None None None.

Definition v2_strength_25 : V2.Mh Z :=
  self <- v2_build_25 ;; V2.total_score self STRENGTH.

Definition v2_heap_25 : V2.heap := snd (v2_build_25 ∅).

Definition layers_25 : Layers :=
  {| base_set := mkScores 25 0 0 0 0 0;
     racial_set := mkScores 0 0 0 0 0 0;
     feat_set := mkScores 0 0 0 0 0 0;
     level_set := mkScores 0 0 0 0 0 0 |}.

(** [AbilityScores(ScoreBase(25, 0, 0, 0, 0, 0))] and the sum of its
    strength. *)
Definition v1_strength_25 : V1.Mh Z :=
  base <- V1.new_ScoreBase (ints 25 0 0 0 0 0) ;;
  self <- V1.AbilityScores_init base None None None ;;
  V1._sum_scores self STRENGTH.

(** [AbilityScores(ScoreBase(14, 12, 10, 8, 16, 10), racial=FeatBonus())]:
    an instance of the class for feats in the racial slot. *)
Definition v1_feat_as_racial : V1.Mh V1.AbilityScores :=
  base <- V1.new_ScoreBase (ints 14 12 10 8 16 10) ;;
  feat <- V1.new_FeatBonus zeros ;;
  V1.AbilityScores_init base (Some feat) None None.

(** [CharacterStats(base=..., racial=AbilityBonus(bonus_type=FEAT))], as in
    [test_character_stats_invalid_bonus_type]. *)
Definition v2_feat_as_racial : V2.Mh V2.CharacterStats :=
  base <- V2.new_BaseAbilities (ints 14 12 10 8 16 10) ;;
  invalid_racial <- V2.new_AbilityBonus zeros (Member V2.FEAT) ;;
  V2.CharacterStats_init base (Some invalid_racial) None None.

(** The heap of that test before it calls [CharacterStats]: the base set
    at reference 0 and the set tagged [FEAT] at reference 1. *)
Definition v2_heap_before_init : V2.heap :=
  snd ((base <- V2.new_BaseAbilities (ints 14 12 10 8 16 10) ;;
        V2.new_AbilityBonus zeros (Member V2.FEAT)) ∅).

(** [RacialBonus(strength=-1)] and [AbilityBonus(strength=-1)] (the tag
    defaults to [RACIAL]). *)
Definition minus_one : Scores value := ints (-1) 0 0 0 0 0.

(** [BaseAbilities(strength=-1, dexterity="x")] *)
Definition negative_and_text : Scores value :=
  mkScores (VInt (-1)) (VStr "x") (VInt 0) (VInt 0) (VInt 0) (VInt 0).



(** A base strength of [2^55 + 12], and the modifier of strength in both
    versions. *)
Definition large_score : Z := 36028797018963980.

Definition v2_large_modifier : V2.Mh Z :=
  base <- V2.new_BaseAbilities (ints large_score 0 0 0 0 0) ;;
  self <- V2.CharacterStats_init base None None None ;;
  V2.modifier self STRENGTH.

Definition v1_large_modifier : V1.Mh Z :=
  base <- V1.new_ScoreBase (ints large_score 0 0 0 0 0) ;;
  self <- V1.AbilityScores_init base None None None ;;
  V1.strength_mod self.

End Scenario.

(** ** Python numbers in the character layer

    [main.py] mixes [int] and [float]: a level divided by 4, a hit die
    divided by 2, sums and products of these with integers.  A float is a
    dyadic [m * 2^e], an infinity or a NaN; every float this program forms is
    a multiple of 1/4, far from the subnormal range.  The sign of a zero is
    not kept: nothing here observes it. *)

Module Num.

Inductive flt :=
| Finite (m e : Z)
| Inf (negative : bool)
| NaN.

(** The binary64 value nearest to [m * 2^e], ties to the even significand,
    for [-1074 <= e]; an infinity when that value is out of range. *)
Definition round64 (m e : Z) : flt :=
  let a := Z.abs m in
  let bits := Z.log2 a + 1 in
  let '(m', e') :=
    if bits <=? 53 then (a, e)
    else (round_half_even a (bits - 53), e + (bits - 53)) in
  if 2 ^ 1024 <=? Z.shiftl m' e' then Inf (m <? 0)
  else Finite (Z.sgn m * m') e'.

(** [x + y] on floats: the exact sum, rounded. *)
Definition flt_add (x y : flt) : flt :=
  match x, y with
  | NaN, _ | _, NaN => NaN
  | Inf s1, Inf s2 => if Bool.eqb s1 s2 then Inf s1 else NaN
  | Inf s, Finite _ _ | Finite _ _, Inf s => Inf s
  | Finite m1 e1, Finite m2 e2 =>
      let e := Z.min e1 e2 in
      round64 (m1 * 2 ^ (e1 - e) + m2 * 2 ^ (e2 - e)) e
  end.

(** [x * y] on floats: the exact product, rounded. *)
Definition flt_mul (x y : flt) : flt :=
  match x, y with
  | NaN, _ | _, NaN => NaN
  | Inf s1, Inf s2 => Inf (xorb s1 s2)
  | Inf s, Finite m _ | Finite m _, Inf s =>
      if m =? 0 then NaN else Inf (xorb s (m <? 0))
  | Finite m1 e1, Finite m2 e2 => round64 (m1 * m2) (e1 + e2)
  end.

(** A number: an [int] or a [float]. *)
Inductive num :=
| NInt (z : Z)
| NFloat (x : flt).

Section Operations.
Context {msg : Type}.

(** [n / 2**k] on [int]s, for the divisors 2 and 4 of the program: the
    rounded quotient, or [OverflowError]. *)
Definition int_truediv_pow2 (n k : Z) : outcome msg flt :=
  match round64 n (- k) with
  | Inf _ => Raise OverflowError
  | x => Return x
  end.

(** The conversion of an [int] operand that meets a [float]. *)
Definition of_int (n : Z) : outcome msg flt :=
  match round64 n 0 with
  | Inf _ => Raise OverflowError
  | x => Return x
  end.

(** [a + b] *)
Definition add (a b : num) : outcome msg num :=
  match a, b with
  | NInt x, NInt y => Return (NInt (x + y))
  | NInt x, NFloat g =>
      match of_int x with
      | Return f => Return (NFloat (flt_add f g))
      | Raise e => Raise e
      end
  | NFloat f, NInt y =>
      match of_int y with
      | Return g => Return (NFloat (flt_add f g))
      | Raise e => Raise e
      end
  | NFloat f, NFloat g => Return (NFloat (flt_add f g))
  end.

(** [a * b] *)
Definition mul (a b : num) : outcome msg num :=
  match a, b with
  | NInt x, NInt y => Return (NInt (x * y))
  | NInt x, NFloat g =>
      match of_int x with
      | Return f => Return (NFloat (flt_mul f g))
      | Raise e => Raise e
      end
  | NFloat f, NInt y =>
      match of_int y with
      | Return g => Return (NFloat (flt_mul f g))
      | Raise e => Raise e
      end
  | NFloat f, NFloat g => Return (NFloat (flt_mul f g))
  end.

(** [math.ceil(x)] on a float; [nan_message] is the message of the
    [ValueError] for a NaN. *)
Definition math_ceil (nan_message : msg) (x : flt) : outcome msg Z :=
  match x with
  | Finite m e => Return (- Z.shiftl (- m) e)
  | Inf _ => Raise OverflowError
  | NaN => Raise (ValueError nan_message)
  end.

(** [int(a)]: a float is cut towards zero. *)
Definition to_int (nan_message : msg) (a : num) : outcome msg Z :=
  match a with
  | NInt z => Return z
  | NFloat (Finite m e) =>
      Return (if 0 <=? m then Z.shiftl m e else - Z.shiftl (- m) e)
  | NFloat (Inf _) => Raise OverflowError
  | NFloat NaN => Raise (ValueError nan_message)
  end.

End Operations.

End Num.

(** ** The character layer: [main.py]

    [main.py] imports the first version.  Its containers (the list of
    classes, the lists of saving throws and skills, the set of expertise
    skills) are objects too: a [CharacterBuilder] fills them in place and
    hands them, not copies, to the [Character] it builds.  Each kind of
    container has a store of its own.  Their elements are what the
    annotations say: members of the enumerations and tuples with [int]
    levels; the tests [isinstance(s, Ability)] and [isinstance(s, Skill)]
    that [Character.__init__] makes on elements hold for all of them. *)

Module Main.

Inductive CharacterClass :=
| ARTIFICER | BARBARIAN | BARD | CLERIC | DRUID | FIGHTER | MONK
| PALADIN | RANGER | ROGUE | SORCERER | WARLOCK | WIZARD.

(** The second component of a member's value. *)
Definition hit_dice (c : CharacterClass) : Z :=
  match c with
  | ARTIFICER => 8
  | BARBARIAN => 12
  | BARD => 8
  | CLERIC => 8
  | DRUID => 8
  | FIGHTER => 10
  | MONK => 8
  | PALADIN => 10
  | RANGER => 10
  | ROGUE => 8
  | SORCERER => 6
  | WARLOCK => 8
  | WIZARD => 6
  end.

(** The dictionary [_proficiencies] that [SavingThrowProficiencies.__init__]
    builds. *)
Definition _proficiencies (c : CharacterClass) : list Ability :=
  match c with
  | ARTIFICER => [CONSTITUTION; INTELLIGENCE]
  | BARBARIAN => [STRENGTH; CONSTITUTION]
  | BARD => [DEXTERITY; CHARISMA]
  | CLERIC => [WISDOM; CHARISMA]
  | DRUID => [INTELLIGENCE; WISDOM]
  | FIGHTER => [STRENGTH; CONSTITUTION]
  | MONK => [STRENGTH; DEXTERITY]
  | PALADIN => [WISDOM; CHARISMA]
  | RANGER => [STRENGTH; DEXTERITY]
  | ROGUE => [DEXTERITY; INTELLIGENCE]
  | SORCERER => [CONSTITUTION; CHARISMA]
  | WARLOCK => [WISDOM; INTELLIGENCE]
  | WIZARD => [INTELLIGENCE; WISDOM]
  end.

(** [SavingThrowProficiencies().get_proficiencies(character_class)]:
    [dict.get], which hashes its key, with the default [[]]. *)
Definition get_proficiencies {msg} (character_class : arg CharacterClass)
  : outcome msg (list Ability) :=
  match character_class with
  | Member c => Return (_proficiencies c)
  | Other v => if hashable v then Return [] else Raise TypeError
  end.

Inductive Skill :=
| ACROBACIA | ADESTRAR_ANIMAIS | ARCANISMO | ATLETISMO | ENGANACAO | HISTORIA
| INTUICAO | INTIMIDACAO | INVESTIGACAO | MEDICINA | NATUREZA | PERCEPCAO
| ATUACAO | PERSUASAO | RELIGIAO | PRESTIDIGITACAO | FURTIVIDADE
| SOBREVIVENCIA.

#[global] Instance Skill_eq_dec : EqDecision Skill.
Proof. solve_decision. Defined.

(** [for skill in Skill] *)
Definition Skill_members : list Skill :=
  [ACROBACIA; ADESTRAR_ANIMAIS; ARCANISMO; ATLETISMO; ENGANACAO; HISTORIA;
   INTUICAO; INTIMIDACAO; INVESTIGACAO; MEDICINA; NATUREZA; PERCEPCAO;
   ATUACAO; PERSUASAO; RELIGIAO; PRESTIDIGITACAO; FURTIVIDADE;
   SOBREVIVENCIA].

(** The first component of a member's value. *)
Definition skill_id (s : Skill) : nat :=
  match s with
  | ACROBACIA => 0 | ADESTRAR_ANIMAIS => 1 | ARCANISMO => 2 | ATLETISMO => 3
  | ENGANACAO => 4 | HISTORIA => 5 | INTUICAO => 6 | INTIMIDACAO => 7
  | INVESTIGACAO => 8 | MEDICINA => 9 | NATUREZA => 10 | PERCEPCAO => 11
  | ATUACAO => 12 | PERSUASAO => 13 | RELIGIAO => 14 | PRESTIDIGITACAO => 15
  | FURTIVIDADE => 16 | SOBREVIVENCIA => 17
  end%nat.

#[global] Instance Skill_countable : Countable Skill.
Proof.
  apply (inj_countable skill_id (fun n => Skill_members !! n)).
  intros []; reflexivity.
Defined.

(** [skill.ability], the third component. *)
Definition skill_ability (s : Skill) : Ability :=
  match s with
  | ACROBACIA => DEXTERITY
  | ADESTRAR_ANIMAIS => WISDOM
  | ARCANISMO => INTELLIGENCE
  | ATLETISMO => STRENGTH
  | ENGANACAO => CHARISMA
  | HISTORIA => INTELLIGENCE
  | INTUICAO => WISDOM
  | INTIMIDACAO => CHARISMA
  | INVESTIGACAO => INTELLIGENCE
  | MEDICINA => WISDOM
  | NATUREZA => INTELLIGENCE
  | PERCEPCAO => WISDOM
  | ATUACAO => CHARISMA
  | PERSUASAO => CHARISMA
  | RELIGIAO => INTELLIGENCE
  | PRESTIDIGITACAO => DEXTERITY
  | FURTIVIDADE => DEXTERITY
  | SOBREVIVENCIA => WISDOM
  end.

(** The named tuple [ClassWithLevel(level, class_)]. *)
Record ClassWithLevel := {
  level : Z;
  class_ : CharacterClass
}.

(** The messages of the [ValueError]s of [Character] and
    [CharacterBuilder]:
    - [NameMustBeNonEmptyString]: "Name must be a non-empty string";
    - [ClassesMustBePositiveLevels]: "Classes must be a non-empty list of
      ClassLevel with positive levels";
    - [AbilityMustBeInstance]: "Ability must be a CharacterAbility
      instance";
    - [NoExpertiseWithoutSkills]: "Cannot have expertise without proficient
      skills";
    - [ExpertiseMustBeSubset]: "Expertise skills must be a subset of
      proficient skills";
    - [TotalLevelCannotExceed20]: "Total character level cannot exceed 20";
    - [LevelMustBePositiveInteger]: "Level must be a positive integer";
    - [ClassMustBeInstance]: "Class must be a CharacterClass instance";
    - [SkillMustBeInstance]: "Skill must be a Skill instance";
    - [NoExpertiseOnNonProficient]: "Cannot add expertise to a
      non-proficient skill";
    - [NameMustBeSet], [ClassMustBeSet], [AbilityMustBeSet]: "Name must be
      set", "At least one class must be set", "Ability must be set";
    - [CannotConvertNaN]: the message of [math.ceil] and [int] on a NaN;
    - [FromAbilityScore m]: a message of [ability_score.py]. *)
Inductive msg :=
| NameMustBeNonEmptyString
| ClassesMustBePositiveLevels
| AbilityMustBeInstance
| NoExpertiseWithoutSkills
| ExpertiseMustBeSubset
| TotalLevelCannotExceed20
| LevelMustBePositiveInteger
| ClassMustBeInstance
| SkillMustBeInstance
| NoExpertiseOnNonProficient
| NameMustBeSet
| ClassMustBeSet
| AbilityMustBeSet
| CannotConvertNaN
| FromAbilityScore (m : V1.msg).

(** The state: the heap of [ability_score.py] and one store for each kind
    of container. *)
Record World := {
  scores : V1.heap;
  class_lists : gmap loc (list ClassWithLevel);
  ability_lists : gmap loc (list Ability);
  skill_lists : gmap loc (list Skill);
  skill_sets : gmap loc (gset Skill)
}.

Abbreviation Mw := (M msg World).

Definition with_scores (w : World) (h : V1.heap) : World :=
  {| scores := h; class_lists := class_lists w;
     ability_lists := ability_lists w; skill_lists := skill_lists w;
     skill_sets := skill_sets w |}.

Definition with_class_lists (w : World) (m : gmap loc (list ClassWithLevel))
  : World :=
  {| scores := scores w; class_lists := m;
     ability_lists := ability_lists w; skill_lists := skill_lists w;
     skill_sets := skill_sets w |}.

Definition with_ability_lists (w : World) (m : gmap loc (list Ability))
  : World :=
  {| scores := scores w; class_lists := class_lists w;
     ability_lists := m; skill_lists := skill_lists w;
     skill_sets := skill_sets w |}.

Definition with_skill_lists (w : World) (m : gmap loc (list Skill)) : World :=
  {| scores := scores w; class_lists := class_lists w;
     ability_lists := ability_lists w; skill_lists := m;
     skill_sets := skill_sets w |}.

Definition with_skill_sets (w : World) (m : gmap loc (gset Skill)) : World :=
  {| scores := scores w; class_lists := class_lists w;
     ability_lists := ability_lists w; skill_lists := skill_lists w;
     skill_sets := m |}.

(** A container of one kind: reading it, replacing its content in place,
    and building a new one. *)
Section Store.
Context {T : Type}
  (store : World -> gmap loc T) (with_store : World -> gmap loc T -> World).

Definition read (c : loc) : Mw T :=
  fun w =>
    match store w !! c with
    | Some x => (Return x, w)
    | None => (Raise DanglingReference, w)
    end.

Definition write (c : loc) (x : T) : Mw unit :=
  fun w =>
    match store w !! c with
    | Some _ => (Return tt, with_store w (<[c := x]> (store w)))
    | None => (Raise DanglingReference, w)
    end.

Definition new (x : T) : Mw loc :=
  fun w =>
    let l := fresh (dom (store w)) in
    (Return l, with_store w (<[l := x]> (store w))).

End Store.

(** An exception of [ability_score.py] seen from [main.py]. *)
Definition from_scores (e : exn V1.msg) : exn msg :=
  match e with
  | ValueError m => ValueError (FromAbilityScore m)
  | OverflowError => OverflowError
  | AttributeError => AttributeError
  | TypeError => TypeError
  | DanglingReference => DanglingReference
  end.

(** A computation of [ability_score.py] run on its heap. *)
Definition on_scores {A} (m : V1.Mh A) : Mw A :=
  fun w =>
    match m (scores w) with
    | (Return a, h) => (Return a, with_scores w h)
    | (Raise e, h) => (Raise (from_scores e), with_scores w h)
    end.

(** [name] when it is a non-empty [str]: the test
    [not name or not isinstance(name, str)] fails exactly then. *)
Definition nonempty_str (name : value) : option string :=
  match name with
  | VStr s => if String.eqb s "" then None else Some s
  | _ => None
  end.

(** [sum(cl.level for cl in classes)] *)
Definition sum_levels (classes : list ClassWithLevel) : Z :=
  fold_left (fun acc cl => acc + level cl) classes 0.

(** The attributes of a [Character]; none of them is assigned again after
    [__init__]. *)
Record Character := {
  name : string;
  classes : loc;
  ability : V1.AbilityScores;
  save_throws : loc;
  skills : loc;
  expertise_skills : loc
}.

(** An optional container argument: [None] reads as an empty container. *)
Definition read_optional {T} (store : World -> gmap loc T) (empty : T)
  (x : option loc) : Mw T :=
  match x with
  | Some c => read store c
  | None => ret empty
  end.

(** [x or []], [x or set()]: the container given when it is not empty, a new
    empty one otherwise. *)
Definition or_new {T} (store : World -> gmap loc T)
  (with_store : World -> gmap loc T -> World) (is_empty : T -> bool)
  (empty : T) (x : option loc) : Mw loc :=
  match x with
  | Some c =>
      content <- read store c ;;
      if is_empty content then new store with_store empty else ret c
  | None => new store with_store empty
  end.

Definition is_nil {T} (l : list T) : bool :=
  match l with [] => true | _ => false end.

Definition is_empty_set (s : gset Skill) : bool := bool_decide (s = ∅).

(** [Character.__init__]; [ability] is [None] for an argument that is not
    an instance of [AbilityScores].  The containers of this model hold
    elements of the annotated types only, so the tests that [__init__] makes
    on elements are not written out: [isinstance(cl, ClassWithLevel)] and
    [isinstance(cl.level, int)] hold for every element of [classes], and the
    three tests [all(isinstance(s, ...) for s in ...)] on [save_throws],
    [skills] and [expertise_skills], with their errors, never fail.  What is
    proved of [__init__] is proved for such containers, as a builder makes
    them, and says nothing of a list that holds anything else. *)
Definition Character_init
  (name : value) (classes : loc) (ability : option V1.AbilityScores)
  (save_throws skills expertise_skills : option loc) : Mw Character :=
  match nonempty_str name with
  | None => raise (ValueError NameMustBeNonEmptyString)
  | Some name_str =>
      cls <- read class_lists classes ;;
      if is_nil cls || negb (forallb (fun cl => 0 <? level cl) cls)
      then raise (ValueError ClassesMustBePositiveLevels)
      else
        match ability with
        | None => raise (ValueError AbilityMustBeInstance)
        | Some scores_ref =>
            sks <- read_optional skill_lists [] skills ;;
            exs <- read_optional skill_sets ∅ expertise_skills ;;
            if negb (is_empty_set exs) && is_nil sks
            then raise (ValueError NoExpertiseWithoutSkills)
            else if negb (is_empty_set exs)
                    && negb (forallb (fun s => bool_decide (s ∈ sks))
                               (elements exs))
            then raise (ValueError ExpertiseMustBeSubset)
            else
              let total_level := sum_levels cls in
              if 20 <? total_level
              then raise (ValueError TotalLevelCannotExceed20)
              else
                sts_ref <- or_new ability_lists with_ability_lists is_nil []
                             save_throws ;;
                sks_ref <- or_new skill_lists with_skill_lists is_nil []
                             skills ;;
                exs_ref <- or_new skill_sets with_skill_sets is_empty_set ∅
                             expertise_skills ;;
                ret {| name := name_str;
                       classes := classes;
                       ability := scores_ref;
                       save_throws := sts_ref;
                       skills := sks_ref;
                       expertise_skills := exs_ref |}
        end
  end.

(** [total_level] *)
Definition total_level (self : Character) : Mw Z :=
  cls <- read class_lists (classes self) ;;
  ret (sum_levels cls).

(** [proficiency]: [math.ceil((self.total_level / 4) + 1)] *)
Definition proficiency (self : Character) : Mw Z :=
  total <- total_level self ;;
  quarter <- lift (Num.int_truediv_pow2 total 2) ;;
  x <- lift (Num.add (Num.NFloat quarter) (Num.NInt 1)) ;;
  match x with
  | Num.NFloat f => lift (Num.math_ceil CannotConvertNaN f)
  | Num.NInt z => ret z
  end.

(** [_calc_hp] *)
Definition _calc_hp (self : Character) (die quantity : Z) (first_level : bool)
  : Mw Num.num :=
  die_value <- (if first_level then ret (Num.NInt die)
                else
                  half <- lift (Num.int_truediv_pow2 die 1) ;;
                  lift (Num.add (Num.NFloat half) (Num.NInt 1))) ;;
  constitution_mod <- on_scores (V1.constitution_mod (ability self)) ;;
  with_mod <- lift (Num.add die_value (Num.NInt constitution_mod)) ;;
  lift (Num.mul with_mod (Num.NInt quantity)).

(** The loop of [total_hp], from the running [total] and [first_level]. *)
Fixpoint total_hp_loop (self : Character) (cls : list ClassWithLevel)
  (total : Num.num) (first_level : bool) : Mw Num.num :=
  match cls with
  | [] => ret total
  | cl :: rest =>
      hp <- _calc_hp self (hit_dice (class_ cl)) (level cl) first_level ;;
      total' <- lift (Num.add total hp) ;;
      total_hp_loop self rest total' false
  end.

(** [total_hp] *)
Definition total_hp (self : Character) : Mw Z :=
  cls <- read class_lists (classes self) ;;
  total <- total_hp_loop self cls (Num.NInt 0) true ;;
  lift (Num.to_int CannotConvertNaN total).

(** The dictionary literal of [get_save_throw_modifier] and
    [get_skill_modifier]: the six properties are read in this order, all of
    them, before the dictionary is indexed. *)
Definition ability_mods (self : Character) : Mw (Scores Z) :=
  s <- on_scores (V1.strength_mod (ability self)) ;;
  d <- on_scores (V1.dexterity_mod (ability self)) ;;
  c <- on_scores (V1.constitution_mod (ability self)) ;;
  i <- on_scores (V1.intelligence_mod (ability self)) ;;
  w <- on_scores (V1.wisdom_mod (ability self)) ;;
  ch <- on_scores (V1.charisma_mod (ability self)) ;;
  ret (mkScores s d c w i ch).

(** [get_save_throw_modifier] *)
Definition get_save_throw_modifier (self : Character) (save_throw : Ability)
  : Mw Z :=
  mods <- ability_mods self ;;
  let ability_mod := get save_throw mods in
  prof <- proficiency self ;;
  sts <- read ability_lists (save_throws self) ;;
  let proficiency_bonus :=
    prof * (if bool_decide (save_throw ∈ sts) then 1 else 0) in
  ret (ability_mod + proficiency_bonus).

(** [get_skill_modifier] *)
Definition get_skill_modifier (self : Character) (skill : Skill) : Mw Z :=
  mods <- ability_mods self ;;
  let ability_mod := get (skill_ability skill) mods in
  prof <- proficiency self ;;
  exs <- read skill_sets (expertise_skills self) ;;
  factor <- (if bool_decide (skill ∈ exs) then ret 2
             else
               sks <- read skill_lists (skills self) ;;
               ret (if bool_decide (skill ∈ sks) then 1 else 0)) ;;
  ret (ability_mod + prof * factor).

(** The attributes of a [CharacterBuilder].  The four containers are built
    by [__init__] and never replaced; the other three attributes are
    assigned by the methods, which all return [self]. *)
Record CharacterBuilder := {
  _name : option string;
  _classes : loc;
  _ability : option V1.AbilityScores;
  __first_class_level : bool;
  _save_throws : loc;
  _skills : loc;
  _expertise_skills : loc
}.

(** [CharacterBuilder.__init__] *)
Definition CharacterBuilder_init : Mw CharacterBuilder :=
  cls <- new class_lists with_class_lists [] ;;
  sts <- new ability_lists with_ability_lists [] ;;
  sks <- new skill_lists with_skill_lists [] ;;
  exs <- new skill_sets with_skill_sets ∅ ;;
  ret {| _name := None;
         _classes := cls;
         _ability := None;
         __first_class_level := true;
         _save_throws := sts;
         _skills := sks;
         _expertise_skills := exs |}.

(** [with_name] *)
Definition with_name (self : CharacterBuilder) (name : value)
  : Mw CharacterBuilder :=
  match nonempty_str name with
  | None => raise (ValueError NameMustBeNonEmptyString)
  | Some s =>
      ret {| _name := Some s;
             _classes := _classes self;
             _ability := _ability self;
             __first_class_level := __first_class_level self;
             _save_throws := _save_throws self;
             _skills := _skills self;
             _expertise_skills := _expertise_skills self |}
  end.

(** [self._classes.append(ClassWithLevel(level=n, class_=c))] *)
Definition append_class (self : CharacterBuilder) (n : Z) (c : CharacterClass)
  : Mw unit :=
  cls <- read class_lists (_classes self) ;;
  write class_lists with_class_lists (_classes self)
    (cls ++ [{| level := n; class_ := c |}]).

(** [add_class] *)
Definition add_class (self : CharacterBuilder) (level : value)
  (class_ : arg CharacterClass) : Mw CharacterBuilder :=
  match as_int level with
  | None => raise (ValueError LevelMustBePositiveInteger)
  | Some n =>
      if n <=? 0 then raise (ValueError LevelMustBePositiveInteger)
      else
        match class_ with
        | Other _ => raise (ValueError ClassMustBeInstance)
        | Member c =>
            cls <- read class_lists (_classes self) ;;
            let current_total_level := sum_levels cls + n in
            if 20 <? current_total_level
            then raise (ValueError TotalLevelCannotExceed20)
            else if __first_class_level self
            then
              class_proficiencies <- lift (get_proficiencies class_) ;;
              sts <- read ability_lists (_save_throws self) ;;
              write ability_lists with_ability_lists (_save_throws self)
                (sts ++ class_proficiencies) ;;;
              append_class self 1 c ;;;
              let n := n - 1 in
              let self :=
                {| _name := _name self;
                   _classes := _classes self;
                   _ability := _ability self;
                   __first_class_level := false;
                   _save_throws := _save_throws self;
                   _skills := _skills self;
                   _expertise_skills := _expertise_skills self |} in
              if n <? 1 then ret self
              else
                (if 0 <? n then append_class self n c else ret tt) ;;;
                ret self
            else
              (if 0 <? n then append_class self n c else ret tt) ;;;
              ret self
        end
  end.

(** [with_ability]; [ability] is [None] for an argument that is not an
    instance of [AbilityScores]. *)
Definition with_ability (self : CharacterBuilder)
  (ability : option V1.AbilityScores) : Mw CharacterBuilder :=
  match ability with
  | None => raise (ValueError AbilityMustBeInstance)
  | Some a =>
      ret {| _name := _name self;
             _classes := _classes self;
             _ability := Some a;
             __first_class_level := __first_class_level self;
             _save_throws := _save_throws self;
             _skills := _skills self;
             _expertise_skills := _expertise_skills self |}
  end.

(** [add_skill] *)
Definition add_skill (self : CharacterBuilder) (skill : arg Skill)
  : Mw CharacterBuilder :=
  match skill with
  | Other _ => raise (ValueError SkillMustBeInstance)
  | Member s =>
      sks <- read skill_lists (_skills self) ;;
      (if bool_decide (s ∉ sks)
       then write skill_lists with_skill_lists (_skills self) (sks ++ [s])
       else ret tt) ;;;
      ret self
  end.

(** [add_expertise] *)
Definition add_expertise (self : CharacterBuilder) (skill : arg Skill)
  : Mw CharacterBuilder :=
  match skill with
  | Other _ => raise (ValueError SkillMustBeInstance)
  | Member s =>
      sks <- read skill_lists (_skills self) ;;
      if bool_decide (s ∉ sks)
      then raise (ValueError NoExpertiseOnNonProficient)
      else
        exs <- read skill_sets (_expertise_skills self) ;;
        write skill_sets with_skill_sets (_expertise_skills self)
          ({[s]} ∪ exs) ;;;
        ret self
  end.

(** [build] *)
Definition build (self : CharacterBuilder) : Mw Character :=
  match _name self with
  | None => raise (ValueError NameMustBeSet)
  | Some name =>
      cls <- read class_lists (_classes self) ;;
      if is_nil cls then raise (ValueError ClassMustBeSet)
      else
        match _ability self with
        | None => raise (ValueError AbilityMustBeSet)
        | Some a =>
            Character_init (VStr name) (_classes self) (Some a)
              (Some (_save_throws self)) (Some (_skills self))
              (Some (_expertise_skills self))
        end
  end.

(** [get_hitdices]: the dictionary [dices], in insertion order, after one
    more class. *)
Fixpoint count_die (key : string) (n : Z) (dices : list (string * Z))
  : list (string * Z) :=
  match dices with
  | [] => [(key, 0 + n)]
  | (k, v) :: rest =>
      if String.eqb k key then (k, v + n) :: rest
      else (k, v) :: count_die key n rest
  end.

(** [f"d{cl.class_.hit_dice}"] *)
Definition die_key (cl : ClassWithLevel) : string :=
  "d" +:+ pretty (hit_dice (class_ cl)).

(** The dictionary after the loop over the classes. *)
Definition dices_of (cls : list ClassWithLevel) : list (string * Z) :=
  fold_left (fun dices cl => count_die (die_key cl) (level cl) dices) cls [].

(** [get_hitdices]: [f"{die_count}d{die_value}"] for each item, where
    [die_value] is the key. *)
Definition get_hitdices (self : Character) : Mw (list string) :=
  cls <- read class_lists (classes self) ;;
  ret (map (fun '(die_value, die_count) =>
              pretty die_count +:+ "d" +:+ die_value) (dices_of cls)).

(** What an optional container argument stands for in world [w]: the
    content of the container given, or the empty container for [None]. *)
Definition given {T} (store : World -> gmap loc T) (empty : T) (w : World)
  (x : option loc) : option T :=
  match x with
  | Some c => store w !! c
  | None => Some empty
  end.

(** *** What a character and a builder hold *)

Record Sheet := {
  sheet_classes : list ClassWithLevel;
  sheet_save_throws : list Ability;
  sheet_skills : list Skill;
  sheet_expertise : gset Skill
}.

(** In world [w] the four containers of [self] hold [S]. *)
Definition character_at (w : World) (self : Character) (S : Sheet) : Prop :=
  class_lists w !! classes self = Some (sheet_classes S) /\
  ability_lists w !! save_throws self = Some (sheet_save_throws S) /\
  skill_lists w !! skills self = Some (sheet_skills S) /\
  skill_sets w !! expertise_skills self = Some (sheet_expertise S).

Definition builder_at (w : World) (self : CharacterBuilder) (S : Sheet)
  : Prop :=
  class_lists w !! _classes self = Some (sheet_classes S) /\
  ability_lists w !! _save_throws self = Some (sheet_save_throws S) /\
  skill_lists w !! _skills self = Some (sheet_skills S) /\
  skill_sets w !! _expertise_skills self = Some (sheet_expertise S).

(** What the methods of a builder keep true of it: levels are at least 1
    and add up to at most 20; before the first class there are no classes
    and no saving throws, afterwards the first entry is one level of the
    first class and the saving throws are those of that class; no skill is
    listed twice; every expertise skill is a listed skill; a name that is
    set is not empty. *)
Definition well_formed (self : CharacterBuilder) (S : Sheet) : Prop :=
  Forall (fun cl => 1 <= level cl) (sheet_classes S) /\
  sum_levels (sheet_classes S) <= 20 /\
  (if __first_class_level self
   then sheet_classes S = [] /\ sheet_save_throws S = []
   else exists first rest,
       sheet_classes S = first :: rest /\ level first = 1 /\
       sheet_save_throws S = _proficiencies (class_ first)) /\
  NoDup (sheet_skills S) /\
  (forall s, s ∈ sheet_expertise S -> s ∈ sheet_skills S) /\
  _name self <> Some "".

(** What [Character.__init__] asks of its arguments: a name that is a
    non-empty [str]; at least one class, every level at least 1; an
    instance of [AbilityScores]; expertise skills, if there are any, among a
    non-empty list of skills; levels that add up to at most 20. *)
Definition acceptable (name : value) (ability : option V1.AbilityScores)
  (S : Sheet) : Prop :=
  is_Some (nonempty_str name) /\
  sheet_classes S <> [] /\
  Forall (fun cl => 1 <= level cl) (sheet_classes S) /\
  is_Some ability /\
  (sheet_expertise S <> ∅ ->
   sheet_skills S <> [] /\
   forall s, s ∈ sheet_expertise S -> s ∈ sheet_skills S) /\
  sum_levels (sheet_classes S) <= 20.

(** The entries [add_class] appends for [n] levels of class [c]: the first
    class of a builder is split into one level and the rest. *)
Definition new_entries (first : bool) (n : Z) (c : CharacterClass)
  : list ClassWithLevel :=
  if first
  then {| level := 1; class_ := c |}
       :: (if n - 1 <? 1 then [] else [{| level := n - 1; class_ := c |}])
  else [{| level := n; class_ := c |}].

(** What the builder holds after a call of [add_class] that returned. *)
Definition after_add_class (first : bool) (n : Z) (c : CharacterClass)
  (S : Sheet) : Sheet :=
  {| sheet_classes := sheet_classes S ++ new_entries first n c;
     sheet_save_throws :=
       if first then sheet_save_throws S ++ _proficiencies c
       else sheet_save_throws S;
     sheet_skills := sheet_skills S;
     sheet_expertise := sheet_expertise S |}.

(** After [add_skill] and [add_expertise]. *)
Definition after_add_skill (s : Skill) (S : Sheet) : Sheet :=
  {| sheet_classes := sheet_classes S;
     sheet_save_throws := sheet_save_throws S;
     sheet_skills :=
       if bool_decide (s ∈ sheet_skills S) then sheet_skills S
       else sheet_skills S ++ [s];
     sheet_expertise := sheet_expertise S |}.

Definition after_add_expertise (s : Skill) (S : Sheet) : Sheet :=
  {| sheet_classes := sheet_classes S;
     sheet_save_throws := sheet_save_throws S;
     sheet_skills := sheet_skills S;
     sheet_expertise := {[s]} ∪ sheet_expertise S |}.

(** [self] with its flag for the first class cleared. *)
Definition first_class_added (self : CharacterBuilder) : CharacterBuilder :=
  {| _name := _name self;
     _classes := _classes self;
     _ability := _ability self;
     __first_class_level := false;
     _save_throws := _save_throws self;
     _skills := _skills self;
     _expertise_skills := _expertise_skills self |}.

(** World [w'] differs from [w] at most in the four containers of [self]. *)
Definition others_kept (self : CharacterBuilder) (w w' : World) : Prop :=
  scores w' = scores w /\
  (forall l, l <> _classes self -> class_lists w' !! l = class_lists w !! l) /\
  (forall l, l <> _save_throws self ->
             ability_lists w' !! l = ability_lists w !! l) /\
  (forall l, l <> _skills self -> skill_lists w' !! l = skill_lists w !! l) /\
  (forall l, l <> _expertise_skills self ->
             skill_sets w' !! l = skill_sets w !! l).

(** The calls a client can make on a builder. *)
Inductive call :=
| WithName (name : value)
| AddClass (level : value) (class_ : arg CharacterClass)
| WithAbility (ability : option V1.AbilityScores)
| AddSkill (skill : arg Skill)
| AddExpertise (skill : arg Skill).

Definition run_call (self : CharacterBuilder) (c : call) : Mw CharacterBuilder :=
  match c with
  | WithName name => with_name self name
  | AddClass level class_ => add_class self level class_
  | WithAbility ability => with_ability self ability
  | AddSkill skill => add_skill self skill
  | AddExpertise skill => add_expertise self skill
  end.

(** The states of a builder that a client can reach: from [__init__], by
    calls that return or raise, and by [build]. *)
Inductive reachable : World -> CharacterBuilder -> Prop :=
| reach_init w self w' :
    CharacterBuilder_init w = (Return self, w') -> reachable w' self
| reach_return w self c self' w' :
    reachable w self -> run_call self c w = (Return self', w') ->
    reachable w' self'
| reach_raise w self c e w' :
    reachable w self -> run_call self c w = (Raise e, w') ->
    reachable w' self
| reach_build w self r w' :
    reachable w self -> build self w = (r, w') -> reachable w' self.

(** The hit points of levels after the first entry, and of a list of
    classes, for a constitution modifier [con]. *)
Definition later_hp (con : Z) (cl : ClassWithLevel) : Z :=
  (hit_dice (class_ cl) / 2 + 1 + con) * level cl.

Definition hit_points (con : Z) (cls : list ClassWithLevel) : Z :=
  match cls with
  | [] => 0
  | first :: rest =>
      (hit_dice (class_ first) + con) * level first
      + fold_right (fun cl acc => later_hp con cl + acc) 0 rest
  end.

(** The hit dice of [cls] in the order of their first appearance, and the
    levels in [cls] of the classes whose hit die is [d]. *)
Definition dice_order (cls : list ClassWithLevel) : list Z :=
  reverse (remove_dups (reverse (map (fun cl => hit_dice (class_ cl)) cls))).

Definition levels_of_die (d : Z) (cls : list ClassWithLevel) : Z :=
  sum_levels (filter (fun cl => hit_dice (class_ cl) = d) cls).

(** A chain of calls on a builder, as [main.py] writes them. *)
Fixpoint run_calls (self : CharacterBuilder) (calls : list call)
  : Mw CharacterBuilder :=
  match calls with
  | [] => ret self
  | c :: rest => self' <- run_call self c ;; run_calls self' rest
  end.

(** The factor of the proficiency bonus in a skill modifier. *)
Definition skill_factor (S : Sheet) (skill : Skill) : Z :=
  if bool_decide (skill ∈ sheet_expertise S) then 2
  else if bool_decide (skill ∈ sheet_skills S) then 1 else 0.

End Main.

(** ** The example of [main.py]

    The character its [__main__] block builds: a barbarian of level 4 over
    the scores 16, 13, 15, 12, 8, 10 with a racial bonus of 2 on strength and
    1 on dexterity, proficient in four skills; then one point of
    constitution and one of strength are added to the level bonus. *)

Module Demo.

Definition empty_world : Main.World :=
  {| Main.scores := ∅; Main.class_lists := ∅; Main.ability_lists := ∅;
     Main.skill_lists := ∅; Main.skill_sets := ∅ |}.

Definition new_scores : Main.Mw V1.AbilityScores :=
  Main.on_scores
    (base <- V1.new_ScoreBase (ints 16 13 15 12 8 10) ;;
     racial <- V1.new_RacialBonus (ints 2 1 0 0 0 0) ;;
     V1.AbilityScores_init base (Some racial) None None).

Definition new_builder : Main.Mw Main.CharacterBuilder :=
  scores <- new_scores ;;
  builder <- Main.CharacterBuilder_init ;;
  builder <- Main.with_name builder (VStr "Silacks Dramalak") ;;
  builder <- Main.with_ability builder (Some scores) ;;
  builder <- Main.add_class builder (VInt 4) (Member Main.BARBARIAN) ;;
  builder <- Main.add_skill builder (Member Main.ATLETISMO) ;;
  builder <- Main.add_skill builder (Member Main.SOBREVIVENCIA) ;;
  builder <- Main.add_skill builder (Member Main.INTIMIDACAO) ;;
  Main.add_skill builder (Member Main.PERCEPCAO).

Definition scores : V1.AbilityScores :=
  {| V1._score_base := 0%nat; V1._racial_bonus := 1%nat;
     V1._feat_bonus := 2%nat; V1._level_bonus := 3%nat |}.

Definition builder : Main.CharacterBuilder :=
  {| Main._name := Some "Silacks Dramalak";
     Main._classes := 0%nat;
     Main._ability := Some scores;
     Main.__first_class_level := false;
     Main._save_throws := 0%nat;
     Main._skills := 0%nat;
     Main._expertise_skills := 0%nat |}.

(** The world when [build] is called. *)
Definition world_before_build : Main.World := snd (new_builder empty_world).

Definition character : Main.Character :=
  {| Main.name := "Silacks Dramalak";
     Main.classes := 0%nat;
     Main.ability := scores;
     Main.save_throws := 0%nat;
     Main.skills := 0%nat;
     Main.expertise_skills := 1%nat |}.

(** The world after [build] and after [increment_attribute]. *)
Definition world : Main.World :=
  snd ((Main.build builder ;;;
        Main.on_scores
          (V1.increment_attribute scores (Member V1.LEVEL_BONUS)
             [(CONSTITUTION, VInt 1); (STRENGTH, VInt 1)]))
         world_before_build).

Definition sheet : Main.Sheet :=
  {| Main.sheet_classes :=
       [{| Main.level := 1; Main.class_ := Main.BARBARIAN |};
        {| Main.level := 3; Main.class_ := Main.BARBARIAN |}];
     Main.sheet_save_throws := [STRENGTH; CONSTITUTION];
     Main.sheet_skills :=
       [Main.ATLETISMO; Main.SOBREVIVENCIA; Main.INTIMIDACAO; Main.PERCEPCAO];
     Main.sheet_expertise := ∅ |}.

(** The values of the four sets in [world]. *)
Definition layers : Layers :=
  {| base_set := mkScores 16 13 15 12 8 10;
     racial_set := mkScores 2 1 0 0 0 0;
     feat_set := mkScores 0 0 0 0 0 0;
     level_set := mkScores 1 0 1 0 0 0 |}.

(** The values of the four sets when [build] is called. *)
Definition layers_at_build : Layers :=
  {| base_set := mkScores 16 13 15 12 8 10;
     racial_set := mkScores 2 1 0 0 0 0;
     feat_set := mkScores 0 0 0 0 0 0;
     level_set := mkScores 0 0 0 0 0 0 |}.

(** The world and the builder after [CharacterBuilder()], and the calls
    that follow. *)
Definition world_at_start : Main.World :=
  snd ((new_scores ;;; Main.CharacterBuilder_init) empty_world).

Definition builder_at_start : Main.CharacterBuilder :=
  {| Main._name := None;
     Main._classes := 0%nat;
     Main._ability := None;
     Main.__first_class_level := true;
     Main._save_throws := 0%nat;
     Main._skills := 0%nat;
     Main._expertise_skills := 0%nat |}.

Definition calls : list Main.call :=
  [Main.WithName (VStr "Silacks Dramalak");
   Main.WithAbility (Some scores);
   Main.AddClass (VInt 4) (Member Main.BARBARIAN);
   Main.AddSkill (Member Main.ATLETISMO);
   Main.AddSkill (Member Main.SOBREVIVENCIA);
   Main.AddSkill (Member Main.INTIMIDACAO);
   Main.AddSkill (Member Main.PERCEPCAO)].

(** The world after [build]; after two levels of fighter have then been
    added to the builder; after one more skill has been added instead. *)
Definition world_built : Main.World :=
  snd (Main.build builder world_before_build).

Definition world_multiclassed : Main.World :=
  snd (Main.add_class builder (VInt 2) (Member Main.FIGHTER) world_built).

Definition world_with_arcana : Main.World :=
  snd (Main.add_skill builder (Member Main.ARCANISMO) world_built).

End Demo.

(** ** A score too large for a float

    A base strength of [2^1025 + 10] in both versions, every other value
    0. *)

Module Limits.

Definition huge_score : Z := 2 ^ 1025 + 10.

Definition layers : Layers :=
  {| base_set := mkScores huge_score 0 0 0 0 0;
     racial_set := mkScores 0 0 0 0 0 0;
     feat_set := mkScores 0 0 0 0 0 0;
     level_set := mkScores 0 0 0 0 0 0 |}.

Definition v2_heap : V2.heap :=
  snd ((base <- V2.new_BaseAbilities (ints huge_score 0 0 0 0 0) ;;
        V2.CharacterStats_init base None None None) ∅).

Definition v1_heap : V1.heap :=
  snd ((base <- V1.new_ScoreBase (ints huge_score 0 0 0 0 0) ;;
        V1.AbilityScores_init base None None None) ∅).

End Limits.

(** ** More than one aggregator

    The heaps of the scenario after a second aggregator has been built over
    the same base set, [CharacterStats(base)] and [AbilityScores(base)]: its
    three bonus sets are new, at the references 4, 5 and 6.  A third
    aggregator is given the feat set of the first in place of its own:
    [CharacterStats(base, racial=second.racial_bonus,
    feat=first.feat_bonus, level=second.level_bonus)]. *)

Module Pair.

Definition v2_heap : V2.heap :=
  snd (V2.CharacterStats_init 0%nat None None None Scenario.v2_heap).

Definition v2_second : V2.CharacterStats :=
  {| V2._base_abilities := 0%nat;
     V2._racial_bonus := 4%nat;
     V2._feat_bonus := 5%nat;
     V2._level_bonus := 6%nat;
     V2._score_components := [0%nat; 4%nat; 5%nat; 6%nat] |}.

Definition v2_third : V2.CharacterStats :=
  {| V2._base_abilities := 0%nat;
     V2._racial_bonus := 4%nat;
     V2._feat_bonus := 2%nat;
     V2._level_bonus := 6%nat;
     V2._score_components := [0%nat; 4%nat; 2%nat; 6%nat] |}.

Definition v1_heap : V1.heap :=
  snd (V1.AbilityScores_init 0%nat None None None Scenario.v1_heap).

Definition v1_second : V1.AbilityScores :=
  {| V1._score_base := 0%nat;
     V1._racial_bonus := 4%nat;
     V1._feat_bonus := 5%nat;
     V1._level_bonus := 6%nat |}.

Definition v1_third : V1.AbilityScores :=
  {| V1._score_base := 0%nat;
     V1._racial_bonus := 4%nat;
     V1._feat_bonus := 2%nat;
     V1._level_bonus := 6%nat |}.

(** The values the second and the third aggregator hold. *)
Definition layers : Layers :=
  {| base_set := mkScores 14 12 10 8 16 10;
     racial_set := mkScores 0 0 0 0 0 0;
     feat_set := mkScores 0 0 0 0 0 0;
     level_set := mkScores 0 0 0 0 0 0 |}.

(** The batch added to the feat set of the first aggregator. *)
Definition batch : list (Ability * value) := [(DEXTERITY, VInt 2)].

Definition v2_heap_after : V2.heap :=
  snd (V2.add_bonus Scenario.v2_stats (Member V2.FEAT) batch v2_heap).

Definition v1_heap_after : V1.heap :=
  snd (V1.increment_attribute Scenario.v1_scores (Member V1.FEAT_BONUS)
         batch v1_heap).

End Pair.

(** ** One object in two slots

    Neither constructor compares the objects it is given.  First version:
    [r = RacialBonus(strength=5)] and
    [AbilityScores(ScoreBase(0, 0, 0, 0, 0, 0), racial=r, feat=r)].  Second
    version: [r = AbilityBonus(strength=5)], whose tag is [RACIAL], and
    [CharacterStats(base=r, racial=r)].  Each run reads the total of
    strength, adds 10 to strength in the racial set, and reads the total
    again. *)

Module Shared.

Definition v1_run : V1.Mh (Z * Z) :=
  base <- V1.new_ScoreBase zeros ;;
  r <- V1.new_RacialBonus (ints 5 0 0 0 0 0) ;;
  self <- V1.AbilityScores_init base (Some r) (Some r) None ;;
  before <- V1._sum_scores self STRENGTH ;;
  V1.increment_attribute self (Member V1.RACIAL_BONUS)
    [(STRENGTH, VInt 10)] ;;;
  after <- V1._sum_scores self STRENGTH ;;
  ret (before, after).

Definition v2_run : V2.Mh (Z * Z) :=
  r <- V2.new_AbilityBonus (ints 5 0 0 0 0 0) (Member V2.RACIAL) ;;
  self <- V2.CharacterStats_init r (Some r) None None ;;
  before <- V2.total_score self STRENGTH ;;
  V2.add_bonus self (Member V2.RACIAL) [(STRENGTH, VInt 10)] ;;;
  after <- V2.total_score self STRENGTH ;;
  ret (before, after).

End Shared.

(** * Properties *)

(** ** Reading and writing the six attributes *)

Lemma getattr_field_name {T} (c : Scores T) (a : Ability) :
  getattr c (field_name a) = Some (get a c).
Proof. destruct a; reflexivity. Qed.

Lemma get_set_eq {T} (a : Ability) (v : T) (c : Scores T) :
  get a (set a v c) = v.
Proof. destruct c, a; reflexivity. Qed.

Lemma get_set_ne {T} (a b : Ability) (v : T) (c : Scores T) :
  a <> b -> get a (set b v c) = get a c.
Proof. destruct c, a, b; intros Hne; try reflexivity; contradiction. Qed.

Lemma get_smap {T U} (f : T -> U) (a : Ability) (c : Scores T) :
  get a (smap f c) = f (get a c).
Proof. destruct a; reflexivity. Qed.

Lemma get_ints (a : Ability) (s d c w i ch : Z) :
  get a (ints s d c w i ch) = VInt (get a (mkScores s d c w i ch)).
Proof. destruct a; reflexivity. Qed.

Lemma scores_eq {T} (c c' : Scores T) :
  (forall a, get a c = get a c') -> c = c'.
Proof.
  intros Hget. destruct c, c'.
  pose proof (Hget STRENGTH). pose proof (Hget DEXTERITY).
  pose proof (Hget CONSTITUTION). pose proof (Hget WISDOM).
  pose proof (Hget INTELLIGENCE). pose proof (Hget CHARISMA).
  simpl in *. congruence.
Qed.

Lemma get_increase (a : Ability) (increments : list (Ability * value))
  (f : Scores Z) :
  get a (increase f increments) = get a f + amount_for a increments.
Proof.
  unfold increase. revert f.
  induction increments as [|[b v] l IH]; intros f; simpl.
  - lia.
  - rewrite IH. destruct (decide (b = a)) as [->|Hne].
    + rewrite get_set_eq. lia.
    + rewrite get_set_ne by congruence. reflexivity.
Qed.

Lemma amount_for_nonneg (a : Ability) (increments : list (Ability * value)) :
  Forall (fun e => positive_int (snd e) = true) increments ->
  0 <= amount_for a increments.
Proof.
  induction 1 as [|[b v] l Hv _ IH]; simpl; [lia|].
  destruct (decide (b = a)); [|assumption].
  unfold positive_int, to_Z in *. simpl in Hv.
  destruct (as_int v); simpl; [|discriminate]. lia.
Qed.

(** ** The monad and the heap *)

Section HeapFacts.
Context {msg obj : Type} `{ValueSet obj}.
Implicit Types (h : gmap loc obj) (c : loc).

Lemma obj_getattr_lookup h c o (a : Ability) :
  h !! c = Some o ->
  obj_getattr (msg := msg) c (field_name a) h = (Return (get a (fields o)), h).
Proof.
  intros Hc. unfold obj_getattr. rewrite Hc, getattr_field_name. reflexivity.
Qed.

Lemma obj_getattr_heap c name h (r : outcome msg Z) h' :
  obj_getattr c name h = (r, h') -> h' = h.
Proof.
  unfold obj_getattr. intros Hr.
  destruct (h !! c) as [o|]; [destruct (getattr (fields o) name)|];
    congruence.
Qed.

Lemma reads_only_ret {A} (a : A) : reads_only (msg := msg) (obj := obj) (ret a).
Proof. intros h r h' Hr. unfold ret in Hr. congruence. Qed.

Lemma reads_only_raise {A} (e : exn msg) : reads_only (msg := msg) (obj := obj) (raise (A := A) e).
Proof. intros h r h' Hr. unfold raise in Hr. congruence. Qed.

Lemma reads_only_getattr c name : reads_only (msg := msg) (obj := obj) (obj_getattr c name).
Proof. intros h r h'. apply obj_getattr_heap. Qed.

Lemma reads_only_bind {A B} (m : M msg (gmap loc obj) A)
  (k : A -> M msg (gmap loc obj) B) :
  reads_only (msg := msg) (obj := obj) m -> (forall a, reads_only (msg := msg) (obj := obj) (k a)) -> reads_only (msg := msg) (obj := obj) (bind m k).
Proof.
  intros Hm Hk h r h' Hr. unfold bind in Hr.
  destruct (m h) as [[a|e] h1] eqn:Em.
  - apply Hm in Em. subst h1. eapply Hk; eassumption.
  - apply Hm in Em. congruence.
Qed.

Lemma reads_only_for_each {A} (l : list A)
  (body : A -> M msg (gmap loc obj) unit) :
  (forall x, reads_only (msg := msg) (obj := obj) (body x)) -> reads_only (msg := msg) (obj := obj) (for_each l body).
Proof.
  intros Hbody. induction l as [|x l IH]; simpl.
  - apply reads_only_ret.
  - apply reads_only_bind; [apply Hbody | intros _; exact IH].
Qed.

Lemma reads_only_sum_from {A} (l : list A) (acc : Z)
  (f : A -> M msg (gmap loc obj) Z) :
  (forall x, reads_only (msg := msg) (obj := obj) (f x)) -> reads_only (msg := msg) (obj := obj) (sum_from acc l f).
Proof.
  intros Hf. revert acc. induction l as [|x l IH]; intros acc; simpl.
  - apply reads_only_ret.
  - apply reads_only_bind; [apply Hf | intros v; apply IH].
Qed.

(** The sum over four objects that are in the heap. *)
Lemma sum_four h c1 c2 c3 c4 o1 o2 o3 o4 (a : Ability) :
  h !! c1 = Some o1 -> h !! c2 = Some o2 ->
  h !! c3 = Some o3 -> h !! c4 = Some o4 ->
  sum (msg := msg) [c1; c2; c3; c4] (fun c => obj_getattr c (field_name a)) h
  = (Return (get a (fields o1) + get a (fields o2) + get a (fields o3)
             + get a (fields o4)), h).
Proof.
  intros H1 H2 H3 H4. unfold sum. simpl. unfold bind.
  rewrite (obj_getattr_lookup _ _ _ _ H1), (obj_getattr_lookup _ _ _ _ H2),
    (obj_getattr_lookup _ _ _ _ H3), (obj_getattr_lookup _ _ _ _ H4).
  reflexivity.
Qed.

(** The last loop of both versions, on a target that is in the heap: every
    amount is added to its attribute of the target, in place. *)
Lemma add_each_returns `{!ValueSetLaws obj} (target : loc)
  (increments : list (Ability * value)) h o :
  h !! target = Some o ->
  Forall (fun e => is_Some (as_int (snd e))) increments ->
  for_each (msg := msg) increments (fun '(ability, amount) =>
    current_value <- obj_getattr target (field_name ability) ;;
    match as_int amount with
    | None => raise TypeError
    | Some n => obj_setattr target (field_name ability) (current_value + n)
    end) h
  = (Return tt, <[target := with_fields o (increase (fields o) increments)]> h).
Proof.
  intros Ho Hint. revert h o Ho.
  induction Hint as [|[a v] l [n Hn] _ IH]; intros h o Ho.
  - simpl. unfold ret. rewrite with_fields_fields, insert_id by exact Ho.
    reflexivity.
  - simpl in Hn. cbn [for_each]. unfold bind at 1.
    unfold bind at 1. rewrite (obj_getattr_lookup _ _ _ _ Ho), Hn.
    unfold obj_setattr at 1. rewrite Ho.
    erewrite IH by apply lookup_insert_eq.
    rewrite insert_insert_eq, with_fields_twice, fields_with_fields.
    unfold increase. cbn [fold_left]. unfold set, to_Z. rewrite Hn.
    reflexivity.
Qed.

(** If that loop raises, it has not written anything. *)
Lemma add_each_raises `{!ValueSetLaws obj} (target : loc)
  (increments : list (Ability * value)) h e h' :
  Forall (fun e => is_Some (as_int (snd e))) increments ->
  for_each (msg := msg) increments (fun '(ability, amount) =>
    current_value <- obj_getattr target (field_name ability) ;;
    match as_int amount with
    | None => raise TypeError
    | Some n => obj_setattr target (field_name ability) (current_value + n)
    end) h
  = (Raise e, h') ->
  h' = h.
Proof.
  intros Hint Hr. destruct (h !! target) as [o|] eqn:Ho.
  - rewrite (add_each_returns _ _ _ _ Ho Hint) in Hr. discriminate.
  - destruct increments as [|[a v] l]; [discriminate|].
    cbn [for_each] in Hr. unfold bind at 1 in Hr. unfold bind at 1 in Hr.
    unfold obj_getattr in Hr. rewrite Ho in Hr. congruence.
Qed.

(** A loop skips a prefix whose bodies return without a change. *)
Lemma for_each_prefix {A} (pre l : list A)
  (body : A -> M msg (gmap loc obj) unit) h :
  Forall (fun x => body x h = (Return tt, h)) pre ->
  for_each (pre ++ l) body h = for_each l body h.
Proof.
  induction 1 as [|x pre Hx _ IH]; [reflexivity|].
  simpl. unfold bind at 1. rewrite Hx. exact IH.
Qed.

Lemma for_each_all {A} (l : list A)
  (body : A -> M msg (gmap loc obj) unit) h :
  Forall (fun x => body x h = (Return tt, h)) l ->
  for_each l body h = (Return tt, h).
Proof.
  intros Hl. rewrite <- (app_nil_r l). rewrite for_each_prefix by exact Hl.
  reflexivity.
Qed.

End HeapFacts.

(** ** Second version: reading a state *)

#[global] Instance v2_value_set_laws : ValueSetLaws V2.obj.
Proof. split; [intros [] ? | intros [] | intros [] ? ?]; reflexivity. Qed.

Lemma v2_total_score h self L (a : Ability) :
  V2.stats_at h self L ->
  V2.total_score self a h = (Return (sum_of_layers L a), h).
Proof.
  intros (Hb & Hr & Hf & Hl & Hc). unfold V2.total_score. rewrite Hc.
  rewrite (sum_four _ _ _ _ _ _ _ _ _ a Hb Hr Hf Hl). reflexivity.
Qed.

Lemma v2_total_score_reads self (a : Ability) :
  reads_only (V2.total_score self a).
Proof.
  apply reads_only_sum_from. intros c. apply reads_only_getattr.
Qed.

Lemma v2_check_increment_reads self item :
  reads_only (V2.check_increment self item).
Proof.
  destruct item as [a v]. unfold V2.check_increment.
  destruct (as_int v) as [n|]; [|apply reads_only_raise].
  destruct (n <=? 0); [apply reads_only_raise|].
  apply reads_only_bind; [apply v2_total_score_reads|].
  intros t. cbv zeta.
  destruct (V2.MAX_SCORE <? t + n);
    [apply reads_only_raise | apply reads_only_ret].
Qed.

Lemma v2_validate_reads self increments :
  reads_only (V2.validate_increments self increments).
Proof.
  apply reads_only_for_each. intros item. apply v2_check_increment_reads.
Qed.

(** A batch that passed the first loop holds positive [int]s only. *)
Lemma v2_validate_returns self increments h h' :
  V2.validate_increments self increments h = (Return tt, h') ->
  Forall (fun e => positive_int (snd e) = true) increments.
Proof.
  unfold V2.validate_increments. revert h.
  induction increments as [|[a v] l IH]; intros h Hr; [constructor|].
  cbn [for_each] in Hr. unfold bind at 1 in Hr.
  destruct (V2.check_increment self (a, v) h) as [[[]|e] h1] eqn:Ec;
    [|discriminate].
  constructor; [|eapply IH; eassumption].
  unfold V2.check_increment in Ec. unfold positive_int. simpl.
  destruct (as_int v) as [n|]; [|discriminate].
  destruct (n <=? 0) eqn:En; [discriminate|]. lia.
Qed.

Lemma positive_int_is_int (increments : list (Ability * value)) :
  Forall (fun e => positive_int (snd e) = true) increments ->
  Forall (fun e => is_Some (as_int (snd e))) increments.
Proof.
  intros Hpos. eapply Forall_impl; [exact Hpos|].
  intros [a v]. unfold positive_int. simpl.
  destruct (as_int v); [eauto | discriminate].
Qed.

(** What the first loop does with one item, in a state that holds [L]. *)
Lemma v2_check_increment h self L (a : Ability) (v : value) :
  V2.stats_at h self L ->
  V2.check_increment self (a, v) h =
    (if positive_int v
     then if within V2.MAX_SCORE L (a, v) then Return tt
          else Raise (ValueError (V2.BonusWouldExceed
                                    a (sum_of_layers L a + to_Z v) V2.MAX_SCORE))
     else Raise (ValueError (V2.BonusMustBePositiveInteger a)), h).
Proof.
  intros Hat. unfold V2.check_increment, positive_int, within, to_Z. simpl.
  destruct (as_int v) as [n|]; [|reflexivity]. simpl.
  destruct (n <=? 0) eqn:En.
  - replace (0 <? n) with false by lia. reflexivity.
  - replace (0 <? n) with true by lia.
    unfold bind. rewrite (v2_total_score _ _ _ a Hat). cbv zeta.
    destruct (V2.MAX_SCORE <? sum_of_layers L a + n) eqn:Ecap.
    + replace (sum_of_layers L a + n <=? V2.MAX_SCORE) with false by lia.
      reflexivity.
    + replace (sum_of_layers L a + n <=? V2.MAX_SCORE) with true by lia.
      reflexivity.
Qed.

Lemma v2_accepted_prefix h self L (pre : list (Ability * value)) :
  V2.stats_at h self L ->
  Forall (fun e => accepted V2.MAX_SCORE L e = true) pre ->
  Forall (fun e => V2.check_increment self e h = (Return tt, h)) pre.
Proof.
  intros Hat Hpre. eapply Forall_impl; [exact Hpre|]. intros [a v] Hacc.
  rewrite (v2_check_increment _ _ _ _ _ Hat).
  unfold accepted in Hacc. simpl in Hacc.
  apply andb_true_iff in Hacc as [-> ->]. reflexivity.
Qed.

(** The four references of a state are pairwise distinct: the objects they
    refer to differ in class or tag. *)
Lemma v2_slots_distinct h self L :
  V2.stats_at h self L ->
  V2._base_abilities self <> V2._racial_bonus self /\
  V2._base_abilities self <> V2._feat_bonus self /\
  V2._base_abilities self <> V2._level_bonus self /\
  V2._racial_bonus self <> V2._feat_bonus self /\
  V2._racial_bonus self <> V2._level_bonus self /\
  V2._feat_bonus self <> V2._level_bonus self.
Proof.
  intros (Hb & Hr & Hf & Hl & _). repeat split; congruence.
Qed.

(** A list in which some element fails a test splits at the first one
    that fails. *)
Lemma first_failing {A} (p : A -> bool) (l : list A) (x : A) :
  x ∈ l -> p x = false ->
  exists pre y post,
    l = pre ++ y :: post /\ Forall (fun z => p z = true) pre /\ p y = false.
Proof.
  intros Hin Hx. induction l as [|z l IH]; [inversion Hin|].
  destruct (p z) eqn:Hz.
  - assert (x ∈ l) as Hin' by (inversion Hin; subst; [congruence|assumption]).
    destruct (IH Hin') as (pre & y & post & -> & Hpre & Hy).
    exists (z :: pre), y, post. repeat split; [constructor|]; assumption.
  - exists [], z, l. repeat split; [constructor | assumption].
Qed.

Lemma all_or_failing {A} (p : A -> bool) (l : list A) :
  Forall (fun z => p z = true) l \/ exists x, x ∈ l /\ p x = false.
Proof.
  induction l as [|z l [IH|(x & Hx & Hp)]].
  - left. constructor.
  - destruct (p z) eqn:Hz.
    + left. constructor; assumption.
    + right. exists z. split; [apply list_elem_of_here | assumption].
  - right. exists x. split; [apply list_elem_of_further | ]; assumption.
Qed.

(** ** Second version: [add_bonus] *)

(** [add_bonus] that raises has written nothing, whatever the state. *)
Lemma v2_add_bonus_raises self bonus_type increments h e h' :
  V2.add_bonus self bonus_type increments h = (Raise e, h') -> h' = h.
Proof.
  destruct bonus_type as [t|v]; simpl;
    [|destruct (hashable v); unfold raise; congruence].
  unfold bind. intros Hr.
  destruct (V2.validate_increments self increments h) as [[[]|e1] h1] eqn:Ev.
  - pose proof (v2_validate_reads _ _ _ _ _ Ev) as ->.
    apply v2_validate_returns, positive_int_is_int in Ev.
    exact (add_each_raises _ _ _ _ _ Ev Hr).
  - pose proof (v2_validate_reads _ _ _ _ _ Ev). congruence.
Qed.

Lemma v2_add_bonus_rejects h self L t pre item post :
  V2.stats_at h self L ->
  Forall (fun e => accepted V2.MAX_SCORE L e = true) pre ->
  accepted V2.MAX_SCORE L item = false ->
  V2.add_bonus self (Member t) (pre ++ item :: post) h
  = (Raise (ValueError (V2.rejection L item)), h).
Proof.
  intros Hat Hpre Hitem. simpl. unfold bind, V2.validate_increments.
  rewrite for_each_prefix by (eapply v2_accepted_prefix; eassumption).
  cbn [for_each]. unfold bind. destruct item as [a v].
  rewrite (v2_check_increment _ _ _ _ _ Hat).
  unfold accepted, V2.rejection in *. simpl in *.
  destruct (positive_int v); [|reflexivity].
  simpl in Hitem. rewrite Hitem. reflexivity.
Qed.

Lemma v2_add_bonus_rejects_some h self L t increments item :
  V2.stats_at h self L ->
  item ∈ increments ->
  accepted V2.MAX_SCORE L item = false ->
  exists e, V2.add_bonus self (Member t) increments h = (Raise e, h).
Proof.
  intros Hat Hin Hrej.
  destruct (first_failing _ _ _ Hin Hrej) as (pre & y & post & -> & Hpre & Hy).
  eexists. eapply v2_add_bonus_rejects; eassumption.
Qed.

(** In a state that holds [L], an accepted batch is added to the set of the
    category, and to nothing else. *)
Lemma v2_add_bonus_returns h self L t increments :
  V2.stats_at h self L ->
  Forall (fun e => accepted V2.MAX_SCORE L e = true) increments ->
  exists h',
    V2.add_bonus self (Member t) increments h = (Return tt, h') /\
    V2.stats_at h' self (V2.add_to t increments L) /\
    forall l, l <> V2.bonus_map self t -> h' !! l = h !! l.
Proof.
  intros Hat Hacc.
  assert (Forall (fun e => is_Some (as_int (snd e))) increments) as Hint.
  { apply positive_int_is_int. eapply Forall_impl; [exact Hacc|].
    intros e He. unfold accepted in He.
    apply andb_true_iff in He as [? _]. assumption. }
  pose proof (v2_slots_distinct _ _ _ Hat) as Hnd.
  destruct Hat as (Hb & Hr & Hf & Hl & Hc).
  assert (exists o, h !! V2.bonus_map self t = Some o) as [o Ho]
    by (destruct t; simpl; eauto).
  eexists. split; [|split].
  - simpl. unfold bind, V2.validate_increments.
    rewrite for_each_all
      by (eapply v2_accepted_prefix; [repeat split|]; eassumption).
    exact (add_each_returns _ _ _ _ Ho Hint).
  - destruct Hnd as (Hn1 & Hn2 & Hn3 & Hn4 & Hn5 & Hn6).
    unfold V2.stats_at.
    destruct t; simpl in Ho |- *;
      [rewrite Hr in Ho | rewrite Hf in Ho | rewrite Hl in Ho];
      injection Ho as <-;
      rewrite ?lookup_insert_eq, ?lookup_insert_ne by congruence;
      simpl; repeat split; assumption.
  - intros l Hne. rewrite lookup_insert_ne by congruence. reflexivity.
Qed.

(** ** First version: reading a state and [increment_attribute] *)

#[global] Instance v1_value_set_laws : ValueSetLaws V1.obj.
Proof. split; [intros [] ? | intros [] | intros [] ? ?]; reflexivity. Qed.

Lemma v1_sum_scores h self L (a : Ability) :
  V1.scores_at h self L ->
  V1._sum_scores self a h = (Return (sum_of_layers L a), h).
Proof.
  intros (Hb & Hr & Hf & Hl). unfold V1._sum_scores.
  rewrite (sum_four _ _ _ _ _ _ _ _ _ a Hb Hr Hf Hl). reflexivity.
Qed.

Lemma v1_sum_scores_reads self (a : Ability) :
  reads_only (V1._sum_scores self a).
Proof.
  apply reads_only_sum_from. intros c. apply reads_only_getattr.
Qed.

Lemma v1_validate_amounts_reads increments :
  reads_only (V1.validate_amounts increments).
Proof.
  apply reads_only_for_each. intros [a v]. unfold V1.check_amount.
  destruct (as_int v) as [n|]; [|apply reads_only_raise].
  destruct (n <=? 0); [apply reads_only_raise | apply reads_only_ret].
Qed.

Lemma v1_validate_totals_reads self increments :
  reads_only (V1.validate_totals self increments).
Proof.
  apply reads_only_for_each. intros [a v]. unfold V1.check_total.
  apply reads_only_bind; [apply v1_sum_scores_reads|]. intros t.
  destruct (as_int v) as [n|]; [|apply reads_only_raise]. cbv zeta.
  destruct (V1.MAX_TOTAL <? t + n);
    [apply reads_only_raise | apply reads_only_ret].
Qed.

(** What the first loop does with one item. *)
Lemma v1_check_amount (a : Ability) (v : value) (h : V1.heap) :
  V1.check_amount (a, v) h =
    (if positive_int v then Return tt
     else Raise (ValueError (V1.amount_rejection (a, v))), h).
Proof.
  unfold V1.check_amount, positive_int, V1.amount_rejection. simpl.
  destruct (as_int v) as [n|]; [|reflexivity].
  destruct (n <=? 0) eqn:En.
  - replace (0 <? n) with false by lia. reflexivity.
  - replace (0 <? n) with true by lia. reflexivity.
Qed.

(** A batch that passed the first loop holds positive [int]s only. *)
Lemma v1_validate_amounts_returns increments (h h' : V1.heap) :
  V1.validate_amounts increments h = (Return tt, h') ->
  Forall (fun e => positive_int (snd e) = true) increments.
Proof.
  unfold V1.validate_amounts. revert h.
  induction increments as [|[a v] l IH]; intros h Hr; [constructor|].
  cbn [for_each] in Hr. unfold bind at 1 in Hr.
  rewrite v1_check_amount in Hr.
  destruct (positive_int v) eqn:Ev; [|discriminate].
  constructor; [exact Ev | eapply IH; eassumption].
Qed.

Lemma v1_validate_amounts_all increments (h : V1.heap) :
  Forall (fun e => positive_int (snd e) = true) increments ->
  V1.validate_amounts increments h = (Return tt, h).
Proof.
  intros Hpos. apply for_each_all. eapply Forall_impl; [exact Hpos|].
  intros [a v] Hv. rewrite v1_check_amount. simpl in Hv. rewrite Hv.
  reflexivity.
Qed.

(** What the second loop does with one item whose amount is an [int], in a
    state that holds [L]. *)
Lemma v1_check_total h self L (a : Ability) (v : value) :
  V1.scores_at h self L ->
  is_Some (as_int v) ->
  V1.check_total self (a, v) h =
    (if within V1.MAX_TOTAL L (a, v) then Return tt
     else Raise (ValueError (V1.total_rejection L (a, v))), h).
Proof.
  intros Hat [n Hn]. unfold V1.check_total, within, V1.total_rejection, to_Z.
  unfold bind. rewrite (v1_sum_scores _ _ _ a Hat). simpl. rewrite Hn. simpl.
  destruct (V1.MAX_TOTAL <? sum_of_layers L a + n) eqn:Ecap.
  - replace (sum_of_layers L a + n <=? V1.MAX_TOTAL) with false by lia.
    reflexivity.
  - replace (sum_of_layers L a + n <=? V1.MAX_TOTAL) with true by lia.
    reflexivity.
Qed.

Lemma v1_within_prefix h self L (pre : list (Ability * value)) :
  V1.scores_at h self L ->
  Forall (fun e => positive_int (snd e) = true) pre ->
  Forall (fun e => within V1.MAX_TOTAL L e = true) pre ->
  Forall (fun e => V1.check_total self e h = (Return tt, h)) pre.
Proof.
  intros Hat Hpos Hin. induction Hpos as [|[a v] l Hv Hl IH]; [constructor|].
  apply Forall_cons in Hin as [Hw Hin]. constructor; [|exact (IH Hin)].
  rewrite (v1_check_total _ _ _ _ _ Hat), Hw; [reflexivity|].
  unfold positive_int in Hv. simpl in Hv.
  destruct (as_int v); [eauto | discriminate].
Qed.

Lemma v1_slots_distinct h self L :
  V1.scores_at h self L ->
  V1._score_base self <> V1._racial_bonus self /\
  V1._score_base self <> V1._feat_bonus self /\
  V1._score_base self <> V1._level_bonus self /\
  V1._racial_bonus self <> V1._feat_bonus self /\
  V1._racial_bonus self <> V1._level_bonus self /\
  V1._feat_bonus self <> V1._level_bonus self.
Proof.
  intros (Hb & Hr & Hf & Hl). repeat split; congruence.
Qed.

(** [increment_attribute] that raises has written nothing, whatever the
    state. *)
Lemma v1_increment_attribute_raises self component increments h e h' :
  V1.increment_attribute self component increments h = (Raise e, h') ->
  h' = h.
Proof.
  destruct component as [c|v]; simpl;
    [|destruct (hashable v); unfold raise; congruence].
  unfold bind. intros Hr.
  destruct (V1.validate_amounts increments h) as [[[]|e1] h1] eqn:Ev.
  - pose proof (v1_validate_amounts_reads _ _ _ _ Ev) as ->.
    apply v1_validate_amounts_returns, positive_int_is_int in Ev.
    destruct (V1.validate_totals self increments h) as [[[]|e2] h2] eqn:Et.
    + pose proof (v1_validate_totals_reads _ _ _ _ _ Et) as ->.
      exact (add_each_raises _ _ _ _ _ Ev Hr).
    + pose proof (v1_validate_totals_reads _ _ _ _ _ Et). congruence.
  - pose proof (v1_validate_amounts_reads _ _ _ _ Ev). congruence.
Qed.

(** The first amount that is not a positive [int] decides the error,
    whatever the totals. *)
Lemma v1_increment_attribute_rejects_amount self c pre item post h :
  Forall (fun e => positive_int (snd e) = true) pre ->
  positive_int (snd item) = false ->
  V1.increment_attribute self (Member c) (pre ++ item :: post) h
  = (Raise (ValueError (V1.amount_rejection item)), h).
Proof.
  intros Hpre Hitem. simpl. unfold bind at 1, V1.validate_amounts.
  rewrite for_each_prefix.
  - cbn [for_each]. unfold bind at 1. destruct item as [a v].
    rewrite v1_check_amount. simpl in Hitem. rewrite Hitem. reflexivity.
  - eapply Forall_impl; [exact Hpre|]. intros [a v] Hv.
    rewrite v1_check_amount. simpl in Hv. rewrite Hv. reflexivity.
Qed.

(** When every amount is a positive [int], the first item whose new total
    is above the cap decides the error. *)
Lemma v1_increment_attribute_rejects_total h self L c pre item post :
  V1.scores_at h self L ->
  Forall (fun e => positive_int (snd e) = true) (pre ++ item :: post) ->
  Forall (fun e => within V1.MAX_TOTAL L e = true) pre ->
  within V1.MAX_TOTAL L item = false ->
  V1.increment_attribute self (Member c) (pre ++ item :: post) h
  = (Raise (ValueError (V1.total_rejection L item)), h).
Proof.
  intros Hat Hpos Hpre Hitem. simpl. unfold bind at 1.
  rewrite (v1_validate_amounts_all _ _ Hpos). unfold bind at 1.
  apply Forall_app in Hpos as [Hpos1 Hpos2].
  apply Forall_cons in Hpos2 as [Hpos2 _].
  unfold V1.validate_totals.
  rewrite for_each_prefix by (eapply v1_within_prefix; eassumption).
  cbn [for_each]. unfold bind at 1. destruct item as [a v].
  rewrite (v1_check_total _ _ _ _ _ Hat), Hitem; [reflexivity|].
  unfold positive_int in Hpos2. simpl in Hpos2.
  destruct (as_int v); [eauto | discriminate].
Qed.

Lemma v1_increment_attribute_rejects_some h self L c increments item :
  V1.scores_at h self L ->
  item ∈ increments ->
  accepted V1.MAX_TOTAL L item = false ->
  exists e, V1.increment_attribute self (Member c) increments h = (Raise e, h).
Proof.
  intros Hat Hin Hrej.
  destruct (all_or_failing (fun e => positive_int (snd e)) increments)
    as [Hpos|(x & Hx & Hnx)].
  - assert (within V1.MAX_TOTAL L item = false) as Hw.
    { rewrite Forall_forall in Hpos. specialize (Hpos _ Hin).
      unfold accepted in Hrej. rewrite Hpos in Hrej. exact Hrej. }
    destruct (first_failing _ _ _ Hin Hw) as (pre & y & post & -> & Hpre & Hy).
    eexists. eapply v1_increment_attribute_rejects_total; eassumption.
  - destruct (first_failing (fun e => positive_int (snd e)) _ _ Hx Hnx)
      as (pre & y & post & -> & Hpre & Hy).
    eexists. apply v1_increment_attribute_rejects_amount; assumption.
Qed.

(** In a state that holds [L], an accepted batch is added to the set of the
    component, and to nothing else. *)
Lemma v1_increment_attribute_returns h self L c increments :
  V1.scores_at h self L ->
  Forall (fun e => accepted V1.MAX_TOTAL L e = true) increments ->
  exists h',
    V1.increment_attribute self (Member c) increments h = (Return tt, h') /\
    V1.scores_at h' self (V1.add_to c increments L) /\
    forall l, l <> V1.component_map self c -> h' !! l = h !! l.
Proof.
  intros Hat Hacc.
  assert (Forall (fun e => positive_int (snd e) = true) increments) as Hpos.
  { eapply Forall_impl; [exact Hacc|]. intros e He. unfold accepted in He.
    apply andb_true_iff in He as [? _]. assumption. }
  assert (Forall (fun e => within V1.MAX_TOTAL L e = true) increments) as Hin.
  { eapply Forall_impl; [exact Hacc|]. intros e He. unfold accepted in He.
    apply andb_true_iff in He as [_ ?]. assumption. }
  pose proof (v1_slots_distinct _ _ _ Hat) as (Hn1 & Hn2 & Hn3 & Hn4 & Hn5 & Hn6).
  pose proof (v1_within_prefix _ _ _ _ Hat Hpos Hin) as Htot.
  destruct Hat as (Hb & Hr & Hf & Hl).
  assert (exists o, h !! V1.component_map self c = Some o) as [o Ho]
    by (destruct c; simpl; eauto).
  eexists. split; [|split].
  - simpl. unfold bind at 1. rewrite (v1_validate_amounts_all _ _ Hpos).
    unfold bind at 1. unfold V1.validate_totals. rewrite (for_each_all _ _ _ Htot).
    exact (add_each_returns _ _ _ _ Ho (positive_int_is_int _ Hpos)).
  - unfold V1.scores_at.
    destruct c; simpl in Ho |- *;
      [rewrite Hr in Ho | rewrite Hf in Ho | rewrite Hl in Ho];
      injection Ho as <-;
      rewrite ?lookup_insert_eq, ?lookup_insert_ne by congruence;
      simpl; repeat split; assumption.
  - intros l Hne. rewrite lookup_insert_ne by congruence. reflexivity.
Qed.

(** ** Building value sets *)

(** A validation loop stops at the first member that fails its test. *)
Lemma check_each_find {msg A} (l : list A) (body : A -> outcome msg unit)
  (test : A -> bool) (err : A -> exn msg) :
  (forall x, body x = if test x then Raise (err x) else Return tt) ->
  check_each l body =
    match find test l with
    | Some x => Raise (err x)
    | None => Return tt
    end.
Proof.
  intros Hbody. induction l as [|x l IH]; [reflexivity|].
  simpl. rewrite Hbody. destruct (test x); [reflexivity | exact IH].
Qed.

Lemma find_Ability_some (test : Ability -> bool) (a : Ability) :
  test a = true ->
  exists b, find test Ability_members = Some b /\ test b = true.
Proof.
  intros Ha. destruct (find test Ability_members) as [b|] eqn:Hfind.
  - exists b. split; [reflexivity|]. apply find_some in Hfind as [_ ?].
    assumption.
  - pose proof (find_none _ _ Hfind a) as Hnone.
    rewrite Hnone in Ha; [discriminate|]. destruct a; simpl; tauto.
Qed.

Lemma find_Ability_none (test : Ability -> bool) :
  (forall a, test a = false) -> find test Ability_members = None.
Proof.
  intros Hall. unfold Ability_members. simpl. rewrite !Hall. reflexivity.
Qed.

Lemma lt_0_int {msg} (v : value) (z : Z) :
  as_int v = Some z -> lt_0 (msg := msg) v = Return (z <? 0).
Proof.
  destruct v as [n|[]| | | | | |]; simpl; intros Hz; try discriminate;
    injection Hz as <-; reflexivity.
Qed.

Lemma alloc_fresh {msg obj} (o : obj) (h : gmap loc obj) :
  h !! fresh (dom h) = None /\
  alloc (msg := msg) o h = (Return (fresh (dom h)), <[fresh (dom h) := o]> h).
Proof.
  split; [|reflexivity]. apply not_elem_of_dom, is_fresh.
Qed.

(** [AbilitySet.__post_init__] for a bonus: the first ability, in the order
    of the enumeration, whose value is not a non-negative [int] decides the
    error. *)
Lemma v2_AbilitySet_post_init_bonus (args : Scores value) :
  V2.AbilitySet_post_init false args =
    match find (fun a => negb (nonneg_int (get a args))) Ability_members with
    | Some a =>
        Raise (ValueError (if isinstance_int (get a args)
                           then V2.CannotBeNegativeForBonuses a
                           else V2.MustBeInteger a))
    | None => Return tt
    end.
Proof.
  unfold V2.AbilitySet_post_init.
  apply (check_each_find _ _ (fun a => negb (nonneg_int (get a args)))
           (fun a => ValueError (if isinstance_int (get a args)
                                 then V2.CannotBeNegativeForBonuses a
                                 else V2.MustBeInteger a))).
  intros a. rewrite getattr_field_name. unfold isinstance_int, nonneg_int.
  destruct (as_int (get a args)) as [z|] eqn:Hz; [|reflexivity]. simpl.
  rewrite (lt_0_int _ _ Hz).
  destruct (z <? 0) eqn:Hneg; simpl.
  - replace (0 <=? z) with false by lia. reflexivity.
  - replace (0 <=? z) with true by lia. reflexivity.
Qed.

(** [AbilitySet.__post_init__] for a [BaseAbilities]: the first ability
    whose value is not an [int] decides the error. *)
Lemma v2_AbilitySet_post_init_base (args : Scores value) :
  V2.AbilitySet_post_init true args =
    match find (fun a => negb (isinstance_int (get a args))) Ability_members
    with
    | Some a => Raise (ValueError (V2.MustBeInteger a))
    | None => Return tt
    end.
Proof.
  unfold V2.AbilitySet_post_init.
  apply (check_each_find _ _ (fun a => negb (isinstance_int (get a args)))
           (fun a => ValueError (V2.MustBeInteger a))).
  intros a. rewrite getattr_field_name. unfold isinstance_int.
  destruct (as_int (get a args)) as [z|] eqn:Hz; [|reflexivity]. simpl.
  rewrite (lt_0_int _ _ Hz). rewrite andb_false_r. reflexivity.
Qed.

(** [BaseAbilities.__post_init__]: a value that is not an [int] is reported
    before any negative one. *)
Lemma v2_BaseAbilities_post_init (args : Scores value) :
  V2.BaseAbilities_post_init args =
    match find (fun a => negb (isinstance_int (get a args))) Ability_members
    with
    | Some a => Raise (ValueError (V2.MustBeInteger a))
    | None =>
        match find (fun a => to_Z (get a args) <? 0) Ability_members with
        | Some a => Raise (ValueError (V2.BaseMustBeNonNegative a))
        | None => Return tt
        end
    end.
Proof.
  unfold V2.BaseAbilities_post_init. rewrite v2_AbilitySet_post_init_base.
  destruct (find _ Ability_members) as [a|] eqn:Hfind; [reflexivity|].
  apply (check_each_find _ _ (fun a => to_Z (get a args) <? 0)
           (fun a => ValueError (V2.BaseMustBeNonNegative a))).
  intros a. rewrite getattr_field_name.
  pose proof (find_none _ _ Hfind a) as Hint.
  unfold isinstance_int, to_Z in *.
  destruct (as_int (get a args)) as [z|] eqn:Hz.
  - rewrite (lt_0_int _ _ Hz). reflexivity.
  - discriminate Hint. destruct a; simpl; tauto.
Qed.

(** ** The example states *)

Lemma scenario_v2_build :
  Scenario.v2_build ∅ = (Return Scenario.v2_stats, Scenario.v2_heap).
Proof. vm_compute. reflexivity. Qed.

Lemma scenario_v2_stats_at :
  V2.stats_at Scenario.v2_heap Scenario.v2_stats Scenario.layers.
Proof. repeat split; vm_compute; reflexivity. Qed.

Lemma scenario_v1_build :
  Scenario.v1_build ∅ = (Return Scenario.v1_scores, Scenario.v1_heap).
Proof. vm_compute. reflexivity. Qed.

Lemma scenario_v1_scores_at :
  V1.scores_at Scenario.v1_heap Scenario.v1_scores Scenario.layers.
Proof. repeat split; vm_compute; reflexivity. Qed.

(** ** Every call either fails closed or adds the batch *)

Lemma sum_of_layers_v2_add_to t increments L (a : Ability) :
  sum_of_layers (V2.add_to t increments L) a
  = sum_of_layers L a + amount_for a increments.
Proof.
  unfold sum_of_layers. destruct t; simpl; rewrite get_increase; lia.
Qed.

Lemma sum_of_layers_v1_add_to c increments L (a : Ability) :
  sum_of_layers (V1.add_to c increments L) a
  = sum_of_layers L a + amount_for a increments.
Proof.
  unfold sum_of_layers. destruct c; simpl; rewrite get_increase; lia.
Qed.

Lemma accepted_positive cap L (increments : list (Ability * value)) :
  Forall (fun e => accepted cap L e = true) increments ->
  Forall (fun e => positive_int (snd e) = true) increments.
Proof.
  intros Hacc. eapply Forall_impl; [exact Hacc|]. intros e He.
  unfold accepted in He. apply andb_true_iff in He as [? _]. assumption.
Qed.

Lemma v2_add_bonus_cases h self L bonus_type increments :
  V2.stats_at h self L ->
  (exists e, V2.add_bonus self bonus_type increments h = (Raise e, h)) \/
  (exists t h',
      bonus_type = Member t /\
      Forall (fun e => accepted V2.MAX_SCORE L e = true) increments /\
      V2.add_bonus self bonus_type increments h = (Return tt, h') /\
      V2.stats_at h' self (V2.add_to t increments L) /\
      forall l, l <> V2.bonus_map self t -> h' !! l = h !! l).
Proof.
  intros Hat. destruct bonus_type as [t|v];
    [|left; simpl; destruct (hashable v); eexists; reflexivity].
  destruct (all_or_failing (accepted V2.MAX_SCORE L) increments)
    as [Hall|(x & Hx & Hrej)].
  - right. destruct (v2_add_bonus_returns _ _ _ t _ Hat Hall)
      as (h' & Hr & Hat' & Hframe).
    exists t, h'. split; [reflexivity|]. split; [exact Hall|].
    split; [exact Hr|]. split; [exact Hat' | exact Hframe].
  - left. eapply v2_add_bonus_rejects_some; eassumption.
Qed.

Lemma v1_increment_attribute_cases h self L component increments :
  V1.scores_at h self L ->
  (exists e,
      V1.increment_attribute self component increments h = (Raise e, h)) \/
  (exists c h',
      component = Member c /\
      Forall (fun e => accepted V1.MAX_TOTAL L e = true) increments /\
      V1.increment_attribute self component increments h = (Return tt, h') /\
      V1.scores_at h' self (V1.add_to c increments L) /\
      forall l, l <> V1.component_map self c -> h' !! l = h !! l).
Proof.
  intros Hat. destruct component as [c|v];
    [|left; simpl; destruct (hashable v); eexists; reflexivity].
  destruct (all_or_failing (accepted V1.MAX_TOTAL L) increments)
    as [Hall|(x & Hx & Hrej)].
  - right. destruct (v1_increment_attribute_returns _ _ _ c _ Hat Hall)
      as (h' & Hr & Hat' & Hframe).
    exists c, h'. split; [reflexivity|]. split; [exact Hall|].
    split; [exact Hr|]. split; [exact Hat' | exact Hframe].
  - left. eapply v1_increment_attribute_rejects_some; eassumption.
Qed.

Lemma within_false_rejected cap L (item : Ability * value) :
  within cap L item = false -> accepted cap L item = false.
Proof. intros Hw. unfold accepted. rewrite Hw. apply andb_false_r. Qed.

(** ** Failure leaves the state as it was *)

(** C1. Whenever [add_bonus] (second version) or [increment_attribute]
    (first version) raises, for whatever reason, the heap after the call is
    the heap before it, so the base set and the three bonus sets keep all
    their values.  In particular a batch with an item that would take a
    total above the cap raises and applies none of its items, however many
    valid items it also holds. *)
Theorem C1_failure_changes_nothing :
  (forall self bonus_type increments h e h',
      V2.add_bonus self bonus_type increments h = (Raise e, h') -> h' = h) /\
  (forall self component increments h e h',
      V1.increment_attribute self component increments h = (Raise e, h') ->
      h' = h) /\
  (forall h self L t increments item,
      V2.stats_at h self L ->
      item ∈ increments ->
      within V2.MAX_SCORE L item = false ->
      exists e, V2.add_bonus self (Member t) increments h = (Raise e, h)) /\
  (forall h self L c increments item,
      V1.scores_at h self L ->
      item ∈ increments ->
      within V1.MAX_TOTAL L item = false ->
      exists e,
        V1.increment_attribute self (Member c) increments h = (Raise e, h)).
Proof.
  split; [exact v2_add_bonus_raises|].
  split; [exact v1_increment_attribute_raises|].
  split.
  - intros h self L t increments item Hat Hin Hw.
    eapply v2_add_bonus_rejects_some; eauto using within_false_rejected.
  - intros h self L c increments item Hat Hin Hw.
    eapply v1_increment_attribute_rejects_some;
      eauto using within_false_rejected.
Qed.

Lemma C1_failure_changes_nothing_witness :
  snd (V2.add_bonus Scenario.v2_stats (Member V2.FEAT) Scenario.mixed_batch
         Scenario.v2_heap)
  = Scenario.v2_heap /\
  exists e,
    V1.increment_attribute Scenario.v1_scores (Member V1.FEAT_BONUS)
      Scenario.mixed_batch Scenario.v1_heap
    = (Raise e, Scenario.v1_heap).
Proof.
  split.
  - apply (proj1 C1_failure_changes_nothing Scenario.v2_stats
             (Member V2.FEAT) Scenario.mixed_batch Scenario.v2_heap
             (ValueError (V2.BonusWouldExceed STRENGTH 36 20))).
    vm_compute. reflexivity.
  - apply (proj2 (proj2 (proj2 C1_failure_changes_nothing))
             Scenario.v1_heap Scenario.v1_scores Scenario.layers
             V1.FEAT_BONUS Scenario.mixed_batch (STRENGTH, VInt 20)).
    + repeat split; vm_compute; reflexivity.
    + apply list_elem_of_further, list_elem_of_here.
    + vm_compute. reflexivity.
Defined.

(** ** The total of an ability *)

(** C3. In every state, [total_score] (second version) and [_sum_scores]
    (first version) return the sum of the ability's value in exactly the
    four stored sets, base, racial, feat and level, and leave the heap as it
    is.  After any call of [add_bonus] or [increment_attribute] the state
    again holds four sets whose sum the total is: when the call returns,
    these are the former sets with the batch added to the set of the
    category, so the total has grown by what the batch adds to the ability;
    when the call raises, they are the former sets and the total is the
    former total. *)
Theorem C3_total_is_sum_of_four_sets :
  (forall h self L (a : Ability),
      V2.stats_at h self L ->
      V2.total_score self a h
      = (Return (get a (base_set L) + get a (racial_set L)
                 + get a (feat_set L) + get a (level_set L)), h) /\
      forall bonus_type increments r h',
        V2.add_bonus self bonus_type increments h = (r, h') ->
        exists L',
          V2.stats_at h' self L' /\
          V2.total_score self a h' = (Return (sum_of_layers L' a), h') /\
          (raised r = true -> L' = L /\ h' = h) /\
          (raised r = false ->
           exists t, bonus_type = Member t /\ L' = V2.add_to t increments L /\
             sum_of_layers L' a = sum_of_layers L a + amount_for a increments))
  /\
  (forall h self L (a : Ability),
      V1.scores_at h self L ->
      V1._sum_scores self a h
      = (Return (get a (base_set L) + get a (racial_set L)
                 + get a (feat_set L) + get a (level_set L)), h) /\
      forall component increments r h',
        V1.increment_attribute self component increments h = (r, h') ->
        exists L',
          V1.scores_at h' self L' /\
          V1._sum_scores self a h' = (Return (sum_of_layers L' a), h') /\
          (raised r = true -> L' = L /\ h' = h) /\
          (raised r = false ->
           exists c, component = Member c /\ L' = V1.add_to c increments L /\
             sum_of_layers L' a = sum_of_layers L a + amount_for a increments)).
Proof.
  split.
  - intros h self L a Hat. split; [exact (v2_total_score _ _ _ a Hat)|].
    intros bonus_type increments r h' Hcall.
    destruct (v2_add_bonus_cases _ _ _ bonus_type increments Hat)
      as [[e He]|(t & h1 & -> & Hacc & Hr & Hat' & _)].
    + rewrite He in Hcall. injection Hcall as <- <-.
      exists L. split; [exact Hat|].
      split; [exact (v2_total_score _ _ _ a Hat)|].
      split; [intros _; split; reflexivity | discriminate].
    + rewrite Hr in Hcall. injection Hcall as <- <-.
      exists (V2.add_to t increments L). split; [exact Hat'|].
      split; [exact (v2_total_score _ _ _ a Hat')|].
      split; [discriminate|]. intros _. exists t.
      split; [reflexivity|]. split; [reflexivity|].
      apply sum_of_layers_v2_add_to.
  - intros h self L a Hat. split; [exact (v1_sum_scores _ _ _ a Hat)|].
    intros component increments r h' Hcall.
    destruct (v1_increment_attribute_cases _ _ _ component increments Hat)
      as [[e He]|(c & h1 & -> & Hacc & Hr & Hat' & _)].
    + rewrite He in Hcall. injection Hcall as <- <-.
      exists L. split; [exact Hat|].
      split; [exact (v1_sum_scores _ _ _ a Hat)|].
      split; [intros _; split; reflexivity | discriminate].
    + rewrite Hr in Hcall. injection Hcall as <- <-.
      exists (V1.add_to c increments L). split; [exact Hat'|].
      split; [exact (v1_sum_scores _ _ _ a Hat')|].
      split; [discriminate|]. intros _. exists c.
      split; [reflexivity|]. split; [reflexivity|].
      apply sum_of_layers_v1_add_to.
Qed.

Lemma C3_total_is_sum_of_four_sets_witness :
  V2.stats_at Scenario.v2_heap Scenario.v2_stats Scenario.layers /\
  V2.total_score Scenario.v2_stats STRENGTH Scenario.v2_heap
  = (Return (14 + 2 + 0 + 0), Scenario.v2_heap) /\
  V1.scores_at Scenario.v1_heap Scenario.v1_scores Scenario.layers /\
  V1._sum_scores Scenario.v1_scores INTELLIGENCE Scenario.v1_heap
  = (Return (16 + 2 + 0 + 0), Scenario.v1_heap).
Proof.
  assert (V2.stats_at Scenario.v2_heap Scenario.v2_stats Scenario.layers)
    as H2 by (repeat split; vm_compute; reflexivity).
  assert (V1.scores_at Scenario.v1_heap Scenario.v1_scores Scenario.layers)
    as H1 by (repeat split; vm_compute; reflexivity).
  split; [exact H2|].
  split; [exact (proj1 (proj1 C3_total_is_sum_of_four_sets
                          _ _ _ STRENGTH H2))|].
  split; [exact H1|].
  exact (proj1 (proj2 C3_total_is_sum_of_four_sets _ _ _ INTELLIGENCE H1)).
Defined.

(** ** Categories *)




(** ** The cap *)

Lemma over_cap_rejected cap L (a : Ability) (v : value) :
  cap < sum_of_layers L a -> accepted cap L (a, v) = false.
Proof.
  intros Hover. unfold accepted, positive_int, within, to_Z. simpl.
  destruct (as_int v) as [n|]; [|reflexivity]. simpl.
  destruct (0 <? n) eqn:Hn; [|reflexivity]. simpl. lia.
Qed.

(** C10. The cap of 20 is no invariant of construction: a base set with
    strength 25 is accepted, the aggregator over it is built, and the total
    of its strength is 25.  The cap is checked by [add_bonus]
    ([increment_attribute]) alone: in a state where the total of an ability
    is above the cap, every call whose batch names that ability raises and
    changes nothing; and no call ever lowers a total. *)
Theorem C10_cap_is_not_a_construction_invariant :
  (fst (Scenario.v2_strength_25 ∅) = Return 25 /\
   fst (Scenario.v1_strength_25 ∅) = Return 25 /\
   V2.MAX_SCORE < 25 /\ V1.MAX_TOTAL < 25) /\
  (forall h self L (a : Ability) bonus_type increments,
      V2.stats_at h self L ->
      V2.MAX_SCORE < sum_of_layers L a ->
      a ∈ map fst increments ->
      exists e, V2.add_bonus self bonus_type increments h = (Raise e, h)) /\
  (forall h self L (a : Ability) component increments,
      V1.scores_at h self L ->
      V1.MAX_TOTAL < sum_of_layers L a ->
      a ∈ map fst increments ->
      exists e,
        V1.increment_attribute self component increments h = (Raise e, h)) /\
  (forall h self L (a : Ability) bonus_type increments r h',
      V2.stats_at h self L ->
      V2.add_bonus self bonus_type increments h = (r, h') ->
      exists L', V2.stats_at h' self L' /\
                 sum_of_layers L a <= sum_of_layers L' a) /\
  (forall h self L (a : Ability) component increments r h',
      V1.scores_at h self L ->
      V1.increment_attribute self component increments h = (r, h') ->
      exists L', V1.scores_at h' self L' /\
                 sum_of_layers L a <= sum_of_layers L' a).
Proof.
  split; [repeat split; vm_compute; reflexivity|].
  split; [|split; [|split]].
  - intros h self L a bonus_type increments Hat Hover Hin.
    destruct bonus_type as [t|v];
      [|simpl; destruct (hashable v); eexists; reflexivity].
    apply list_elem_of_fmap in Hin as ([b v] & -> & Hin).
    eapply v2_add_bonus_rejects_some; eauto using over_cap_rejected.
  - intros h self L a component increments Hat Hover Hin.
    destruct component as [c|v];
      [|simpl; destruct (hashable v); eexists; reflexivity].
    apply list_elem_of_fmap in Hin as ([b v] & -> & Hin).
    eapply v1_increment_attribute_rejects_some;
      eauto using over_cap_rejected.
  - intros h self L a bonus_type increments r h' Hat Hcall.
    destruct (v2_add_bonus_cases _ _ _ bonus_type increments Hat)
      as [[e He]|(t & h1 & -> & Hacc & Hr & Hat' & _)].
    + rewrite He in Hcall. injection Hcall as <- <-.
      exists L. split; [exact Hat | lia].
    + rewrite Hr in Hcall. injection Hcall as <- <-.
      exists (V2.add_to t increments L). split; [exact Hat'|].
      rewrite sum_of_layers_v2_add_to.
      pose proof (amount_for_nonneg a _ (accepted_positive _ _ _ Hacc)). lia.
  - intros h self L a component increments r h' Hat Hcall.
    destruct (v1_increment_attribute_cases _ _ _ component increments Hat)
      as [[e He]|(c & h1 & -> & Hacc & Hr & Hat' & _)].
    + rewrite He in Hcall. injection Hcall as <- <-.
      exists L. split; [exact Hat | lia].
    + rewrite Hr in Hcall. injection Hcall as <- <-.
      exists (V1.add_to c increments L). split; [exact Hat'|].
      rewrite sum_of_layers_v1_add_to.
      pose proof (amount_for_nonneg a _ (accepted_positive _ _ _ Hacc)). lia.
Qed.

Lemma C10_cap_is_not_a_construction_invariant_witness :
  V2.stats_at Scenario.v2_heap_25 Scenario.v2_stats Scenario.layers_25 /\
  V2.MAX_SCORE < sum_of_layers Scenario.layers_25 STRENGTH /\
  exists e,
    V2.add_bonus Scenario.v2_stats (Member V2.RACIAL) [(STRENGTH, VInt 1)]
      Scenario.v2_heap_25
    = (Raise e, Scenario.v2_heap_25).
Proof.
  assert (V2.stats_at Scenario.v2_heap_25 Scenario.v2_stats Scenario.layers_25)
    as Hat by (repeat split; vm_compute; reflexivity).
  split; [exact Hat|]. split; [reflexivity|].
  apply (proj1 (proj2 C10_cap_is_not_a_construction_invariant)
           Scenario.v2_heap_25 Scenario.v2_stats Scenario.layers_25 STRENGTH
           (Member V2.RACIAL) [(STRENGTH, VInt 1)]).
  - exact Hat.
  - reflexivity.
  - apply list_elem_of_here.
Defined.

(** ** Below the cap, a state stays below it

    The keys of a dictionary are distinct, so a batch names an ability at
    most once. *)

Lemma amount_for_absent (a : Ability) (increments : list (Ability * value)) :
  a ∉ map fst increments -> amount_for a increments = 0.
Proof.
  induction increments as [|[b v] l IH]; simpl; [reflexivity|].
  rewrite not_elem_of_cons. intros [Hne Hl].
  destruct (decide (b = a)); [congruence | exact (IH Hl)].
Qed.

Lemma amount_for_present (a : Ability) (v : value)
  (increments : list (Ability * value)) :
  NoDup (map fst increments) ->
  (a, v) ∈ increments ->
  amount_for a increments = to_Z v.
Proof.
  induction increments as [|[b w] l IH]; simpl; intros Hnd Hin;
    [inversion Hin|].
  apply NoDup_cons in Hnd as [Hb Hnd].
  apply elem_of_cons in Hin as [[= -> ->]|Hin].
  - rewrite decide_True by reflexivity.
    rewrite (amount_for_absent _ _ Hb). lia.
  - rewrite decide_False; [exact (IH Hnd Hin)|].
    intros ->. apply Hb. apply list_elem_of_fmap. exists (a, v). auto.
Qed.

Lemma accepted_batch_keeps_cap cap L (increments : list (Ability * value))
  (a : Ability) :
  NoDup (map fst increments) ->
  Forall (fun e => accepted cap L e = true) increments ->
  sum_of_layers L a <= cap ->
  sum_of_layers L a + amount_for a increments <= cap.
Proof.
  intros Hnd Hacc Hcap.
  destruct (decide (a ∈ map fst increments)) as [Hin|Hout].
  - apply list_elem_of_fmap in Hin as ([b v] & -> & Hin). cbn [fst] in *.
    rewrite (amount_for_present _ _ _ Hnd Hin).
    rewrite Forall_forall in Hacc. specialize (Hacc _ Hin).
    unfold accepted, within in Hacc. simpl in Hacc.
    apply andb_true_iff in Hacc as [_ Hw]. simpl. lia.
  - rewrite (amount_for_absent _ _ Hout). lia.
Qed.

(** In both versions a state whose six totals are at most 20 is taken by
    any call, failed or not, to a state whose six totals are at most 20. *)
Lemma cap_is_kept :
  (forall h self L bonus_type increments r h',
      V2.stats_at h self L ->
      (forall a, sum_of_layers L a <= V2.MAX_SCORE) ->
      NoDup (map fst increments) ->
      V2.add_bonus self bonus_type increments h = (r, h') ->
      exists L', V2.stats_at h' self L' /\
                 forall a, sum_of_layers L' a <= V2.MAX_SCORE) /\
  (forall h self L component increments r h',
      V1.scores_at h self L ->
      (forall a, sum_of_layers L a <= V1.MAX_TOTAL) ->
      NoDup (map fst increments) ->
      V1.increment_attribute self component increments h = (r, h') ->
      exists L', V1.scores_at h' self L' /\
                 forall a, sum_of_layers L' a <= V1.MAX_TOTAL).
Proof.
  split.
  - intros h self L bonus_type increments r h' Hat Hcap Hnd Hcall.
    destruct (v2_add_bonus_cases _ _ _ bonus_type increments Hat)
      as [[e He]|(t & h1 & -> & Hacc & Hr & Hat' & _)].
    + rewrite He in Hcall. injection Hcall as <- <-. eauto.
    + rewrite Hr in Hcall. injection Hcall as <- <-.
      exists (V2.add_to t increments L). split; [exact Hat'|]. intros a.
      rewrite sum_of_layers_v2_add_to.
      apply accepted_batch_keeps_cap; auto.
  - intros h self L component increments r h' Hat Hcap Hnd Hcall.
    destruct (v1_increment_attribute_cases _ _ _ component increments Hat)
      as [[e He]|(c & h1 & -> & Hacc & Hr & Hat' & _)].
    + rewrite He in Hcall. injection Hcall as <- <-. eauto.
    + rewrite Hr in Hcall. injection Hcall as <- <-.
      exists (V1.add_to c increments L). split; [exact Hat'|]. intros a.
      rewrite sum_of_layers_v1_add_to.
      apply accepted_batch_keeps_cap; auto.
Qed.

(** ** Building the aggregator *)

(** [x or AbilityBonus(bonus_type=slot)] gives a reference to a bonus set
    with the tag [supplied_tag] tells, in a heap that has kept every object. *)
Lemma v2_or_default h x slot t :
  V2.supplied_tag h x slot = Some t ->
  exists l h' f,
    V2.or_default x slot h = (Return l, h') /\
    h' !! l = Some (V2.AbilityBonus f t) /\
    h ⊆ h' /\
    (forall l0, x = Some l0 -> l = l0) /\
    (x = None -> f = mkScores 0 0 0 0 0 0).
Proof.
  destruct x as [l0|]; simpl.
  - destruct (h !! l0) as [[f0|f0 t0]|] eqn:Hl0; try discriminate.
    intros [= ->]. exists l0, h, f0.
    split; [reflexivity|]. split; [exact Hl0|]. split; [reflexivity|].
    split; [congruence | discriminate].
  - intros [= <-].
    exists (fresh (dom h)),
      (<[fresh (dom h) := V2.AbilityBonus (mkScores 0 0 0 0 0 0) slot]> h),
      (mkScores 0 0 0 0 0 0).
    destruct (alloc_fresh (msg := V2.msg)
                (V2.AbilityBonus (mkScores 0 0 0 0 0 0) slot) h) as [Hnew _].
    split; [reflexivity|]. split; [apply lookup_insert_eq|].
    split; [apply insert_subseteq; exact Hnew|].
    split; [discriminate | reflexivity].
Qed.

Lemma v2_supplied_tag_weaken (h h' : V2.heap) x slot t :
  h ⊆ h' ->
  V2.supplied_tag h x slot = Some t -> V2.supplied_tag h' x slot = Some t.
Proof.
  intros Hsub. destruct x as [l|]; simpl; [|trivial].
  destruct (h !! l) as [o|] eqn:Hl; [|discriminate].
  rewrite (lookup_weaken _ _ _ _ Hl Hsub). trivial.
Qed.

Lemma v2_get_bonus_type (h : V2.heap) l f t :
  h !! l = Some (V2.AbilityBonus f t) ->
  V2.get_bonus_type l h = (Return t, h).
Proof. intros Hl. unfold V2.get_bonus_type. rewrite Hl. reflexivity. Qed.

(** [CharacterStats.__init__], given the tags of what fills the three
    slots: the first slot, in the order racial, feat, level, whose tag is
    not its own decides the error; otherwise the aggregator is built over
    the base and the three bonus sets. *)
Lemma v2_CharacterStats_init h base racial feat level tr tf tl :
  V2.supplied_tag h racial V2.RACIAL = Some tr ->
  V2.supplied_tag h feat V2.FEAT = Some tf ->
  V2.supplied_tag h level V2.LEVEL = Some tl ->
  exists lr lf ll fr ff fl h',
    h ⊆ h' /\
    h' !! lr = Some (V2.AbilityBonus fr tr) /\
    h' !! lf = Some (V2.AbilityBonus ff tf) /\
    h' !! ll = Some (V2.AbilityBonus fl tl) /\
    (forall l, racial = Some l -> lr = l) /\
    (forall l, feat = Some l -> lf = l) /\
    (forall l, level = Some l -> ll = l) /\
    V2.CharacterStats_init base racial feat level h =
      (if decide (tr <> V2.RACIAL)
       then Raise (ValueError (V2.SlotMustHaveType V2.RACIAL))
       else if decide (tf <> V2.FEAT)
       then Raise (ValueError (V2.SlotMustHaveType V2.FEAT))
       else if decide (tl <> V2.LEVEL)
       then Raise (ValueError (V2.SlotMustHaveType V2.LEVEL))
       else Return {| V2._base_abilities := base;
                      V2._racial_bonus := lr;
                      V2._feat_bonus := lf;
                      V2._level_bonus := ll;
                      V2._score_components := [base; lr; lf; ll] |}, h').
Proof.
  intros Hr Hf Hl.
  destruct (v2_or_default _ _ _ _ Hr) as (lr & h1 & fr & E1 & Hlr & S1 & Xr & _).
  pose proof (v2_supplied_tag_weaken _ _ _ _ _ S1 Hf) as Hf1.
  destruct (v2_or_default _ _ _ _ Hf1) as (lf & h2 & ff & E2 & Hlf & S2 & Xf & _).
  pose proof (v2_supplied_tag_weaken _ _ _ _ _ S2
                (v2_supplied_tag_weaken _ _ _ _ _ S1 Hl)) as Hl2.
  destruct (v2_or_default _ _ _ _ Hl2) as (ll & h3 & fl & E3 & Hll & S3 & Xl & _).
  pose proof (lookup_weaken _ _ _ _ Hlf S3) as Hlf3.
  pose proof (lookup_weaken _ _ _ _ (lookup_weaken _ _ _ _ Hlr S2) S3) as Hlr3.
  exists lr, lf, ll, fr, ff, fl, h3.
  split; [etrans; [exact S1|]; etrans; [exact S2 | exact S3]|].
  split; [exact Hlr3|]. split; [exact Hlf3|]. split; [exact Hll|].
  split; [exact Xr|]. split; [exact Xf|]. split; [exact Xl|].
  unfold V2.CharacterStats_init.
  unfold bind at 1. rewrite E1. unfold bind at 1. rewrite E2.
  unfold bind at 1. rewrite E3.
  unfold bind at 1. rewrite (v2_get_bonus_type _ _ _ _ Hlr3).
  unfold bind at 1.
  destruct (decide (tr <> V2.RACIAL)); [reflexivity|].
  unfold ret at 1.
  unfold bind at 1. rewrite (v2_get_bonus_type _ _ _ _ Hlf3).
  unfold bind at 1.
  destruct (decide (tf <> V2.FEAT)); [reflexivity|].
  unfold ret at 1.
  unfold bind at 1. rewrite (v2_get_bonus_type _ _ _ _ Hll).
  unfold bind at 1.
  destruct (decide (tl <> V2.LEVEL)); reflexivity.
Qed.

Lemma v1_or_default_returns (h : V1.heap) x new :
  (forall h0, exists l h1, new zeros h0 = (Return l, h1)) ->
  exists l h', V1.or_default x new h = (Return l, h') /\
               forall l0, x = Some l0 -> l = l0.
Proof.
  intros Hnew. destruct x as [l0|]; simpl.
  - exists l0, h. split; [reflexivity | congruence].
  - destruct (Hnew h) as (l & h1 & E). exists l, h1.
    split; [exact E | discriminate].
Qed.

(** [AbilityScores.__init__] returns whatever it is given. *)
Lemma v1_AbilityScores_init_returns (h : V1.heap) base racial feat level :
  exists self h',
    V1.AbilityScores_init base racial feat level h = (Return self, h') /\
    V1._score_base self = base /\
    (forall l, racial = Some l -> V1._racial_bonus self = l) /\
    (forall l, feat = Some l -> V1._feat_bonus self = l) /\
    (forall l, level = Some l -> V1._level_bonus self = l).
Proof.
  destruct (v1_or_default_returns h racial V1.new_RacialBonus)
    as (lr & h1 & E1 & Xr); [intros h0; eexists _, _; reflexivity|].
  destruct (v1_or_default_returns h1 feat V1.new_FeatBonus)
    as (lf & h2 & E2 & Xf); [intros h0; eexists _, _; reflexivity|].
  destruct (v1_or_default_returns h2 level V1.new_LevelBonus)
    as (ll & h3 & E3 & Xl); [intros h0; eexists _, _; reflexivity|].
  eexists _, h3. unfold V1.AbilityScores_init.
  unfold bind at 1. rewrite E1. unfold bind at 1. rewrite E2.
  unfold bind at 1. rewrite E3.
  split; [reflexivity|]. simpl. auto.
Qed.

Lemma v1_or_default (h : V1.heap) x new (mk : Scores Z -> V1.obj) :
  (forall h0,
      new zeros h0
      = (Return (fresh (dom h0)),
         <[fresh (dom h0) := mk (mkScores 0 0 0 0 0 0)]> h0)) ->
  (forall l, x = Some l -> exists f, h !! l = Some (mk f)) ->
  exists l h' f,
    V1.or_default x new h = (Return l, h') /\
    h' !! l = Some (mk f) /\ h ⊆ h'.
Proof.
  intros Hnew Hx. destruct x as [l0|]; simpl.
  - destruct (Hx l0 eq_refl) as [f Hf]. exists l0, h, f.
    split; [reflexivity|]. split; [exact Hf | reflexivity].
  - rewrite Hnew. eexists _, _, _. split; [reflexivity|].
    split; [apply lookup_insert_eq|].
    apply insert_subseteq, not_elem_of_dom, is_fresh.
Qed.

(** [AbilityScores.__init__] over a [ScoreBase] and, where supplied, a
    [RacialBonus], a [FeatBonus] and a [LevelBonus], gives a state. *)
Lemma v1_AbilityScores_init_state (h : V1.heap) base racial feat level fb :
  h !! base = Some (V1.ScoreBase fb) ->
  (forall l, racial = Some l -> exists f, h !! l = Some (V1.RacialBonus f)) ->
  (forall l, feat = Some l -> exists f, h !! l = Some (V1.FeatBonus f)) ->
  (forall l, level = Some l -> exists f, h !! l = Some (V1.LevelBonus f)) ->
  exists self h' fr ff fl,
    V1.AbilityScores_init base racial feat level h = (Return self, h') /\
    h ⊆ h' /\
    V1.scores_at h' self
      {| base_set := fb; racial_set := fr; feat_set := ff; level_set := fl |}.
Proof.
  intros Hb Hr Hf Hl.
  destruct (v1_or_default h racial V1.new_RacialBonus V1.RacialBonus)
    as (lr & h1 & fr & E1 & Hlr & S1); [reflexivity | exact Hr |].
  destruct (v1_or_default h1 feat V1.new_FeatBonus V1.FeatBonus)
    as (lf & h2 & ff & E2 & Hlf & S2); [reflexivity | |].
  { intros l Hl0. destruct (Hf l Hl0) as [f Hf0]. exists f.
    exact (lookup_weaken _ _ _ _ Hf0 S1). }
  destruct (v1_or_default h2 level V1.new_LevelBonus V1.LevelBonus)
    as (ll & h3 & fl & E3 & Hll & S3); [reflexivity | |].
  { intros l Hl0. destruct (Hl l Hl0) as [f Hf0]. exists f.
    exact (lookup_weaken _ _ _ _ (lookup_weaken _ _ _ _ Hf0 S1) S2). }
  eexists _, h3, fr, ff, fl. unfold V1.AbilityScores_init.
  unfold bind at 1. rewrite E1. unfold bind at 1. rewrite E2.
  unfold bind at 1. rewrite E3.
  split; [reflexivity|].
  split; [etrans; [exact S1|]; etrans; [exact S2 | exact S3]|].
  unfold V1.scores_at. simpl.
  split; [exact (lookup_weaken _ _ _ _ (lookup_weaken _ _ _ _
                   (lookup_weaken _ _ _ _ Hb S1) S2) S3)|].
  split; [exact (lookup_weaken _ _ _ _ (lookup_weaken _ _ _ _ Hlr S2) S3)|].
  split; [exact (lookup_weaken _ _ _ _ Hlf S3) | exact Hll].
Qed.

(** C6, as the code has it.  Second version: when a bonus set supplied to
    [CharacterStats] carries a tag other than that of the slot it is given
    for, construction raises the error of the first such slot, in the order
    racial, feat, level, and returns no object; when every supplied tag is
    that of its slot, construction returns an aggregator whose three bonus
    sets, supplied or built by default, carry the tags of their slots and
    which, over a [BaseAbilities], is a state in the sense of [stats_at].
    Objects that were in the heap are unchanged either way.  First version:
    [AbilityScores] compares nothing; it returns an aggregator that stores
    each supplied instance in the slot it was given for. *)
Theorem C6_slot_tags_checked_by_CharacterStats_only :
  (forall h base racial feat level tr tf tl,
      V2.supplied_tag h racial V2.RACIAL = Some tr ->
      V2.supplied_tag h feat V2.FEAT = Some tf ->
      V2.supplied_tag h level V2.LEVEL = Some tl ->
      (tr <> V2.RACIAL \/ tf <> V2.FEAT \/ tl <> V2.LEVEL ->
       exists slot h',
         V2.CharacterStats_init base racial feat level h
         = (Raise (ValueError (V2.SlotMustHaveType slot)), h') /\
         h ⊆ h' /\
         slot = (if decide (tr <> V2.RACIAL) then V2.RACIAL
                 else if decide (tf <> V2.FEAT) then V2.FEAT else V2.LEVEL)) /\
      (tr = V2.RACIAL -> tf = V2.FEAT -> tl = V2.LEVEL ->
       exists self h' fr ff fl,
         V2.CharacterStats_init base racial feat level h = (Return self, h') /\
         h ⊆ h' /\
         V2._base_abilities self = base /\
         (forall l, racial = Some l -> V2._racial_bonus self = l) /\
         (forall l, feat = Some l -> V2._feat_bonus self = l) /\
         (forall l, level = Some l -> V2._level_bonus self = l) /\
         h' !! V2._racial_bonus self = Some (V2.AbilityBonus fr V2.RACIAL) /\
         h' !! V2._feat_bonus self = Some (V2.AbilityBonus ff V2.FEAT) /\
         h' !! V2._level_bonus self = Some (V2.AbilityBonus fl V2.LEVEL) /\
         forall fb, h !! base = Some (V2.BaseAbilities fb) ->
           V2.stats_at h' self
             {| base_set := fb; racial_set := fr;
                feat_set := ff; level_set := fl |}))
  /\
  (forall (h : V1.heap) base racial feat level,
      exists self h',
        V1.AbilityScores_init base racial feat level h = (Return self, h') /\
        V1._score_base self = base /\
        (forall l, racial = Some l -> V1._racial_bonus self = l) /\
        (forall l, feat = Some l -> V1._feat_bonus self = l) /\
        (forall l, level = Some l -> V1._level_bonus self = l)).
Proof.
  split; [|exact v1_AbilityScores_init_returns].
  intros h base racial feat level tr tf tl Hr Hf Hl.
  destruct (v2_CharacterStats_init h base _ _ _ _ _ _ Hr Hf Hl)
    as (lr & lf & ll & fr & ff & fl & h' & Hsub & Hlr & Hlf & Hll
        & Xr & Xf & Xl & Hinit).
  split.
  - intros Hmis. rewrite Hinit.
    destruct (decide (tr <> V2.RACIAL)); [eexists _, h'; eauto|].
    destruct (decide (tf <> V2.FEAT)); [eexists _, h'; eauto|].
    destruct (decide (tl <> V2.LEVEL)); [eexists _, h'; eauto|].
    exfalso. destruct Hmis as [?|[?|?]]; contradiction.
  - intros -> -> ->. rewrite Hinit. simpl.
    eexists _, h', fr, ff, fl. split; [reflexivity|]. simpl.
    split; [exact Hsub|]. split; [reflexivity|].
    split; [exact Xr|]. split; [exact Xf|]. split; [exact Xl|].
    split; [exact Hlr|]. split; [exact Hlf|]. split; [exact Hll|].
    intros fb Hb. unfold V2.stats_at. simpl.
    rewrite (lookup_weaken _ _ _ _ Hb Hsub). auto.
Qed.

Lemma C6_slot_tags_checked_by_CharacterStats_only_witness :
  V2.supplied_tag Scenario.v2_heap_before_init (Some 1%nat) V2.RACIAL
  = Some V2.FEAT /\
  exists slot h',
    V2.CharacterStats_init 0%nat (Some 1%nat) None None
      Scenario.v2_heap_before_init
    = (Raise (ValueError (V2.SlotMustHaveType slot)), h') /\
    Scenario.v2_heap_before_init ⊆ h' /\ slot = V2.RACIAL.
Proof.
  split; [vm_compute; reflexivity|].
  refine (proj1 (proj1 C6_slot_tags_checked_by_CharacterStats_only
                   Scenario.v2_heap_before_init 0%nat (Some 1%nat) None None
                   V2.FEAT V2.FEAT V2.LEVEL _ _ _) _).
  - vm_compute. reflexivity.
  - reflexivity.
  - reflexivity.
  - left. discriminate.
Defined.

(** C6 as stated fails for the first version: an instance of [FeatBonus]
    supplied for the racial slot is accepted by [AbilityScores] and stored
    there. *)
Lemma C6_counterexample :
  Scenario.v1_feat_as_racial ∅
  = (Return {| V1._score_base := 0%nat; V1._racial_bonus := 1%nat;
               V1._feat_bonus := 2%nat; V1._level_bonus := 3%nat |},
     snd (Scenario.v1_feat_as_racial ∅)) /\
  snd (Scenario.v1_feat_as_racial ∅) !! 1%nat
  = Some (V1.FeatBonus (mkScores 0 0 0 0 0 0)).
Proof. split; vm_compute; reflexivity. Qed.

(** ** Building value sets: what is accepted *)

Lemma arguments_forallb (p : value -> bool) (args : Scores value) :
  forallb p (V1.arguments args) = true <-> forall a, p (get a args) = true.
Proof.
  destruct args as [s d c w i ch]. unfold V1.arguments. simpl.
  rewrite !andb_true_iff. split.
  - intros (Hs & Hd & Hc & Hw & Hi & Hch & _) []; assumption.
  - intros Hall. repeat split; [apply (Hall STRENGTH) | apply (Hall DEXTERITY)
      | apply (Hall CONSTITUTION) | apply (Hall WISDOM)
      | apply (Hall INTELLIGENCE) | apply (Hall CHARISMA)].
Qed.

Lemma arguments_forallb_false (p : value -> bool) (args : Scores value) :
  forallb p (V1.arguments args) = false <-> exists a, p (get a args) = false.
Proof.
  split.
  - intros Hf.
    destruct (find (fun a => negb (p (get a args))) Ability_members)
      as [b|] eqn:Hfind.
    + apply find_some in Hfind as [_ Hb]. exists b.
      apply negb_true_iff. exact Hb.
    + exfalso. assert (forallb p (V1.arguments args) = true) as Ht.
      { apply arguments_forallb. intros a.
        pose proof (find_none _ _ Hfind a) as Hn.
        apply negb_false_iff, Hn. destruct a; simpl; tauto. }
      congruence.
  - intros [a Ha]. apply not_true_iff_false. intros Ht.
    rewrite arguments_forallb in Ht. rewrite Ht in Ha. discriminate.
Qed.

(** [BaseAbilities(...)], by the first ability that is refused. *)
Lemma v2_new_BaseAbilities (args : Scores value) (h : V2.heap) :
  V2.new_BaseAbilities args h =
    match find (fun a => negb (isinstance_int (get a args))) Ability_members
    with
    | Some a => (Raise (ValueError (V2.MustBeInteger a)), h)
    | None =>
        match find (fun a => to_Z (get a args) <? 0) Ability_members with
        | Some a => (Raise (ValueError (V2.BaseMustBeNonNegative a)), h)
        | None => (Return (fresh (dom h)),
                   <[fresh (dom h) := V2.BaseAbilities (smap to_Z args)]> h)
        end
    end.
Proof.
  unfold V2.new_BaseAbilities, bind, lift.
  rewrite v2_BaseAbilities_post_init.
  destruct (find _ Ability_members); [reflexivity|].
  destruct (find _ Ability_members); reflexivity.
Qed.

(** [AbilityBonus(...)] with a member of [BonusType] as its tag, by the
    first ability that is refused. *)
Lemma v2_new_AbilityBonus (args : Scores value) t (h : V2.heap) :
  V2.new_AbilityBonus args (Member t) h =
    match find (fun a => negb (nonneg_int (get a args))) Ability_members with
    | Some a =>
        (Raise (ValueError (if isinstance_int (get a args)
                            then V2.CannotBeNegativeForBonuses a
                            else V2.MustBeInteger a)), h)
    | None => (Return (fresh (dom h)),
               <[fresh (dom h) := V2.AbilityBonus (smap to_Z args) t]> h)
    end.
Proof.
  unfold V2.new_AbilityBonus, bind, lift, V2.AbilityBonus_post_init.
  rewrite v2_AbilitySet_post_init_bonus.
  destruct (find _ Ability_members); reflexivity.
Qed.

(** With anything else as its tag it is never built. *)
Lemma v2_new_AbilityBonus_other (args : Scores value) v (h : V2.heap) :
  exists e, V2.new_AbilityBonus args (Other v) h = (Raise e, h).
Proof.
  unfold V2.new_AbilityBonus, bind, lift, V2.AbilityBonus_post_init.
  destruct (V2.AbilitySet_post_init false args) as [[]|e]; eexists; reflexivity.
Qed.

Lemma nonneg_int_spec (v : value) :
  nonneg_int v = true <-> isinstance_int v = true /\ 0 <= to_Z v.
Proof.
  unfold nonneg_int, isinstance_int, to_Z.
  destruct (as_int v) as [z|]; simpl; [|intuition discriminate].
  rewrite Z.leb_le. tauto.
Qed.

Lemma v1_new_bonus (args : Scores value) (h : V1.heap) :
  (V1.new_RacialBonus args h =
     if forallb isinstance_int (V1.arguments args)
     then (Return (fresh (dom h)),
           <[fresh (dom h) := V1.RacialBonus (smap to_Z args)]> h)
     else (Raise (ValueError (V1.AllBonusesMustBeIntegers V1.RACIAL_BONUS)), h))
  /\
  (V1.new_FeatBonus args h =
     if forallb isinstance_int (V1.arguments args)
     then (Return (fresh (dom h)),
           <[fresh (dom h) := V1.FeatBonus (smap to_Z args)]> h)
     else (Raise (ValueError (V1.AllBonusesMustBeIntegers V1.FEAT_BONUS)), h))
  /\
  (V1.new_LevelBonus args h =
     if forallb isinstance_int (V1.arguments args)
     then (Return (fresh (dom h)),
           <[fresh (dom h) := V1.LevelBonus (smap to_Z args)]> h)
     else (Raise (ValueError (V1.AllBonusesMustBeIntegers V1.LEVEL_BONUS)), h)).
Proof.
  unfold V1.new_RacialBonus, V1.new_FeatBonus, V1.new_LevelBonus.
  destruct (forallb isinstance_int (V1.arguments args)); repeat split.
Qed.

Lemma v1_new_ScoreBase (args : Scores value) (h : V1.heap) :
  V1.new_ScoreBase args h =
    (if forallb nonneg_int (V1.arguments args)
     then (Return (fresh (dom h)),
           <[fresh (dom h) := V1.ScoreBase (smap to_Z args)]> h)
     else (Raise (ValueError V1.AllAttributesMustBeNonNegativeIntegers), h)).
Proof.
  unfold V1.new_ScoreBase. fold nonneg_int.
  change (fun x : value => match as_int x with
                           | Some z => 0 <=? z
                           | None => false
                           end) with nonneg_int.
  destruct (forallb nonneg_int (V1.arguments args)); reflexivity.
Qed.



(** ** Negative bonuses *)






(** ** Base sets *)

Lemma ints_nonneg_int (s d c w i ch : Z) :
  0 <= s -> 0 <= d -> 0 <= c -> 0 <= w -> 0 <= i -> 0 <= ch ->
  forall a, nonneg_int (get a (ints s d c w i ch)) = true.
Proof.
  intros Hs Hd Hc Hw Hi Hch a. rewrite get_ints. unfold nonneg_int. simpl.
  destruct a; simpl; lia.
Qed.

Lemma read_back_new {msg obj} `{ValueSet obj} (o : obj) (h : gmap loc obj)
  (a : Ability) :
  obj_getattr (msg := msg) (fresh (dom h)) (field_name a)
    (<[fresh (dom h) := o]> h)
  = (Return (get a (fields o)), <[fresh (dom h) := o]> h).
Proof. apply obj_getattr_lookup, lookup_insert_eq. Qed.

(** C8.  For non-negative integers [s], [d], [c], [w], [i], [ch], both
    [BaseAbilities] and [ScoreBase] are built at a reference that was not in
    use, and reading each of the six attributes back by its ability gives
    the value supplied.  Construction fails instead when a value is not a
    non-negative [int].  Second version: when some value is not an [int],
    it raises the error for a value that is not an integer, naming such an
    ability, whatever the other values are; when one is negative, the six
    being [int]s, it raises the error for a negative base score, naming a
    negative ability: the integer validation of the six values comes first
    and the sign is checked in addition, as in section 4.1 of the
    specification.  First version: when some value is negative or not an
    [int], construction raises its error for both, "All attributes must be
    non-negative integers". *)
Theorem C8_base_set_round_trip_and_errors :
  (forall s d c w i ch (h : V2.heap),
      0 <= s -> 0 <= d -> 0 <= c -> 0 <= w -> 0 <= i -> 0 <= ch ->
      exists l h',
        V2.new_BaseAbilities (ints s d c w i ch) h = (Return l, h') /\
        h !! l = None /\
        forall a,
          obj_getattr (msg := V2.msg) l (field_name a) h'
          = (Return (get a (mkScores s d c w i ch)), h')) /\
  (forall s d c w i ch (h : V1.heap),
      0 <= s -> 0 <= d -> 0 <= c -> 0 <= w -> 0 <= i -> 0 <= ch ->
      exists l h',
        V1.new_ScoreBase (ints s d c w i ch) h = (Return l, h') /\
        h !! l = None /\
        forall a,
          obj_getattr (msg := V1.msg) l (V1.attr_name a) h'
          = (Return (get a (mkScores s d c w i ch)), h')) /\
  (forall args (h : V2.heap),
      (exists a, isinstance_int (get a args) = false) ->
      exists a,
        isinstance_int (get a args) = false /\
        V2.new_BaseAbilities args h
        = (Raise (ValueError (V2.MustBeInteger a)), h)) /\
  (forall args (h : V2.heap),
      (forall a, isinstance_int (get a args) = true) ->
      (exists a, to_Z (get a args) < 0) ->
      exists a,
        to_Z (get a args) < 0 /\
        V2.new_BaseAbilities args h
        = (Raise (ValueError (V2.BaseMustBeNonNegative a)), h)) /\
  (forall args (h : V1.heap),
      (exists a, nonneg_int (get a args) = false) ->
      V1.new_ScoreBase args h
      = (Raise (ValueError V1.AllAttributesMustBeNonNegativeIntegers), h)).
Proof.
  split; [|split; [|split; [|split]]].
  - intros s d c w i ch h Hs Hd Hc Hw Hi Hch.
    pose proof (ints_nonneg_int s d c w i ch Hs Hd Hc Hw Hi Hch) as Hok.
    exists (fresh (dom h)), (<[fresh (dom h) :=
                               V2.BaseAbilities (mkScores s d c w i ch)]> h).
    split; [|split].
    + rewrite v2_new_BaseAbilities. rewrite !find_Ability_none; [reflexivity| |].
      * intros a. specialize (Hok a). apply nonneg_int_spec in Hok. lia.
      * intros a. specialize (Hok a). apply nonneg_int_spec in Hok as [-> _].
        reflexivity.
    + apply not_elem_of_dom, is_fresh.
    + intros a.
      exact (read_back_new (V2.BaseAbilities (mkScores s d c w i ch)) h a).
  - intros s d c w i ch h Hs Hd Hc Hw Hi Hch.
    pose proof (ints_nonneg_int s d c w i ch Hs Hd Hc Hw Hi Hch) as Hok.
    exists (fresh (dom h)), (<[fresh (dom h) :=
                               V1.ScoreBase (mkScores s d c w i ch)]> h).
    split; [|split].
    + rewrite v1_new_ScoreBase.
      apply arguments_forallb in Hok. rewrite Hok. reflexivity.
    + apply not_elem_of_dom, is_fresh.
    + intros a.
      exact (read_back_new (V1.ScoreBase (mkScores s d c w i ch)) h a).
  - intros args h [a Ha]. rewrite v2_new_BaseAbilities.
    destruct (find_Ability_some
                (fun a => negb (isinstance_int (get a args))) a)
      as (b & -> & Hb); [rewrite Ha; reflexivity|].
    exists b. split; [apply negb_true_iff; exact Hb | reflexivity].
  - intros args h Hint [a Ha]. rewrite v2_new_BaseAbilities.
    rewrite find_Ability_none by (intros b; rewrite Hint; reflexivity).
    destruct (find_Ability_some (fun a => to_Z (get a args) <? 0) a)
      as (b & -> & Hb); [lia|].
    exists b. split; [lia | reflexivity].
  - intros args h Hbad. rewrite v1_new_ScoreBase.
    apply arguments_forallb_false in Hbad. rewrite Hbad. reflexivity.
Qed.

Lemma C8_base_set_round_trip_and_errors_witness :
  exists l h',
    V2.new_BaseAbilities (ints 14 12 10 8 16 10) ∅ = (Return l, h') /\
    (∅ : V2.heap) !! l = None /\
    forall a,
      obj_getattr (msg := V2.msg) l (field_name a) h'
      = (Return (get a (mkScores 14 12 10 8 16 10)), h').
Proof.
  apply (proj1 C8_base_set_round_trip_and_errors 14 12 10 8 16 10 ∅); lia.
Defined.

(** Where a negative integer and a value that is not an integer meet, the
    integer validation decides: [BaseAbilities(strength=-1, dexterity="x")]
    raises the error for a value that is not an integer. *)
Lemma base_integer_validation_comes_first :
  as_int (strength Scenario.negative_and_text) = Some (-1) /\
  V2.new_BaseAbilities Scenario.negative_and_text ∅
  = (Raise (ValueError (V2.MustBeInteger DEXTERITY)), ∅).
Proof. split; [reflexivity | vm_compute; reflexivity]. Qed.

(** ** The order of the checks *)




(** ** The two versions side by side *)

Lemma v1_mod_of (a : Ability) self :
  V1.mod_of a self = (value <- V1._sum_scores self a ;; V1.floor_half value).
Proof. destruct a; reflexivity. Qed.

Lemma add_to_component_of t increments L :
  V1.add_to (component_of t) increments L = V2.add_to t increments L.
Proof. destruct t; reflexivity. Qed.

Lemma new_bonus_of_spec t (args : Scores value) (h : V1.heap) :
  raised (fst (new_bonus_of t args h))
  = negb (forallb isinstance_int (V1.arguments args)).
Proof.
  destruct (v1_new_bonus args h) as (Er & Ef & El).
  destruct t; unfold new_bonus_of; rewrite ?Er, ?Ef, ?El;
    destruct (forallb isinstance_int (V1.arguments args)); reflexivity.
Qed.

(** C9, as the code has it.  On two states that hold the same values in
    the four sets, [_sum_scores] and [total_score] return the same sum, and
    the [_mod] property of an ability and [modifier] return the same
    integer or both raise [OverflowError].  [ScoreBase] and [BaseAbilities]
    are built from the same six values or both refused, and when built hold
    the same values.  A bonus set of the first version and an
    [AbilityBonus] of the second are both built when the six values are
    non-negative [int]s and both refused when some value is not an [int];
    when all six are [int]s and one is negative, the first version builds
    the set and the second refuses it.  [increment_attribute] and
    [add_bonus], given corresponding categories and the same batch, both
    raise a [ValueError] or both return, and afterwards the two states again
    hold the same values in the four sets. *)
Theorem C9_versions_agree_except_on_negative_bonuses :
  (forall h1 s1 h2 s2 L (a : Ability),
      V1.scores_at h1 s1 L -> V2.stats_at h2 s2 L ->
      V1._sum_scores s1 a h1 = (Return (sum_of_layers L a), h1) /\
      V2.total_score s2 a h2 = (Return (sum_of_layers L a), h2) /\
      exists r1 r2,
        V1.mod_of a s1 h1 = (r1, h1) /\ V2.modifier s2 a h2 = (r2, h2) /\
        same_result r1 r2) /\
  (forall args (h1 : V1.heap) (h2 : V2.heap),
      (V1.new_ScoreBase args h1
       = (Raise (ValueError V1.AllAttributesMustBeNonNegativeIntegers), h1) /\
       exists e, V2.new_BaseAbilities args h2 = (Raise (ValueError e), h2)) \/
      (V1.new_ScoreBase args h1
       = (Return (fresh (dom h1)),
          <[fresh (dom h1) := V1.ScoreBase (smap to_Z args)]> h1) /\
       V2.new_BaseAbilities args h2
       = (Return (fresh (dom h2)),
          <[fresh (dom h2) := V2.BaseAbilities (smap to_Z args)]> h2))) /\
  (forall args t (h1 : V1.heap) (h2 : V2.heap),
      ((forall a, nonneg_int (get a args) = true) ->
       raised (fst (new_bonus_of t args h1)) = false /\
       raised (fst (V2.new_AbilityBonus args (Member t) h2)) = false) /\
      ((exists a, isinstance_int (get a args) = false) ->
       raised (fst (new_bonus_of t args h1)) = true /\
       raised (fst (V2.new_AbilityBonus args (Member t) h2)) = true) /\
      ((forall a, isinstance_int (get a args) = true) ->
       (exists a, to_Z (get a args) < 0) ->
       raised (fst (new_bonus_of t args h1)) = false /\
       raised (fst (V2.new_AbilityBonus args (Member t) h2)) = true)) /\
  (forall h1 s1 h2 s2 L bonus_type increments r1 h1' r2 h2',
      V1.scores_at h1 s1 L -> V2.stats_at h2 s2 L ->
      V1.increment_attribute s1 (component_arg bonus_type) increments h1
      = (r1, h1') ->
      V2.add_bonus s2 bonus_type increments h2 = (r2, h2') ->
      same_result r1 r2 /\
      exists L', V1.scores_at h1' s1 L' /\ V2.stats_at h2' s2 L').
Proof.
  split; [|split; [|split]].
  - intros h1 s1 h2 s2 L a H1 H2.
    split; [exact (v1_sum_scores _ _ _ a H1)|].
    split; [exact (v2_total_score _ _ _ a H2)|].
    rewrite v1_mod_of. unfold V2.modifier, V1.floor_half, bind.
    rewrite (v1_sum_scores _ _ _ a H1), (v2_total_score _ _ _ a H2).
    destruct (int_truediv_2 (sum_of_layers L a - 10)) as [x|];
      eexists _, _; (split; [reflexivity|]); (split; [reflexivity|]);
      reflexivity.
  - intros args h1 h2. rewrite v1_new_ScoreBase, v2_new_BaseAbilities.
    destruct (forallb nonneg_int (V1.arguments args)) eqn:Hall.
    + right. split; [reflexivity|].
      rewrite arguments_forallb in Hall.
      rewrite !find_Ability_none; [reflexivity| |].
      * intros a. specialize (Hall a). apply nonneg_int_spec in Hall. lia.
      * intros a. specialize (Hall a). apply nonneg_int_spec in Hall as [-> _].
        reflexivity.
    + left. split; [reflexivity|].
      apply arguments_forallb_false in Hall as [a Ha].
      destruct (find _ Ability_members) as [b|] eqn:Hint; [eauto|].
      destruct (find_Ability_some (fun a => to_Z (get a args) <? 0) a)
        as (b & -> & _); [|eauto].
      pose proof (find_none _ _ Hint a) as Hn.
      apply not_true_iff_false in Ha. rewrite nonneg_int_spec in Ha.
      apply Z.ltb_lt.
      destruct (Z.lt_ge_cases (to_Z (get a args)) 0); [assumption|].
      exfalso. apply Ha. split; [|assumption].
      apply negb_false_iff, Hn. destruct a; simpl; tauto.
  - intros args t h1 h2. rewrite new_bonus_of_spec, v2_new_AbilityBonus.
    split; [|split].
    + intros Hall.
      rewrite find_Ability_none by (intros a; rewrite Hall; reflexivity).
      split; [|reflexivity]. apply negb_false_iff, arguments_forallb.
      intros a. specialize (Hall a). apply nonneg_int_spec in Hall as [? _].
      assumption.
    + intros [a Ha]. split.
      * apply negb_true_iff, arguments_forallb_false. eauto.
      * destruct (find_Ability_some
                    (fun a => negb (nonneg_int (get a args))) a)
          as (b & -> & _); [|reflexivity].
        apply negb_true_iff, not_true_iff_false. rewrite nonneg_int_spec.
        intros [? _]. congruence.
    + intros Hint [a Ha]. split.
      * apply negb_false_iff, arguments_forallb. exact Hint.
      * destruct (find_Ability_some
                    (fun a => negb (nonneg_int (get a args))) a)
          as (b & -> & _); [|reflexivity].
        apply negb_true_iff, not_true_iff_false. rewrite nonneg_int_spec.
        intros [_ ?]. lia.
  - intros h1 s1 h2 s2 L bonus_type increments r1 h1' r2 h2' H1 H2 E1 E2.
    destruct bonus_type as [t|v].
    + destruct (all_or_failing (accepted 20 L) increments)
        as [Hall|(x & Hx & Hrej)].
      * destruct (v1_increment_attribute_returns _ _ _ (component_of t) _
                    H1 Hall) as (k1 & R1 & A1 & _).
        destruct (v2_add_bonus_returns _ _ _ t _ H2 Hall)
          as (k2 & R2 & A2 & _).
        simpl component_arg in E1. rewrite R1 in E1. rewrite R2 in E2.
        injection E1 as <- <-. injection E2 as <- <-.
        split; [reflexivity|]. exists (V2.add_to t increments L).
        rewrite <- add_to_component_of at 1. split; assumption.
      * destruct (v1_increment_attribute_rejects_some _ _ _ (component_of t)
                    _ _ H1 Hx Hrej) as [e1 R1].
        destruct (first_failing _ _ _ Hx Hrej)
          as (pre & y & post & -> & Hpre & Hy).
        pose proof (v2_add_bonus_rejects _ _ _ t _ _ post H2 Hpre Hy) as R2.
        simpl component_arg in E1. rewrite R1 in E1. rewrite R2 in E2.
        injection E1 as <- <-. injection E2 as <- <-.
        split; [|exists L; split; assumption].
        pose proof (v1_increment_attribute_cases _ _ _
                      (Member (component_of t)) (pre ++ y :: post) H1)
          as Hcases.
        clear -R1 Hx Hrej H1. revert R1.
        destruct (all_or_failing (fun e => positive_int (snd e))
                    (pre ++ y :: post)) as [Hpos|(z & Hz & Hnz)].
        -- assert (within 20 L x = false) as Hw.
           { rewrite Forall_forall in Hpos. specialize (Hpos _ Hx).
             unfold accepted in Hrej. rewrite Hpos in Hrej. exact Hrej. }
           destruct (first_failing _ _ _ Hx Hw)
             as (p1 & y1 & q1 & Heq & Hp1 & Hy1).
           rewrite Heq in Hpos |- *.
           rewrite (v1_increment_attribute_rejects_total _ _ _ _ _ _ _
                      H1 Hpos Hp1 Hy1).
           intros [= <-]. exact I.
        -- destruct (first_failing (fun e => positive_int (snd e)) _ _ Hz Hnz)
             as (p1 & y1 & q1 & Heq & Hp1 & Hy1).
           rewrite Heq.
           rewrite (v1_increment_attribute_rejects_amount _ _ _ _ _ _
                      Hp1 Hy1).
           intros [= <-]. exact I.
    + simpl in E1, E2. destruct (hashable v); unfold raise in E1, E2;
        injection E1 as <- <-; injection E2 as <- <-;
        (split; [exact I | exists L; split; assumption]).
Qed.

Lemma C9_versions_agree_except_on_negative_bonuses_witness :
  V1.scores_at Scenario.v1_heap Scenario.v1_scores Scenario.layers /\
  V2.stats_at Scenario.v2_heap Scenario.v2_stats Scenario.layers /\
  V1._sum_scores Scenario.v1_scores STRENGTH Scenario.v1_heap
  = (Return (sum_of_layers Scenario.layers STRENGTH), Scenario.v1_heap).
Proof.
  assert (V2.stats_at Scenario.v2_heap Scenario.v2_stats Scenario.layers)
    as H2 by (repeat split; vm_compute; reflexivity).
  assert (V1.scores_at Scenario.v1_heap Scenario.v1_scores Scenario.layers)
    as H1 by (repeat split; vm_compute; reflexivity).
  split; [exact H1|]. split; [exact H2|].
  exact (proj1 (proj1 C9_versions_agree_except_on_negative_bonuses
                  _ _ _ _ _ STRENGTH H1 H2)).
Defined.

(** C9 as stated fails on bonus sets with a negative value: from the same
    six values, [RacialBonus(strength=-1)] of the first version is built and
    [AbilityBonus(strength=-1, bonus_type=RACIAL)] of the second is
    refused. *)
Lemma C9_counterexample :
  raised (fst (V1.new_RacialBonus Scenario.minus_one ∅)) = false /\
  V2.new_AbilityBonus Scenario.minus_one (Member V2.RACIAL) ∅
  = (Raise (ValueError (V2.CannotBeNegativeForBonuses STRENGTH)), ∅).
Proof. split; vm_compute; reflexivity. Qed.

(** ** The modifier *)

(** Below [2^53] in absolute value, [n / 2] is exact and its floor is the
    floor of the quotient. *)
Lemma int_truediv_2_exact (n : Z) :
  Z.abs n < 2 ^ 53 ->
  int_truediv_2 n = Some {| significand := n; exponent := -1 |}.
Proof.
  intros Hn. unfold int_truediv_2.
  assert ((Z.log2 (Z.abs n) + 1 <=? 53) = true) as ->.
  { apply Z.leb_le. destruct (Z.eq_dec (Z.abs n) 0) as [->|Hne].
    - simpl. lia.
    - assert (Z.log2 (Z.abs n) < 53); [|lia].
      apply Z.log2_lt_pow2; lia. }
  assert ((2 ^ 1024 <=? Z.shiftl (Z.abs n) (-1)) = false) as ->.
  { apply Z.leb_gt. change (-1) with (- (1)).
    rewrite Z.shiftl_opp_r, Z.shiftr_div_pow2 by lia.
    assert (Z.abs n / 2 ^ 1 <= Z.abs n) by (apply Z.div_le_upper_bound; lia).
    assert (2 ^ 53 <= 2 ^ 1024) by (apply Z.pow_le_mono_r; lia).
    lia. }
  f_equal. f_equal. lia.
Qed.

Lemma math_floor_half (n : Z) :
  math_floor {| significand := n; exponent := -1 |} = n / 2.
Proof.
  unfold math_floor. simpl significand. simpl exponent.
  change (-1) with (- (1)).
  rewrite Z.shiftl_opp_r, Z.shiftr_div_pow2 by lia. reflexivity.
Qed.

(** For totals within [2^53] of 10, and so for every total up to the cap,
    both versions return the floor of [(total - 10) / 2]. *)
Lemma modifier_is_floor_below_2_53 :
  (forall h self L (a : Ability),
      V2.stats_at h self L ->
      Z.abs (sum_of_layers L a - 10) < 2 ^ 53 ->
      V2.modifier self a h = (Return ((sum_of_layers L a - 10) / 2), h)) /\
  (forall h self L (a : Ability),
      V1.scores_at h self L ->
      Z.abs (sum_of_layers L a - 10) < 2 ^ 53 ->
      V1.mod_of a self h = (Return ((sum_of_layers L a - 10) / 2), h)).
Proof.
  split.
  - intros h self L a Hat Hsmall. unfold V2.modifier, bind.
    rewrite (v2_total_score _ _ _ a Hat), (int_truediv_2_exact _ Hsmall).
    unfold ret. rewrite math_floor_half. reflexivity.
  - intros h self L a Hat Hsmall. rewrite v1_mod_of.
    unfold V1.floor_half, bind.
    rewrite (v1_sum_scores _ _ _ a Hat), (int_truediv_2_exact _ Hsmall).
    unfold ret. rewrite math_floor_half. reflexivity.
Qed.

(** The totals the specification lists: 7, 9, 10 and 20 give -2, -1, 0
    and 5. *)
Lemma modifier_examples :
  math_floor <$> int_truediv_2 (7 - 10) = Some (-2) /\
  math_floor <$> int_truediv_2 (9 - 10) = Some (-1) /\
  math_floor <$> int_truediv_2 (10 - 10) = Some 0 /\
  math_floor <$> int_truediv_2 (20 - 10) = Some 5.
Proof. repeat split; reflexivity. Qed.

(** C2 at a large score.  A base strength of [2^55 + 12], a non-negative
    integer, is accepted; the total of strength is that number, and the
    floor of [(total - 10) / 2] is 18014398509481985.  Both versions return
    18014398509481984: the true division rounds the quotient to a float
    before the floor is taken. *)
Theorem C2_modifier_at_large_score :
  Scenario.large_score = 2 ^ 55 + 12 /\
  (Scenario.large_score - 10) / 2 = 18014398509481985 /\
  fst (Scenario.v2_large_modifier ∅) = Return 18014398509481984 /\
  fst (Scenario.v1_large_modifier ∅) = Return 18014398509481984.
Proof. repeat split; vm_compute; reflexivity. Qed.

(** * The rest of the code *)

(** ** Floats that are exact *)

Lemma round64_exact (m e : Z) :
  Z.abs m < 2 ^ 53 -> e <= 0 -> Num.round64 m e = Num.Finite m e.
Proof.
  intros Hm He. unfold Num.round64.
  assert ((Z.log2 (Z.abs m) + 1 <=? 53) = true) as ->.
  { apply Z.leb_le. destruct (Z.eq_dec (Z.abs m) 0) as [->|Hne].
    - simpl. lia.
    - assert (Z.log2 (Z.abs m) < 53); [|lia].
      apply Z.log2_lt_pow2; lia. }
  assert ((2 ^ 1024 <=? Z.shiftl (Z.abs m) e) = false) as ->.
  { apply Z.leb_gt. replace e with (- (- e)) by lia.
    rewrite Z.shiftl_opp_r, Z.shiftr_div_pow2 by lia.
    assert (Z.abs m / 2 ^ (- e) <= Z.abs m).
    { assert (0 < 2 ^ (- e)) by (apply Z.pow_pos_nonneg; lia).
      apply Z.div_le_upper_bound; [assumption | nia]. }
    assert (2 ^ 53 <= 2 ^ 1024) by (apply Z.pow_le_mono_r; lia).
    lia. }
  f_equal. lia.
Qed.

(** The model of [n / 2] of the first part is [round64] at exponent -1. *)
Lemma int_truediv_2_round64 (n : Z) :
  int_truediv_2 n =
    match Num.round64 n (-1) with
    | Num.Finite m e => Some {| significand := m; exponent := e |}
    | _ => None
    end.
Proof.
  unfold int_truediv_2, Num.round64.
  destruct (Z.log2 (Z.abs n) + 1 <=? 53).
  - destruct (2 ^ 1024 <=? Z.shiftl (Z.abs n) (-1)); reflexivity.
  - replace (-1 + (Z.log2 (Z.abs n) + 1 - 53))
      with (Z.log2 (Z.abs n) + 1 - 53 - 1) by lia.
    destruct (2 ^ 1024 <=? _); reflexivity.
Qed.

(** ** Containers *)

Lemma read_at {T} (store : Main.World -> gmap loc T) c x w :
  store w !! c = Some x -> Main.read store c w = (Return x, w).
Proof. intros Hc. unfold Main.read. rewrite Hc. reflexivity. Qed.

Lemma write_at {T} (store : Main.World -> gmap loc T) with_store c x y w :
  store w !! c = Some y ->
  Main.write store with_store c x w
  = (Return tt, with_store w (<[c := x]> (store w))).
Proof. intros Hc. unfold Main.write. rewrite Hc. reflexivity. Qed.

Lemma sum_levels_from (cls : list Main.ClassWithLevel) (acc : Z) :
  fold_left (fun acc cl => acc + Main.level cl) cls acc
  = acc + Main.sum_levels cls.
Proof.
  unfold Main.sum_levels. revert acc.
  induction cls as [|cl cls IH]; intros acc; simpl; [lia|].
  rewrite IH, (IH (0 + _)). lia.
Qed.

Lemma sum_levels_cons cl (cls : list Main.ClassWithLevel) :
  Main.sum_levels (cl :: cls) = Main.level cl + Main.sum_levels cls.
Proof. unfold Main.sum_levels at 1. simpl. apply sum_levels_from. Qed.

Lemma sum_levels_app (cls cls' : list Main.ClassWithLevel) :
  Main.sum_levels (cls ++ cls') = Main.sum_levels cls + Main.sum_levels cls'.
Proof.
  induction cls as [|cl cls IH]; simpl; [reflexivity|].
  rewrite !sum_levels_cons, IH. lia.
Qed.

Lemma sum_levels_bounds (cls : list Main.ClassWithLevel) :
  Forall (fun cl => 1 <= Main.level cl) cls ->
  Z.of_nat (length cls) <= Main.sum_levels cls /\
  Forall (fun cl => Main.level cl <= Main.sum_levels cls) cls.
Proof.
  induction 1 as [|cl cls Hcl Hcls [IHlen IHall]].
  - split; [reflexivity | constructor].
  - rewrite sum_levels_cons. split; [simpl length; lia|].
    constructor; [lia|]. eapply Forall_impl; [exact IHall|].
    intros x Hx. simpl in Hx. lia.
Qed.

(** ** Level and proficiency *)

Lemma total_level_value w self cls :
  Main.class_lists w !! Main.classes self = Some cls ->
  Main.total_level self w = (Return (Main.sum_levels cls), w).
Proof.
  intros Hc. unfold Main.total_level, bind. rewrite (read_at _ _ _ _ Hc).
  reflexivity.
Qed.

Lemma proficiency_value w self cls :
  Main.class_lists w !! Main.classes self = Some cls ->
  0 <= Main.sum_levels cls < 2 ^ 50 ->
  Main.proficiency self w = (Return ((Main.sum_levels cls + 3) / 4 + 1), w).
Proof.
  intros Hc Hrange. unfold Main.proficiency. unfold bind at 1.
  rewrite (total_level_value _ _ _ Hc).
  assert (2 ^ 50 + 4 < 2 ^ 53) as Hpow by reflexivity.
  unfold bind at 1, lift at 1, Num.int_truediv_pow2.
  rewrite round64_exact by lia.
  unfold bind at 1, lift at 1, Num.add, Num.of_int.
  rewrite (round64_exact 1 0) by (simpl; lia).
  unfold Num.flt_add.
  change (Z.min (- (2)) 0) with (- (2)).
  change (2 ^ (- (2) - - (2))) with 1. change (2 ^ (0 - - (2))) with 4.
  rewrite round64_exact by lia.
  unfold lift, Num.math_ceil. f_equal. f_equal.
  rewrite Z.shiftl_opp_r, Z.shiftr_div_pow2 by lia.
  change (2 ^ 2) with 4. Z.div_mod_to_equations. lia.
Qed.

(** ** Hit points *)

Lemma with_scores_same (w : Main.World) : Main.with_scores w (Main.scores w) = w.
Proof. destruct w. reflexivity. Qed.

Lemma on_scores_reads {A} (m : V1.Mh A) (w : Main.World) (a : A) :
  m (Main.scores w) = (Return a, Main.scores w) ->
  Main.on_scores m w = (Return a, w).
Proof.
  intros Hm. unfold Main.on_scores. rewrite Hm, with_scores_same. reflexivity.
Qed.

Lemma on_scores_raises {A} (m : V1.Mh A) (w : Main.World) e :
  m (Main.scores w) = (Raise e, Main.scores w) ->
  Main.on_scores m w = (Raise (Main.from_scores e), w).
Proof.
  intros Hm. unfold Main.on_scores. rewrite Hm, with_scores_same. reflexivity.
Qed.

Lemma v1_mod_value h self L (a : Ability) :
  V1.scores_at h self L ->
  Z.abs (sum_of_layers L a - 10) < 2 ^ 53 ->
  V1.mod_of a self h = (Return ((sum_of_layers L a - 10) / 2), h).
Proof.
  intros Hat Hsmall. rewrite v1_mod_of. unfold V1.floor_half, bind.
  rewrite (v1_sum_scores _ _ _ a Hat), (int_truediv_2_exact _ Hsmall).
  unfold ret. rewrite math_floor_half. reflexivity.
Qed.

Lemma hit_dice_even (c : Main.CharacterClass) :
  Main.hit_dice c = 2 * (Main.hit_dice c / 2) /\
  3 <= Main.hit_dice c / 2 <= 6.
Proof. destruct c; split; vm_compute; try reflexivity; split; discriminate. Qed.

Lemma num_of_int_exact {msg} (n : Z) :
  Z.abs n < 2 ^ 53 -> Num.of_int (msg := msg) n = Return (Num.Finite n 0).
Proof.
  intros Hn. unfold Num.of_int. rewrite round64_exact by lia. reflexivity.
Qed.

Lemma num_add_half_int {msg} (t n : Z) :
  Z.abs n < 2 ^ 53 -> Z.abs (t + 2 * n) < 2 ^ 53 ->
  Num.add (msg := msg) (Num.NFloat (Num.Finite t (-1))) (Num.NInt n)
  = Return (Num.NFloat (Num.Finite (t + 2 * n) (-1))).
Proof.
  intros Hn Hsum. unfold Num.add. rewrite num_of_int_exact by exact Hn.
  unfold Num.flt_add. change (Z.min (-1) 0) with (-1).
  change (2 ^ (-1 - -1)) with 1. change (2 ^ (0 - -1)) with 2.
  replace (t * 1 + n * 2) with (t + 2 * n) by lia.
  rewrite round64_exact by lia. reflexivity.
Qed.

Lemma num_add_int_half {msg} (n t : Z) :
  Z.abs n < 2 ^ 53 -> Z.abs (2 * n + t) < 2 ^ 53 ->
  Num.add (msg := msg) (Num.NInt n) (Num.NFloat (Num.Finite t (-1)))
  = Return (Num.NFloat (Num.Finite (2 * n + t) (-1))).
Proof.
  intros Hn Hsum. unfold Num.add. rewrite num_of_int_exact by exact Hn.
  unfold Num.flt_add. change (Z.min 0 (-1)) with (-1).
  change (2 ^ (-1 - -1)) with 1. change (2 ^ (0 - -1)) with 2.
  replace (n * 2 + t * 1) with (2 * n + t) by lia.
  rewrite round64_exact by lia. reflexivity.
Qed.

Lemma num_add_half_half {msg} (t u : Z) :
  Z.abs (t + u) < 2 ^ 53 ->
  Num.add (msg := msg) (Num.NFloat (Num.Finite t (-1)))
    (Num.NFloat (Num.Finite u (-1)))
  = Return (Num.NFloat (Num.Finite (t + u) (-1))).
Proof.
  intros Hsum. unfold Num.add, Num.flt_add. change (Z.min (-1) (-1)) with (-1).
  change (2 ^ (-1 - -1)) with 1.
  replace (t * 1 + u * 1) with (t + u) by lia.
  rewrite round64_exact by lia. reflexivity.
Qed.

Lemma num_mul_half_int {msg} (t n : Z) :
  Z.abs n < 2 ^ 53 -> Z.abs (t * n) < 2 ^ 53 ->
  Num.mul (msg := msg) (Num.NFloat (Num.Finite t (-1))) (Num.NInt n)
  = Return (Num.NFloat (Num.Finite (t * n) (-1))).
Proof.
  intros Hn Hprod. unfold Num.mul. rewrite num_of_int_exact by exact Hn.
  unfold Num.flt_mul. change (-1 + 0) with (-1).
  rewrite round64_exact by lia. reflexivity.
Qed.

Lemma to_int_half {msg} (nan : msg) (n : Z) :
  Num.to_int nan (Num.NFloat (Num.Finite (2 * n) (-1))) = Return n.
Proof.
  unfold Num.to_int. f_equal. change (-1) with (- (1)).
  rewrite !Z.shiftl_opp_r, !Z.shiftr_div_pow2 by lia. change (2 ^ 1) with 2.
  replace (- (2 * n)) with (2 * - n) by lia.
  rewrite !(Z.mul_comm 2), !Z.div_mul by lia.
  destruct (0 <=? n * 2); lia.
Qed.

(** One entry that is not the first: half the die plus one plus the
    modifier, for each level, as a float that is exact. *)
Lemma calc_hp_later w self con cl :
  Main.on_scores (V1.constitution_mod (Main.ability self)) w = (Return con, w) ->
  Z.abs con <= 2 ^ 40 ->
  1 <= Main.level cl <= 20 ->
  Main._calc_hp self (Main.hit_dice (Main.class_ cl)) (Main.level cl) false w
  = (Return (Num.NFloat (Num.Finite (2 * Main.later_hp con cl) (-1))), w) /\
  Z.abs (2 * Main.later_hp con cl) <= 2 ^ 46.
Proof.
  intros Hcon Hbound Hlevel.
  destruct (hit_dice_even (Main.class_ cl)) as [Heven Hdie].
  assert (2 ^ 40 + 2 ^ 40 < 2 ^ 46 /\ 2 ^ 46 < 2 ^ 53 /\ 0 < 2 ^ 40)
    as (Hp1 & Hp2 & Hp3) by (repeat split; reflexivity).
  assert (2 * Main.later_hp con cl
          = (Main.hit_dice (Main.class_ cl) + 2 + 2 * con) * Main.level cl)
    as Hterm by (unfold Main.later_hp; nia).
  assert (Z.abs (2 * Main.later_hp con cl) <= 2 ^ 46) as Hsmall.
  { rewrite Hterm. nia. }
  split; [|exact Hsmall].
  unfold Main._calc_hp. unfold bind at 1. unfold bind at 1.
  unfold lift at 1, Num.int_truediv_pow2. rewrite round64_exact by lia.
  unfold lift at 1. change (- (1)) with (-1).
  rewrite num_add_half_int by (simpl; lia).
  unfold bind at 1. rewrite Hcon.
  unfold bind at 1. unfold lift at 1.
  rewrite num_add_half_int by lia.
  unfold lift. rewrite num_mul_half_int.
  - rewrite Hterm. reflexivity.
  - lia.
  - replace ((Main.hit_dice (Main.class_ cl) + 2 * 1 + 2 * con)
             * Main.level cl)
      with (2 * Main.later_hp con cl) by (rewrite Hterm; lia).
    lia.
Qed.

Lemma calc_hp_first w self con die quantity :
  Main.on_scores (V1.constitution_mod (Main.ability self)) w = (Return con, w) ->
  Main._calc_hp self die quantity true w
  = (Return (Num.NInt ((die + con) * quantity)), w).
Proof.
  intros Hcon. unfold Main._calc_hp. unfold bind at 1. unfold ret at 1.
  unfold bind at 1. rewrite Hcon. reflexivity.
Qed.

(** The loop once the running total is a float. *)
Lemma total_hp_loop_later w self con (rest : list Main.ClassWithLevel) (t : Z) :
  Main.on_scores (V1.constitution_mod (Main.ability self)) w = (Return con, w) ->
  Z.abs con <= 2 ^ 40 ->
  Forall (fun cl => 1 <= Main.level cl <= 20) rest ->
  Z.abs t + 2 ^ 46 * Z.of_nat (length rest) < 2 ^ 52 ->
  Main.total_hp_loop self rest (Num.NFloat (Num.Finite t (-1))) false w
  = (Return (Num.NFloat
               (Num.Finite
                  (t + 2 * fold_right (fun cl acc => Main.later_hp con cl + acc)
                             0 rest) (-1))), w).
Proof.
  intros Hcon Hbound Hlevels. revert t.
  assert (2 ^ 52 < 2 ^ 53 /\ 0 < 2 ^ 46) as [Hp1 Hp2]
    by (split; reflexivity).
  induction Hlevels as [|cl rest Hcl _ IH]; intros t Ht.
  - simpl. unfold ret. do 4 f_equal. lia.
  - destruct (calc_hp_later w self con cl Hcon Hbound Hcl) as [Hhp Hsmall].
    cbn [Main.total_hp_loop]. unfold bind at 1. rewrite Hhp.
    unfold bind at 1, lift at 1.
    cbn [length] in Ht. rewrite Nat2Z.inj_succ in Ht.
    rewrite num_add_half_half by lia.
    rewrite IH by lia. cbn [fold_right]. do 4 f_equal. lia.
Qed.

Lemma total_hp_value w self con (cls : list Main.ClassWithLevel) :
  Main.class_lists w !! Main.classes self = Some cls ->
  Main.on_scores (V1.constitution_mod (Main.ability self)) w = (Return con, w) ->
  Z.abs con <= 2 ^ 40 ->
  Forall (fun cl => 1 <= Main.level cl) cls ->
  Main.sum_levels cls <= 20 ->
  Main.total_hp self w = (Return (Main.hit_points con cls), w).
Proof.
  intros Hc Hcon Hbound Hpos Hsum.
  destruct (sum_levels_bounds _ Hpos) as [Hlen Hle].
  assert (Forall (fun cl => 1 <= Main.level cl <= 20) cls) as Hlevels.
  { rewrite Forall_forall in Hpos, Hle. apply Forall_forall. intros cl Hcl.
    specialize (Hpos cl Hcl). specialize (Hle cl Hcl). simpl in Hle. lia. }
  assert (2 ^ 46 * 20 < 2 ^ 52 /\ 2 ^ 52 < 2 ^ 53 /\ 2 ^ 40 + 12 < 2 ^ 41
          /\ 2 ^ 41 * 20 < 2 ^ 46 /\ 0 < 2 ^ 40)
    as (Hp1 & Hp2 & Hp3 & Hp4 & Hp5) by (repeat split; reflexivity).
  unfold Main.total_hp. unfold bind at 1. rewrite (read_at _ _ _ _ Hc).
  destruct cls as [|first rest].
  { reflexivity. }
  apply Forall_cons in Hlevels as [Hfirst Hrest].
  destruct (hit_dice_even (Main.class_ first)) as [_ Hdie].
  assert (Z.abs ((Main.hit_dice (Main.class_ first) + con) * Main.level first)
          <= 2 ^ 41 * 20) as Hx.
  { assert (Z.abs (Main.hit_dice (Main.class_ first) + con) <= 2 ^ 41)
      by (Z.div_mod_to_equations; lia).
    nia. }
  cbn [Main.total_hp_loop]. unfold bind at 1. unfold bind at 1.
  rewrite (calc_hp_first _ _ _ _ _ Hcon).
  unfold bind at 1, lift at 1. cbn [Num.add].
  destruct rest as [|second rest].
  { cbn [Main.total_hp_loop]. unfold ret at 1. unfold lift, Num.to_int.
    unfold Main.hit_points. cbn [fold_right]. do 2 f_equal. lia. }
  apply Forall_cons in Hrest as [Hsecond Hrest].
  destruct (calc_hp_later w self con second Hcon Hbound Hsecond)
    as [Hhp Hsmall].
  cbn [Main.total_hp_loop]. unfold bind at 1. rewrite Hhp.
  unfold bind at 1, lift at 1.
  rewrite num_add_int_half by lia.
  cbn [length] in Hlen. rewrite !Nat2Z.inj_succ in Hlen.
  rewrite (total_hp_loop_later _ _ _ _ _ Hcon Hbound Hrest) by lia.
  unfold lift. unfold Main.hit_points. cbn [fold_right].
  match goal with
  | |- (Num.to_int _ (Num.NFloat (Num.Finite ?t _)), _) = (Return ?n, _) =>
      replace t with (2 * n) by lia
  end.
  rewrite to_int_half. reflexivity.
Qed.

(** ** The example of [main.py] *)

Lemma demo_builder :
  Demo.new_builder Demo.empty_world
  = (Return Demo.builder, Demo.world_before_build).
Proof. vm_compute. reflexivity. Qed.

Lemma demo_builder_at :
  Main.builder_at Demo.world_before_build Demo.builder Demo.sheet.
Proof. repeat split; vm_compute; reflexivity. Qed.

Lemma demo_character :
  fst (Main.build Demo.builder Demo.world_before_build)
  = Return Demo.character.
Proof. vm_compute. reflexivity. Qed.

Lemma demo_character_at :
  Main.character_at Demo.world Demo.character Demo.sheet.
Proof. repeat split; vm_compute; reflexivity. Qed.

Lemma demo_scores_at :
  V1.scores_at (Main.scores Demo.world) Demo.scores Demo.layers.
Proof. repeat split; vm_compute; reflexivity. Qed.

(** ** Building a character *)

Lemma read_optional_given {T} (store : Main.World -> gmap loc T)
  (empty content : T) x w :
  Main.given store empty w x = Some content ->
  Main.read_optional store empty x w = (Return content, w).
Proof.
  destruct x as [c|]; simpl.
  - apply read_at.
  - intros [= <-]. reflexivity.
Qed.

Lemma or_new_given {T} (store : Main.World -> gmap loc T) with_store
  (is_empty : T -> bool) (empty content : T) x w :
  Main.given store empty w x = Some content ->
  Main.or_new store with_store is_empty empty x w =
    match x with
    | Some c =>
        if is_empty content then Main.new store with_store empty w
        else (Return c, w)
    | None => Main.new store with_store empty w
    end.
Proof.
  destruct x as [c|]; simpl; [|reflexivity].
  intros Hc. unfold bind. rewrite (read_at _ _ _ _ Hc).
  destruct (is_empty content); reflexivity.
Qed.

Lemma is_nil_true {T} (l : list T) : Main.is_nil l = true <-> l = [].
Proof. destruct l; simpl; split; congruence. Qed.

Lemma is_empty_set_true (s : gset Main.Skill) :
  Main.is_empty_set s = true <-> s = ∅.
Proof. unfold Main.is_empty_set. apply bool_decide_eq_true. Qed.

Lemma levels_positive (cls : list Main.ClassWithLevel) :
  forallb (fun cl => 0 <? Main.level cl) cls = true
  <-> Forall (fun cl => 1 <= Main.level cl) cls.
Proof.
  induction cls as [|cl cls IH]; simpl.
  - split; [constructor | reflexivity].
  - rewrite andb_true_iff, Forall_cons, IH, Z.ltb_lt. intuition lia.
Qed.

Lemma expertise_subset (exs : gset Main.Skill) (sks : list Main.Skill) :
  forallb (fun s => bool_decide (s ∈ sks)) (elements exs) = true
  <-> forall s, s ∈ exs -> s ∈ sks.
Proof.
  rewrite forallb_forall. split.
  - intros Hall s Hs. apply elem_of_elements, list_elem_of_In in Hs.
    apply Hall in Hs. apply bool_decide_eq_true in Hs. exact Hs.
  - intros Hsub s Hs. apply bool_decide_eq_true, Hsub, elem_of_elements.
    apply list_elem_of_In. exact Hs.
Qed.

(** [Character.__init__] with its reads done: the checks in the order of
    the code, then the three assignments that may build a container. *)
Lemma Character_init_checks w name classes ability save_throws skills
  expertise_skills cls sks exs :
  Main.class_lists w !! classes = Some cls ->
  Main.given Main.skill_lists [] w skills = Some sks ->
  Main.given Main.skill_sets ∅ w expertise_skills = Some exs ->
  Main.Character_init name classes ability save_throws skills
    expertise_skills w =
    match Main.nonempty_str name with
    | None => (Raise (ValueError Main.NameMustBeNonEmptyString), w)
    | Some name_str =>
        if Main.is_nil cls || negb (forallb (fun cl => 0 <? Main.level cl) cls)
        then (Raise (ValueError Main.ClassesMustBePositiveLevels), w)
        else
          match ability with
          | None => (Raise (ValueError Main.AbilityMustBeInstance), w)
          | Some a =>
              if negb (Main.is_empty_set exs) && Main.is_nil sks
              then (Raise (ValueError Main.NoExpertiseWithoutSkills), w)
              else if negb (Main.is_empty_set exs)
                      && negb (forallb (fun s => bool_decide (s ∈ sks))
                                 (elements exs))
              then (Raise (ValueError Main.ExpertiseMustBeSubset), w)
              else if 20 <? Main.sum_levels cls
              then (Raise (ValueError Main.TotalLevelCannotExceed20), w)
              else
                (sts_ref <- Main.or_new Main.ability_lists
                              Main.with_ability_lists Main.is_nil []
                              save_throws ;;
                 sks_ref <- Main.or_new Main.skill_lists
                              Main.with_skill_lists Main.is_nil [] skills ;;
                 exs_ref <- Main.or_new Main.skill_sets Main.with_skill_sets
                              Main.is_empty_set ∅ expertise_skills ;;
                 ret {| Main.name := name_str;
                        Main.classes := classes;
                        Main.ability := a;
                        Main.save_throws := sts_ref;
                        Main.skills := sks_ref;
                        Main.expertise_skills := exs_ref |}) w
          end
    end.
Proof.
  intros Hc Hs He. unfold Main.Character_init.
  destruct (Main.nonempty_str name) as [n|]; [|reflexivity].
  unfold bind at 1. rewrite (read_at _ _ _ _ Hc).
  destruct (Main.is_nil cls || _); [reflexivity|].
  destruct ability as [a|]; [|reflexivity].
  unfold bind at 1. rewrite (read_optional_given _ _ _ _ _ Hs).
  unfold bind at 1. rewrite (read_optional_given _ _ _ _ _ He).
  destruct (negb (Main.is_empty_set exs) && Main.is_nil sks); [reflexivity|].
  destruct (negb (Main.is_empty_set exs) && negb _); [reflexivity|].
  destruct (20 <? Main.sum_levels cls); reflexivity.
Qed.

(** [x or []], [x or set()]: the container given when it is not empty, a
    new empty one otherwise; either way it holds what was given. *)
Lemma or_new_spec {T} (store : Main.World -> gmap loc T) with_store
  (is_empty : T -> bool) (empty content : T) x w :
  (forall w0 m, store (with_store w0 m) = m) ->
  (is_empty content = true -> content = empty) ->
  Main.given store empty w x = Some content ->
  exists l w',
    Main.or_new store with_store is_empty empty x w = (Return l, w') /\
    store w' !! l = Some content /\
    (w' = w \/ w' = with_store w (<[fresh (dom (store w)) := empty]> (store w)))
    /\ l = match x with
           | Some c => if is_empty content then fresh (dom (store w)) else c
           | None => fresh (dom (store w))
           end.
Proof.
  intros Hlaw Hempty Hx. rewrite (or_new_given _ _ _ _ _ _ _ Hx).
  destruct x as [c|]; [destruct (is_empty content) eqn:E|].
  - rewrite (Hempty eq_refl). eexists _, _. split; [reflexivity|].
    rewrite Hlaw. split; [apply lookup_insert_eq|]. split; [right|]; reflexivity.
  - exists c, w. split; [reflexivity|]. split; [exact Hx|].
    split; [left|]; reflexivity.
  - simpl in Hx. injection Hx as <-. eexists _, _. split; [reflexivity|].
    rewrite Hlaw. split; [apply lookup_insert_eq|]. split; [right|]; reflexivity.
Qed.

Lemma fresh_extends {T} (m : gmap loc T) (x : T) :
  m ⊆ <[fresh (dom m) := x]> m.
Proof. apply insert_subseteq, not_elem_of_dom, is_fresh. Qed.

(** The three assignments at the end of [Character.__init__]. *)
Lemma Character_init_assigns w n classes a save_throws skills
  expertise_skills cls sts sks exs :
  Main.class_lists w !! classes = Some cls ->
  Main.given Main.ability_lists [] w save_throws = Some sts ->
  Main.given Main.skill_lists [] w skills = Some sks ->
  Main.given Main.skill_sets ∅ w expertise_skills = Some exs ->
  exists self w',
    (sts_ref <- Main.or_new Main.ability_lists Main.with_ability_lists
                  Main.is_nil [] save_throws ;;
     sks_ref <- Main.or_new Main.skill_lists Main.with_skill_lists
                  Main.is_nil [] skills ;;
     exs_ref <- Main.or_new Main.skill_sets Main.with_skill_sets
                  Main.is_empty_set ∅ expertise_skills ;;
     ret {| Main.name := n;
            Main.classes := classes;
            Main.ability := a;
            Main.save_throws := sts_ref;
            Main.skills := sks_ref;
            Main.expertise_skills := exs_ref |}) w = (Return self, w') /\
    Main.character_at w' self
      {| Main.sheet_classes := cls; Main.sheet_save_throws := sts;
         Main.sheet_skills := sks; Main.sheet_expertise := exs |} /\
    Main.name self = n /\ Main.classes self = classes /\
    Main.ability self = a /\
    Main.scores w' = Main.scores w /\
    Main.class_lists w' = Main.class_lists w /\
    Main.ability_lists w ⊆ Main.ability_lists w' /\
    Main.skill_lists w ⊆ Main.skill_lists w' /\
    Main.skill_sets w ⊆ Main.skill_sets w' /\
    Main.save_throws self =
      match save_throws with
      | Some c => if Main.is_nil sts then fresh (dom (Main.ability_lists w))
                  else c
      | None => fresh (dom (Main.ability_lists w))
      end /\
    Main.skills self =
      match skills with
      | Some c => if Main.is_nil sks then fresh (dom (Main.skill_lists w))
                  else c
      | None => fresh (dom (Main.skill_lists w))
      end /\
    Main.expertise_skills self =
      match expertise_skills with
      | Some c => if Main.is_empty_set exs
                  then fresh (dom (Main.skill_sets w)) else c
      | None => fresh (dom (Main.skill_sets w))
      end.
Proof.
  intros Hc Hst Hsk Hex.
  destruct (or_new_spec Main.ability_lists Main.with_ability_lists
              Main.is_nil [] sts save_throws w)
    as (l1 & w1 & E1 & H1 & F1 & R1);
    [reflexivity | apply is_nil_true | exact Hst |].
  assert (Main.scores w1 = Main.scores w /\
          Main.class_lists w1 = Main.class_lists w /\
          Main.skill_lists w1 = Main.skill_lists w /\
          Main.skill_sets w1 = Main.skill_sets w /\
          Main.ability_lists w ⊆ Main.ability_lists w1)
    as (A1 & A2 & A3 & A4 & A5).
  { destruct F1 as [->| ->]; simpl; repeat split; try reflexivity.
    apply fresh_extends. }
  destruct (or_new_spec Main.skill_lists Main.with_skill_lists
              Main.is_nil [] sks skills w1)
    as (l2 & w2 & E2 & H2 & F2 & R2);
    [reflexivity | apply is_nil_true
     | destruct skills; simpl in *; rewrite ?A3; exact Hsk |].
  assert (Main.scores w2 = Main.scores w1 /\
          Main.class_lists w2 = Main.class_lists w1 /\
          Main.ability_lists w2 = Main.ability_lists w1 /\
          Main.skill_sets w2 = Main.skill_sets w1 /\
          Main.skill_lists w1 ⊆ Main.skill_lists w2)
    as (B1 & B2 & B3 & B4 & B5).
  { destruct F2 as [->| ->]; simpl; repeat split; try reflexivity.
    apply fresh_extends. }
  destruct (or_new_spec Main.skill_sets Main.with_skill_sets
              Main.is_empty_set ∅ exs expertise_skills w2)
    as (l3 & w3 & E3 & H3 & F3 & R3);
    [reflexivity | apply is_empty_set_true
     | destruct expertise_skills; simpl in *; rewrite ?B4, ?A4; exact Hex |].
  assert (Main.scores w3 = Main.scores w2 /\
          Main.class_lists w3 = Main.class_lists w2 /\
          Main.ability_lists w3 = Main.ability_lists w2 /\
          Main.skill_lists w3 = Main.skill_lists w2 /\
          Main.skill_sets w2 ⊆ Main.skill_sets w3)
    as (C1 & C2 & C3 & C4 & C5).
  { destruct F3 as [->| ->]; simpl; repeat split; try reflexivity.
    apply fresh_extends. }
  eexists _, w3. split.
  { unfold bind at 1. rewrite E1. unfold bind at 1. rewrite E2.
    unfold bind at 1. rewrite E3. reflexivity. }
  split.
  { unfold Main.character_at. simpl.
    rewrite C2, B2, A2, C3, B3, C4. auto. }
  rewrite A3 in R2. rewrite B4, A4 in R3. simpl.
  split; [reflexivity|]. split; [reflexivity|]. split; [reflexivity|].
  split; [congruence|]. split; [congruence|].
  split; [rewrite C3, B3; exact A5|].
  split; [rewrite C4, <- A3; exact B5|].
  split; [rewrite <- A4, <- B4; exact C5|].
  split; [exact R1|]. split; [exact R2 | exact R3].
Qed.

(** [Character.__init__] returns exactly on acceptable arguments, and
    raises without having changed anything otherwise. *)
Lemma Character_init_cases w name classes ability save_throws skills
  expertise_skills S :
  Main.class_lists w !! classes = Some (Main.sheet_classes S) ->
  Main.given Main.ability_lists [] w save_throws
  = Some (Main.sheet_save_throws S) ->
  Main.given Main.skill_lists [] w skills = Some (Main.sheet_skills S) ->
  Main.given Main.skill_sets ∅ w expertise_skills
  = Some (Main.sheet_expertise S) ->
  (Main.acceptable name ability S /\
   exists n a,
     Main.nonempty_str name = Some n /\ ability = Some a /\
     Main.Character_init name classes ability save_throws skills
       expertise_skills w
     = (sts_ref <- Main.or_new Main.ability_lists Main.with_ability_lists
                     Main.is_nil [] save_throws ;;
        sks_ref <- Main.or_new Main.skill_lists Main.with_skill_lists
                     Main.is_nil [] skills ;;
        exs_ref <- Main.or_new Main.skill_sets Main.with_skill_sets
                     Main.is_empty_set ∅ expertise_skills ;;
        ret {| Main.name := n;
               Main.classes := classes;
               Main.ability := a;
               Main.save_throws := sts_ref;
               Main.skills := sks_ref;
               Main.expertise_skills := exs_ref |}) w) \/
  (~ Main.acceptable name ability S /\
   exists m,
     Main.Character_init name classes ability save_throws skills
       expertise_skills w = (Raise (ValueError m), w)).
Proof.
  intros Hc Hst Hsk Hex. destruct S as [cls sts sks exs]. simpl in *.
  rewrite (Character_init_checks _ _ _ _ _ _ _ _ _ _ Hc Hsk Hex).
  unfold Main.acceptable. simpl.
  destruct (Main.nonempty_str name) as [n|];
    [|right; split; [intros ([? [=]] & _) | eauto]].
  destruct (Main.is_nil cls) eqn:Enil.
  { right. apply is_nil_true in Enil. simpl. split; [tauto | eauto]. }
  destruct (forallb (fun cl => 0 <? Main.level cl) cls) eqn:Epos; simpl.
  2:{ right. split; [|eauto]. intros (_ & _ & Hall & _).
      apply levels_positive in Hall. congruence. }
  apply levels_positive in Epos.
  assert (cls <> []) as Hne by (intros ->; discriminate).
  destruct ability as [a|];
    [|right; split; [intros (_ & _ & _ & [? [=]] & _) | eauto]].
  destruct (Main.is_empty_set exs) eqn:Eex; simpl.
  - apply is_empty_set_true in Eex.
    destruct (20 <? Main.sum_levels cls) eqn:Esum.
    + right. split; [|eauto]. intros (_ & _ & _ & _ & _ & Hsum). lia.
    + left. split; [|eauto].
      repeat split; eauto; try lia; contradiction.
  - assert (exs <> ∅) as Hex_ne.
    { intros Heq. apply is_empty_set_true in Heq. congruence. }
    destruct (Main.is_nil sks) eqn:Esk.
    { right. apply is_nil_true in Esk. split; [|eauto].
      intros (_ & _ & _ & _ & Hexp & _). destruct (Hexp Hex_ne). contradiction. }
    assert (sks <> []) as Hsk_ne by (intros ->; discriminate).
    destruct (forallb (fun s => bool_decide (s ∈ sks)) (elements exs))
      eqn:Esub; simpl.
    2:{ right. split; [|eauto]. intros (_ & _ & _ & _ & Hexp & _).
        destruct (Hexp Hex_ne) as [_ Hsub].
        apply expertise_subset in Hsub. congruence. }
    pose proof (proj1 (expertise_subset exs sks) Esub) as Hsub.
    destruct (20 <? Main.sum_levels cls) eqn:Esum.
    + right. split; [|eauto]. intros (_ & _ & _ & _ & _ & Hsum). lia.
    + left. split; [|eauto]. repeat split; eauto; lia.
Qed.

(** ** The builder *)

Lemma builder_init_spec w :
  exists self w',
    Main.CharacterBuilder_init w = (Return self, w') /\
    Main.builder_at w' self
      {| Main.sheet_classes := []; Main.sheet_save_throws := [];
         Main.sheet_skills := []; Main.sheet_expertise := ∅ |} /\
    Main._name self = None /\ Main._ability self = None /\
    Main.__first_class_level self = true /\
    Main.class_lists w !! Main._classes self = None /\
    Main.ability_lists w !! Main._save_throws self = None /\
    Main.skill_lists w !! Main._skills self = None /\
    Main.skill_sets w !! Main._expertise_skills self = None.
Proof.
  eexists _, _. split; [reflexivity|]. simpl.
  split; [repeat split; simpl; apply lookup_insert_eq|].
  repeat split; apply not_elem_of_dom, is_fresh.
Qed.

Lemma nonempty_str_spec (name : value) (s : string) :
  Main.nonempty_str name = Some s <-> name = VStr s /\ s <> "".
Proof.
  destruct name as [| | |t| | | |]; simpl;
    try (split; [discriminate | intros [[=] _]]).
  destruct (String.eqb t "") eqn:E.
  - apply String.eqb_eq in E. split; [discriminate|].
    intros [[= ->] Hne]. contradiction.
  - apply String.eqb_neq in E. split.
    + intros [= ->]. auto.
    + intros [[= ->] _]. reflexivity.
Qed.

Lemma others_kept_refl self w : Main.others_kept self w w.
Proof. repeat split. Qed.

(** [add_class], in a world where the builder holds [S]. *)
Lemma add_class_spec w self S lv class_ :
  Main.builder_at w self S ->
  match as_int lv, class_ with
  | None, _ =>
      Main.add_class self lv class_ w
      = (Raise (ValueError Main.LevelMustBePositiveInteger), w)
  | Some n, Other _ =>
      Main.add_class self lv class_ w
      = (Raise (ValueError (if n <=? 0 then Main.LevelMustBePositiveInteger
                            else Main.ClassMustBeInstance)), w)
  | Some n, Member c =>
      if n <=? 0
      then Main.add_class self lv class_ w
           = (Raise (ValueError Main.LevelMustBePositiveInteger), w)
      else if 20 <? Main.sum_levels (Main.sheet_classes S) + n
      then Main.add_class self lv class_ w
           = (Raise (ValueError Main.TotalLevelCannotExceed20), w)
      else
        exists w',
          Main.add_class self lv class_ w
          = (Return (Main.first_class_added self), w') /\
          Main.builder_at w' (Main.first_class_added self)
            (Main.after_add_class (Main.__first_class_level self) n c S) /\
          Main.others_kept self w w'
  end.
Proof.
  intros (Hc & Hst & Hsk & Hex).
  destruct (as_int lv) as [n|] eqn:Hn;
    [|unfold Main.add_class; rewrite Hn; destruct class_; reflexivity].
  destruct class_ as [c|v];
    [|unfold Main.add_class; rewrite Hn; destruct (n <=? 0); reflexivity].
  destruct (n <=? 0) eqn:En;
    [unfold Main.add_class; rewrite Hn, En; reflexivity|].
  destruct (20 <? Main.sum_levels (Main.sheet_classes S) + n) eqn:Etot.
  { unfold Main.add_class. rewrite Hn, En. unfold bind at 1.
    rewrite (read_at _ _ _ _ Hc), Etot. reflexivity. }
  unfold Main.add_class. rewrite Hn, En. unfold bind at 1.
  rewrite (read_at _ _ _ _ Hc), Etot.
  unfold Main.after_add_class, Main.new_entries, Main.append_class.
  destruct (Main.__first_class_level self) eqn:Efirst.
  - unfold bind at 1. unfold lift at 1. cbn [Main.get_proficiencies].
    unfold bind at 1. rewrite (read_at _ _ _ _ Hst).
    unfold bind at 1. erewrite write_at by exact Hst.
    unfold bind at 1. unfold bind at 1.
    erewrite read_at by (simpl; exact Hc).
    erewrite write_at by (simpl; exact Hc).
    destruct (n - 1 <? 1) eqn:Erest.
    + eexists. split; [reflexivity|]. split.
      * repeat split; simpl; rewrite ?lookup_insert_eq, ?app_nil_r;
          first [reflexivity | assumption].
      * repeat split; simpl; intros l Hl;
          rewrite ?lookup_insert_ne by congruence; reflexivity.
    + replace (0 <? n - 1) with true by lia.
      unfold bind at 1. unfold bind at 1.
      erewrite read_at by (simpl; apply lookup_insert_eq).
      erewrite write_at by (simpl; apply lookup_insert_eq).
      eexists. split; [reflexivity|]. split.
      * repeat split; simpl;
          rewrite ?insert_insert_eq, ?lookup_insert_eq, <- ?app_assoc;
          first [reflexivity | assumption].
      * repeat split; simpl; intros l Hl;
          rewrite ?insert_insert_eq, ?lookup_insert_ne by congruence;
          reflexivity.
  - replace (0 <? n) with true by lia.
    unfold bind at 1. unfold bind at 1. rewrite (read_at _ _ _ _ Hc).
    erewrite write_at by exact Hc.
    assert (Main.first_class_added self = self) as Hself
      by (clear -Efirst; destruct self; simpl in *; subst; reflexivity).
    eexists. split; [unfold ret; rewrite Hself; reflexivity|]. split.
    + rewrite Hself. repeat split; simpl; rewrite ?lookup_insert_eq;
        first [reflexivity | assumption].
    + repeat split; simpl; intros l Hl;
        rewrite ?lookup_insert_ne by congruence; reflexivity.
Qed.

Lemma add_skill_spec w self S skill :
  Main.builder_at w self S ->
  match skill with
  | Other _ =>
      Main.add_skill self skill w
      = (Raise (ValueError Main.SkillMustBeInstance), w)
  | Member s =>
      exists w',
        Main.add_skill self skill w = (Return self, w') /\
        Main.builder_at w' self (Main.after_add_skill s S) /\
        Main.others_kept self w w'
  end.
Proof.
  intros (Hc & Hst & Hsk & Hex). destruct skill as [s|v]; [|reflexivity].
  unfold Main.add_skill, Main.after_add_skill. unfold bind at 1.
  rewrite (read_at _ _ _ _ Hsk). rewrite bool_decide_not.
  destruct (bool_decide (s ∈ Main.sheet_skills S)); simpl.
  - exists w. split; [reflexivity|]. split; [repeat split; assumption|].
    apply others_kept_refl.
  - unfold bind at 1. erewrite write_at by exact Hsk.
    eexists. split; [reflexivity|]. split.
    + repeat split; simpl; rewrite ?lookup_insert_eq;
        first [reflexivity | assumption].
    + repeat split; simpl; intros l Hl;
        rewrite ?lookup_insert_ne by congruence; reflexivity.
Qed.

Lemma add_expertise_spec w self S skill :
  Main.builder_at w self S ->
  match skill with
  | Other _ =>
      Main.add_expertise self skill w
      = (Raise (ValueError Main.SkillMustBeInstance), w)
  | Member s =>
      if bool_decide (s ∈ Main.sheet_skills S)
      then exists w',
          Main.add_expertise self skill w = (Return self, w') /\
          Main.builder_at w' self (Main.after_add_expertise s S) /\
          Main.others_kept self w w'
      else Main.add_expertise self skill w
           = (Raise (ValueError Main.NoExpertiseOnNonProficient), w)
  end.
Proof.
  intros (Hc & Hst & Hsk & Hex). destruct skill as [s|v]; [|reflexivity].
  destruct (bool_decide (s ∈ Main.sheet_skills S)) eqn:E;
    unfold Main.add_expertise, Main.after_add_expertise; unfold bind at 1;
    rewrite (read_at _ _ _ _ Hsk), bool_decide_not, E; simpl; [|reflexivity].
  unfold bind at 1. rewrite (read_at _ _ _ _ Hex).
  unfold bind at 1. erewrite write_at by exact Hex.
  eexists. split; [reflexivity|]. split.
  - repeat split; simpl; rewrite ?lookup_insert_eq;
      first [reflexivity | assumption].
  - repeat split; simpl; intros l Hl;
      rewrite ?lookup_insert_ne by congruence; reflexivity.
Qed.

Lemma sum_levels_new_entries first n c :
  0 < n -> Main.sum_levels (Main.new_entries first n c) = n.
Proof.
  intros Hn. unfold Main.new_entries.
  destruct first; [destruct (n - 1 <? 1) eqn:E|];
    rewrite ?sum_levels_cons; unfold Main.sum_levels; simpl; lia.
Qed.

Lemma new_entries_positive first n c :
  0 < n ->
  Forall (fun cl => 1 <= Main.level cl) (Main.new_entries first n c).
Proof.
  intros Hn. unfold Main.new_entries.
  destruct first; [destruct (n - 1 <? 1) eqn:E|];
    repeat constructor; simpl; lia.
Qed.

Lemma well_formed_add_class self S n c :
  Main.well_formed self S ->
  0 < n ->
  Main.sum_levels (Main.sheet_classes S) + n <= 20 ->
  Main.well_formed (Main.first_class_added self)
    (Main.after_add_class (Main.__first_class_level self) n c S).
Proof.
  intros (Hpos & Hsum & Hfirst & Hnd & Hsub & Hname) Hn Htot.
  unfold Main.well_formed. simpl.
  split; [apply Forall_app; split;
          [exact Hpos | apply new_entries_positive; exact Hn]|].
  split; [rewrite sum_levels_app, sum_levels_new_entries by exact Hn; lia|].
  split; [|auto].
  destruct (Main.__first_class_level self).
  - destruct Hfirst as [-> ->]. simpl. eexists _, _. repeat split.
  - destruct Hfirst as (first & rest & -> & Hone & Hsts).
    exists first, (rest ++ Main.new_entries false n c). auto.
Qed.

Lemma well_formed_add_skill self S s :
  Main.well_formed self S -> Main.well_formed self (Main.after_add_skill s S).
Proof.
  intros (Hpos & Hsum & Hfirst & Hnd & Hsub & Hname).
  unfold Main.well_formed, Main.after_add_skill. simpl.
  repeat (split; [assumption|]).
  destruct (bool_decide (s ∈ Main.sheet_skills S)) eqn:E.
  - auto.
  - apply bool_decide_eq_false in E. split; [|split; [|exact Hname]].
    + apply NoDup_app. split; [exact Hnd|]. split; [|apply NoDup_singleton].
      intros x Hx Hs. apply list_elem_of_singleton in Hs. subst. contradiction.
    + intros x Hx. apply elem_of_app. left. auto.
Qed.

Lemma well_formed_add_expertise self S s :
  Main.well_formed self S ->
  s ∈ Main.sheet_skills S ->
  Main.well_formed self (Main.after_add_expertise s S).
Proof.
  intros (Hpos & Hsum & Hfirst & Hnd & Hsub & Hname) Hs.
  unfold Main.well_formed, Main.after_add_expertise. simpl.
  repeat (split; [assumption|]). split; [|exact Hname].
  intros x Hx. apply elem_of_union in Hx as [Hx|Hx]; [|auto].
  apply elem_of_singleton in Hx. subst. exact Hs.
Qed.

Lemma well_formed_acceptable self S n a :
  Main.well_formed self S ->
  Main._name self = Some n ->
  Main.sheet_classes S <> [] ->
  Main.acceptable (VStr n) (Some a) S.
Proof.
  intros (Hpos & Hsum & Hfirst & Hnd & Hsub & Hname) Hn Hne.
  unfold Main.acceptable. split.
  { exists n. apply nonempty_str_spec. split; [reflexivity|]. congruence. }
  split; [exact Hne|]. split; [exact Hpos|]. split; [eauto|].
  split; [|exact Hsum]. intros Hex. split; [|exact Hsub].
  intros Hnil. apply Hex. apply set_eq. intros s. split.
  - intros Hs. apply Hsub in Hs. rewrite Hnil in Hs. inversion Hs.
  - intros Hs. apply elem_of_empty in Hs. contradiction.
Qed.

(** [build], in a world where the builder holds [S]. *)
Lemma build_spec w self S :
  Main.builder_at w self S ->
  Main.well_formed self S ->
  match Main._name self with
  | None => Main.build self w = (Raise (ValueError Main.NameMustBeSet), w)
  | Some n =>
      if Main.is_nil (Main.sheet_classes S)
      then Main.build self w = (Raise (ValueError Main.ClassMustBeSet), w)
      else
        match Main._ability self with
        | None =>
            Main.build self w = (Raise (ValueError Main.AbilityMustBeSet), w)
        | Some a =>
            exists c w',
              Main.build self w = (Return c, w') /\
              Main.character_at w' c S /\
              Main.builder_at w' self S /\
              Main.name c = n /\ Main.ability c = a /\
              Main.classes c = Main._classes self /\
              Main.save_throws c = Main._save_throws self /\
              Main.skills c =
                (if Main.is_nil (Main.sheet_skills S)
                 then fresh (dom (Main.skill_lists w))
                 else Main._skills self) /\
              Main.expertise_skills c =
                (if Main.is_empty_set (Main.sheet_expertise S)
                 then fresh (dom (Main.skill_sets w))
                 else Main._expertise_skills self) /\
              Main.scores w' = Main.scores w /\
              Main.class_lists w' = Main.class_lists w /\
              Main.ability_lists w' = Main.ability_lists w /\
              Main.skill_lists w ⊆ Main.skill_lists w' /\
              Main.skill_sets w ⊆ Main.skill_sets w'
        end
  end.
Proof.
  intros Hat Hwf. pose proof Hat as (Hc & Hst & Hsk & Hex).
  destruct (Main._name self) as [n|] eqn:Hn;
    [|unfold Main.build; rewrite Hn; reflexivity].
  destruct (Main.is_nil (Main.sheet_classes S)) eqn:Enil.
  { unfold Main.build. rewrite Hn. unfold bind.
    rewrite (read_at _ _ _ _ Hc), Enil. reflexivity. }
  destruct (Main._ability self) as [a|] eqn:Ha.
  2:{ unfold Main.build. rewrite Hn, Ha. unfold bind.
      rewrite (read_at _ _ _ _ Hc), Enil. reflexivity. }
  assert (Main.sheet_classes S <> []) as Hne.
  { intros Heq. apply is_nil_true in Heq. congruence. }
  assert (Main.build self w
          = Main.Character_init (VStr n) (Main._classes self) (Some a)
              (Some (Main._save_throws self)) (Some (Main._skills self))
              (Some (Main._expertise_skills self)) w) as ->.
  { unfold Main.build. rewrite Hn, Ha. unfold bind at 1.
    rewrite (read_at _ _ _ _ Hc), Enil. reflexivity. }
  destruct (Character_init_cases w (VStr n) (Main._classes self) (Some a)
              (Some (Main._save_throws self)) (Some (Main._skills self))
              (Some (Main._expertise_skills self)) S Hc Hst Hsk Hex)
    as [(_ & n' & a' & Hn' & Ha' & ->)|(Hno & _)].
  2:{ exfalso. apply Hno. eapply well_formed_acceptable; eassumption. }
  injection Ha' as <-.
  apply nonempty_str_spec in Hn' as [[= <-] _].
  destruct (Character_init_assigns w n (Main._classes self) a
              (Some (Main._save_throws self)) (Some (Main._skills self))
              (Some (Main._expertise_skills self))
              (Main.sheet_classes S) (Main.sheet_save_throws S)
              (Main.sheet_skills S) (Main.sheet_expertise S) Hc Hst Hsk Hex)
    as (c & w' & Hr & Hcat & Hname & Hcls & Hab & Hsc & Hcl & Hal & Hsl & Hss
        & Rst & Rsk & Rex).
  exists c, w'. split; [exact Hr|].
  split; [destruct S; exact Hcat|].
  split.
  { unfold Main.builder_at. rewrite Hcl.
    split; [exact Hc|]. split; [exact (lookup_weaken _ _ _ _ Hst Hal)|].
    split; [exact (lookup_weaken _ _ _ _ Hsk Hsl)
           | exact (lookup_weaken _ _ _ _ Hex Hss)]. }
  assert (Main.is_nil (Main.sheet_save_throws S) = false) as Ests.
  { destruct Hwf as (_ & _ & Hfirst & _).
    destruct (Main.__first_class_level self).
    - destruct Hfirst as [Hnil _]. contradiction.
    - destruct Hfirst as (first & rest & _ & _ & ->).
      destruct (Main.class_ first); reflexivity. }
  rewrite Ests in Rst.
  split; [exact Hname|]. split; [exact Hab|]. split; [exact Hcls|].
  split; [exact Rst|]. split; [exact Rsk|]. split; [exact Rex|].
  split; [exact Hsc|]. split; [exact Hcl|]. split; [|split; assumption].
  (* the list of saving throws is not empty, so no list was added *)
  revert Hr. unfold bind at 1.
  rewrite (or_new_given Main.ability_lists Main.with_ability_lists
             Main.is_nil [] _ (Some (Main._save_throws self)) w Hst), Ests.
  unfold bind at 1.
  destruct (Main.or_new Main.skill_lists Main.with_skill_lists Main.is_nil []
              (Some (Main._skills self)) w) as [[l2|e2] w2] eqn:E2;
    [|discriminate].
  assert (Main.ability_lists w2 = Main.ability_lists w) as A2.
  { rewrite (or_new_given Main.skill_lists Main.with_skill_lists
               Main.is_nil [] _ (Some (Main._skills self)) w Hsk) in E2.
    destruct (Main.is_nil (Main.sheet_skills S)); injection E2 as <- <-;
      reflexivity. }
  unfold bind at 1.
  destruct (Main.or_new Main.skill_sets Main.with_skill_sets
              Main.is_empty_set ∅ (Some (Main._expertise_skills self)) w2)
    as [[l3|e3] w3] eqn:E3; [|discriminate].
  assert (Main.ability_lists w3 = Main.ability_lists w2) as A3.
  { revert E3. unfold Main.or_new, bind, Main.read.
    destruct (Main.skill_sets w2 !! Main._expertise_skills self) as [x|];
      [|discriminate].
    destruct (Main.is_empty_set x); intros [= <- <-]; reflexivity. }
  intros [= _ <-]. congruence.
Qed.

Lemma with_name_spec w self S name :
  Main.builder_at w self S ->
  Main.well_formed self S ->
  match Main.nonempty_str name with
  | None =>
      Main.with_name self name w
      = (Raise (ValueError Main.NameMustBeNonEmptyString), w)
  | Some s =>
      exists self',
        Main.with_name self name w = (Return self', w) /\
        Main._name self' = Some s /\
        Main.builder_at w self' S /\ Main.well_formed self' S
  end.
Proof.
  intros Hat (Hpos & Hsum & Hfirst & Hnd & Hsub & Hname).
  unfold Main.with_name.
  destruct (Main.nonempty_str name) as [s|] eqn:E; [|reflexivity].
  eexists. split; [reflexivity|]. split; [reflexivity|].
  split; [exact Hat|]. unfold Main.well_formed. simpl.
  repeat (split; [assumption|]).
  apply nonempty_str_spec in E as [_ Hne]. congruence.
Qed.

Lemma with_ability_spec w self S ability :
  Main.builder_at w self S ->
  Main.well_formed self S ->
  match ability with
  | None =>
      Main.with_ability self ability w
      = (Raise (ValueError Main.AbilityMustBeInstance), w)
  | Some a =>
      exists self',
        Main.with_ability self ability w = (Return self', w) /\
        Main._ability self' = Some a /\
        Main.builder_at w self' S /\ Main.well_formed self' S
  end.
Proof.
  intros Hat Hwf. destruct ability as [a|]; [|reflexivity].
  eexists. split; [reflexivity|]. split; [reflexivity|].
  split; [exact Hat | exact Hwf].
Qed.

(** A call on a builder that holds a well-formed [S]: it raises and the
    world is as before, or it returns a builder with the same containers
    that holds a well-formed sheet. *)
Lemma run_call_spec w self S c :
  Main.builder_at w self S ->
  Main.well_formed self S ->
  (exists m, Main.run_call self c w = (Raise (ValueError m), w)) \/
  (exists self' w' S',
      Main.run_call self c w = (Return self', w') /\
      Main.builder_at w' self' S' /\ Main.well_formed self' S').
Proof.
  intros Hat Hwf. destruct c as [name|lv class_|ability|skill|skill]; simpl.
  - pose proof (with_name_spec w self S name Hat Hwf) as H.
    destruct (Main.nonempty_str name); [|eauto].
    destruct H as (self' & Hr & _ & Hat' & Hwf'). right. eauto 10.
  - pose proof (add_class_spec w self S lv class_ Hat) as H.
    destruct (as_int lv) as [n|]; [|eauto].
    destruct class_ as [c|v]; [|eauto].
    destruct (n <=? 0) eqn:En; [eauto|].
    destruct (20 <? Main.sum_levels (Main.sheet_classes S) + n) eqn:Etot;
      [eauto|].
    destruct H as (w' & Hr & Hat' & _). right.
    eexists _, w', _. split; [exact Hr|]. split; [exact Hat'|].
    apply well_formed_add_class; [exact Hwf | lia | lia].
  - pose proof (with_ability_spec w self S ability Hat Hwf) as H.
    destruct ability; [|eauto].
    destruct H as (self' & Hr & _ & Hat' & Hwf'). right. eauto 10.
  - pose proof (add_skill_spec w self S skill Hat) as H.
    destruct skill as [s|v]; [|eauto].
    destruct H as (w' & Hr & Hat' & _). right.
    eexists _, w', _. split; [exact Hr|]. split; [exact Hat'|].
    apply well_formed_add_skill. exact Hwf.
  - pose proof (add_expertise_spec w self S skill Hat) as H.
    destruct skill as [s|v]; [|eauto].
    destruct (bool_decide (s ∈ Main.sheet_skills S)) eqn:E; [|eauto].
    apply bool_decide_eq_true in E.
    destruct H as (w' & Hr & Hat' & _). right.
    eexists _, w', _. split; [exact Hr|]. split; [exact Hat'|].
    apply well_formed_add_expertise; assumption.
Qed.

Lemma reachable_well_formed w self :
  Main.reachable w self ->
  exists S, Main.builder_at w self S /\ Main.well_formed self S.
Proof.
  induction 1 as [w self w' Hinit
                 |w self c self' w' Hreach IH Hcall
                 |w self c e w' Hreach IH Hcall
                 |w self r w' Hreach IH Hbuild].
  - destruct (builder_init_spec w)
      as (b & w1 & Hr & Hat & Hname & _ & Hfirst & _).
    rewrite Hr in Hinit. injection Hinit as <- <-.
    eexists. split; [exact Hat|]. unfold Main.well_formed. simpl.
    rewrite Hfirst, Hname. split; [constructor|].
    split; [unfold Main.sum_levels; simpl; lia|]. split; [auto|].
    split; [constructor|]. split; [|discriminate].
    intros s Hs. apply elem_of_empty in Hs. contradiction.
  - destruct IH as (S & Hat & Hwf).
    destruct (run_call_spec w self S c Hat Hwf)
      as [[m Hm]|(b & w1 & S' & Hr & Hat' & Hwf')].
    + rewrite Hm in Hcall. discriminate.
    + rewrite Hr in Hcall. injection Hcall as <- <-. eauto.
  - destruct IH as (S & Hat & Hwf).
    destruct (run_call_spec w self S c Hat Hwf)
      as [[m Hm]|(b & w1 & S' & Hr & Hat' & Hwf')].
    + rewrite Hm in Hcall. injection Hcall as _ <-. eauto.
    + rewrite Hr in Hcall. discriminate.
  - destruct IH as (S & Hat & Hwf). exists S. split; [|exact Hwf].
    pose proof (build_spec w self S Hat Hwf) as H.
    destruct (Main._name self);
      [|rewrite H in Hbuild; injection Hbuild as _ <-; exact Hat].
    destruct (Main.is_nil (Main.sheet_classes S));
      [rewrite H in Hbuild; injection Hbuild as _ <-; exact Hat|].
    destruct (Main._ability self);
      [|rewrite H in Hbuild; injection Hbuild as _ <-; exact Hat].
    destruct H as (c & w1 & Hr & _ & Hat' & _).
    rewrite Hr in Hbuild. injection Hbuild as _ <-. exact Hat'.
Qed.

(** ** Modifiers of a character *)

Lemma ability_mods_value w self L :
  V1.scores_at (Main.scores w) (Main.ability self) L ->
  (forall a : Ability, Z.abs (sum_of_layers L a - 10) < 2 ^ 53) ->
  exists mods,
    Main.ability_mods self w = (Return mods, w) /\
    forall a : Ability, get a mods = (sum_of_layers L a - 10) / 2.
Proof.
  intros Hat Hb.
  assert (forall a : Ability,
             Main.on_scores (V1.mod_of a (Main.ability self)) w
             = (Return ((sum_of_layers L a - 10) / 2), w)) as Hmod.
  { intros a. apply on_scores_reads. apply v1_mod_value; auto. }
  eexists. split.
  - unfold Main.ability_mods.
    pose proof (Hmod STRENGTH) as Hs. pose proof (Hmod DEXTERITY) as Hd.
    pose proof (Hmod CONSTITUTION) as Hc. pose proof (Hmod INTELLIGENCE) as Hi.
    pose proof (Hmod WISDOM) as Hw. pose proof (Hmod CHARISMA) as Hch.
    cbn [V1.mod_of] in Hs, Hd, Hc, Hi, Hw, Hch.
    unfold bind at 1. rewrite Hs. unfold bind at 1. rewrite Hd.
    unfold bind at 1. rewrite Hc. unfold bind at 1. rewrite Hi.
    unfold bind at 1. rewrite Hw. unfold bind at 1. rewrite Hch.
    reflexivity.
  - intros []; reflexivity.
Qed.

Lemma get_save_throw_modifier_value w self S L (a : Ability) :
  Main.character_at w self S ->
  V1.scores_at (Main.scores w) (Main.ability self) L ->
  (forall b : Ability, Z.abs (sum_of_layers L b - 10) < 2 ^ 53) ->
  0 <= Main.sum_levels (Main.sheet_classes S) < 2 ^ 50 ->
  Main.get_save_throw_modifier self a w
  = (Return ((sum_of_layers L a - 10) / 2
             + ((Main.sum_levels (Main.sheet_classes S) + 3) / 4 + 1)
               * (if bool_decide (a ∈ Main.sheet_save_throws S) then 1
                  else 0)), w).
Proof.
  intros (Hc & Hst & Hsk & Hex) Hat Hb Hlv.
  destruct (ability_mods_value w self L Hat Hb) as (mods & Hm & Hget).
  unfold Main.get_save_throw_modifier.
  unfold bind at 1. rewrite Hm.
  unfold bind at 1. rewrite (proficiency_value _ _ _ Hc Hlv).
  unfold bind at 1. rewrite (read_at _ _ _ _ Hst).
  rewrite Hget. reflexivity.
Qed.

Lemma get_skill_modifier_value w self S L (skill : Main.Skill) :
  Main.character_at w self S ->
  V1.scores_at (Main.scores w) (Main.ability self) L ->
  (forall b : Ability, Z.abs (sum_of_layers L b - 10) < 2 ^ 53) ->
  0 <= Main.sum_levels (Main.sheet_classes S) < 2 ^ 50 ->
  Main.get_skill_modifier self skill w
  = (Return ((sum_of_layers L (Main.skill_ability skill) - 10) / 2
             + ((Main.sum_levels (Main.sheet_classes S) + 3) / 4 + 1)
               * Main.skill_factor S skill), w).
Proof.
  intros (Hc & Hst & Hsk & Hex) Hat Hb Hlv.
  destruct (ability_mods_value w self L Hat Hb) as (mods & Hm & Hget).
  unfold Main.get_skill_modifier, Main.skill_factor.
  unfold bind at 1. rewrite Hm.
  unfold bind at 1. rewrite (proficiency_value _ _ _ Hc Hlv).
  unfold bind at 1. rewrite (read_at _ _ _ _ Hex).
  rewrite Hget.
  destruct (bool_decide (skill ∈ Main.sheet_expertise S)).
  - reflexivity.
  - unfold bind at 1. unfold bind at 1. rewrite (read_at _ _ _ _ Hsk).
    reflexivity.
Qed.

(** ** A character and the builder it came from *)

Lemma build_returns w self S c w' :
  Main.builder_at w self S ->
  Main.well_formed self S ->
  Main.build self w = (Return c, w') ->
  Main.character_at w' c S /\
  Main.builder_at w' self S /\
  Main.classes c = Main._classes self /\
  Main.save_throws c = Main._save_throws self /\
  Main.skills c =
    (if Main.is_nil (Main.sheet_skills S)
     then fresh (dom (Main.skill_lists w)) else Main._skills self) /\
  Main.expertise_skills c =
    (if Main.is_empty_set (Main.sheet_expertise S)
     then fresh (dom (Main.skill_sets w)) else Main._expertise_skills self).
Proof.
  intros Hat Hwf Hbuild. pose proof (build_spec w self S Hat Hwf) as H.
  destruct (Main._name self); [|rewrite H in Hbuild; discriminate].
  destruct (Main.is_nil (Main.sheet_classes S));
    [rewrite H in Hbuild; discriminate|].
  destruct (Main._ability self); [|rewrite H in Hbuild; discriminate].
  destruct H as (c1 & w1 & Hr & Hcat & Hat' & _ & _ & Hcl & Hst & Hsk & Hex & _).
  rewrite Hr in Hbuild. injection Hbuild as <- <-. auto 10.
Qed.

Lemma add_class_returns w self S lv class_ self' w' :
  Main.builder_at w self S ->
  Main.add_class self lv class_ w = (Return self', w') ->
  exists n c,
    as_int lv = Some n /\ class_ = Member c /\ 0 < n /\
    Main.sum_levels (Main.sheet_classes S) + n <= 20 /\
    self' = Main.first_class_added self /\
    Main.builder_at w' self'
      (Main.after_add_class (Main.__first_class_level self) n c S) /\
    Main.others_kept self w w'.
Proof.
  intros Hat Hcall. pose proof (add_class_spec w self S lv class_ Hat) as H.
  destruct (as_int lv) as [n|]; [|rewrite H in Hcall; discriminate].
  destruct class_ as [c|v]; [|rewrite H in Hcall; discriminate].
  destruct (n <=? 0) eqn:En; [rewrite H in Hcall; discriminate|].
  destruct (20 <? Main.sum_levels (Main.sheet_classes S) + n) eqn:Etot;
    [rewrite H in Hcall; discriminate|].
  destruct H as (w1 & Hr & Hat' & Hkept).
  rewrite Hr in Hcall. injection Hcall as <- <-.
  exists n, c. repeat (split; [first [reflexivity | lia | assumption]|]).
  exact Hkept.
Qed.

Lemma level_after_add_class first n c S :
  0 < n ->
  Main.sum_levels (Main.sheet_classes (Main.after_add_class first n c S))
  = Main.sum_levels (Main.sheet_classes S) + n.
Proof.
  intros Hn. simpl. rewrite sum_levels_app, sum_levels_new_entries by exact Hn.
  reflexivity.
Qed.

Lemma reachable_run_calls calls : forall w self self' w',
  Main.reachable w self ->
  Main.run_calls self calls w = (Return self', w') ->
  Main.reachable w' self'.
Proof.
  induction calls as [|c rest IH]; intros w self self' w' Hreach Hrun.
  - injection Hrun as <- <-. exact Hreach.
  - simpl in Hrun. unfold bind in Hrun.
    destruct (Main.run_call self c w) as [[b|e] w1] eqn:E; [|discriminate].
    eapply IH; [|exact Hrun]. eapply Main.reach_return; eassumption.
Qed.

(** ** Hit dice *)

Lemma dices_of_snoc cls cl :
  Main.dices_of (cls ++ [cl])
  = Main.count_die (Main.die_key cl) (Main.level cl) (Main.dices_of cls).
Proof. unfold Main.dices_of. rewrite fold_left_app. reflexivity. Qed.

Lemma die_name_inj (x y : Z) : "d" +:+ pretty x = "d" +:+ pretty y -> x = y.
Proof. intros [= H]. exact (inj pretty _ _ H). Qed.

Lemma count_die_map (f : Z -> Z) (d n : Z) (ds : list Z) :
  NoDup ds ->
  Main.count_die ("d" +:+ pretty d) n
    (map (fun x => ("d" +:+ pretty x, f x)) ds)
  = if bool_decide (d ∈ ds)
    then map (fun x => ("d" +:+ pretty x,
                        if bool_decide (x = d) then f x + n else f x)) ds
    else map (fun x => ("d" +:+ pretty x, f x)) ds
         ++ [("d" +:+ pretty d, 0 + n)].
Proof.
  induction 1 as [|x ds Hx Hnd IH].
  - reflexivity.
  - cbn [map Main.count_die].
    destruct (String.eqb ("d" +:+ pretty x) ("d" +:+ pretty d)) eqn:E.
    + apply String.eqb_eq, die_name_inj in E. subst x.
      rewrite bool_decide_eq_true_2 by apply list_elem_of_here.
      rewrite bool_decide_eq_true_2 by reflexivity. f_equal.
      apply map_ext_in. intros y Hy. apply list_elem_of_In in Hy.
      rewrite bool_decide_eq_false_2; [reflexivity|].
      intros ->. contradiction.
    + apply String.eqb_neq in E.
      assert (x <> d) as Hne by (intros ->; contradiction).
      rewrite IH. destruct (bool_decide (d ∈ ds)) eqn:Ein.
      * apply bool_decide_eq_true in Ein.
        rewrite bool_decide_eq_true_2 by (apply list_elem_of_further; exact Ein).
        rewrite (bool_decide_eq_false_2 (x = d)) by exact Hne. reflexivity.
      * apply bool_decide_eq_false in Ein.
        rewrite bool_decide_eq_false_2; [reflexivity|].
        intros Hin. apply elem_of_cons in Hin as [->|Hin]; contradiction.
Qed.

Lemma levels_of_die_snoc d cls cl :
  Main.levels_of_die d (cls ++ [cl])
  = Main.levels_of_die d cls
    + (if bool_decide (Main.hit_dice (Main.class_ cl) = d)
       then Main.level cl else 0).
Proof.
  unfold Main.levels_of_die. rewrite filter_app, sum_levels_app. f_equal.
  rewrite filter_cons, filter_nil.
  destruct (decide (Main.hit_dice (Main.class_ cl) = d)) as [Heq|Hne].
  - rewrite bool_decide_eq_true_2 by exact Heq.
    unfold Main.sum_levels. simpl. reflexivity.
  - rewrite bool_decide_eq_false_2 by exact Hne. reflexivity.
Qed.

Lemma dice_order_elem d cls :
  d ∈ Main.dice_order cls
  <-> d ∈ map (fun cl => Main.hit_dice (Main.class_ cl)) cls.
Proof.
  unfold Main.dice_order.
  rewrite elem_of_reverse, elem_of_remove_dups, elem_of_reverse. reflexivity.
Qed.

Lemma dice_order_NoDup cls : NoDup (Main.dice_order cls).
Proof.
  unfold Main.dice_order. rewrite reverse_Permutation.
  apply NoDup_remove_dups.
Qed.

Lemma dice_order_snoc cls cl :
  Main.dice_order (cls ++ [cl])
  = if bool_decide (Main.hit_dice (Main.class_ cl) ∈ Main.dice_order cls)
    then Main.dice_order cls
    else Main.dice_order cls ++ [Main.hit_dice (Main.class_ cl)].
Proof.
  unfold Main.dice_order at 1. rewrite map_app, reverse_app.
  cbn [map]. rewrite reverse_singleton. cbn [app remove_dups].
  destruct (decide_rel elem_of _ _) as [Hin|Hout].
  - rewrite bool_decide_eq_true_2; [reflexivity|].
    apply dice_order_elem. rewrite elem_of_reverse in Hin. exact Hin.
  - rewrite bool_decide_eq_false_2.
    + rewrite reverse_cons. reflexivity.
    + intros Hin. apply Hout. rewrite elem_of_reverse.
      apply dice_order_elem. exact Hin.
Qed.

Lemma levels_of_die_absent d cls :
  d ∉ Main.dice_order cls -> Main.levels_of_die d cls = 0.
Proof.
  intros Hout. unfold Main.levels_of_die.
  assert (forall cl, cl ∈ cls -> Main.hit_dice (Main.class_ cl) <> d) as Hall.
  { intros cl Hcl Heq. apply Hout, dice_order_elem.
    apply list_elem_of_fmap. exists cl. auto. }
  clear Hout. induction cls as [|cl cls IH]; [reflexivity|].
  rewrite filter_cons.
  destruct (decide (Main.hit_dice (Main.class_ cl) = d)) as [Heq|_].
  - exfalso. exact (Hall cl (list_elem_of_here _ _) Heq).
  - apply IH. intros cl' Hcl'. apply Hall, list_elem_of_further, Hcl'.
Qed.

(** The dictionary of [get_hitdices]: one entry for each hit die, in the
    order of first appearance, with the levels of the classes that use it. *)
Lemma dices_of_value cls :
  Main.dices_of cls
  = map (fun d => ("d" +:+ pretty d, Main.levels_of_die d cls))
      (Main.dice_order cls).
Proof.
  induction cls as [|cl cls IH] using rev_ind; [reflexivity|].
  rewrite dices_of_snoc, IH. unfold Main.die_key.
  rewrite (count_die_map (fun d => Main.levels_of_die d cls))
    by apply dice_order_NoDup.
  rewrite dice_order_snoc.
  destruct (bool_decide (Main.hit_dice (Main.class_ cl) ∈ Main.dice_order cls))
    eqn:Ein.
  - apply map_ext. intros d. rewrite levels_of_die_snoc.
    destruct (decide (d = Main.hit_dice (Main.class_ cl))) as [->|Hne].
    + rewrite !bool_decide_eq_true_2 by reflexivity. reflexivity.
    + rewrite !bool_decide_eq_false_2 by congruence.
      rewrite Z.add_0_r. reflexivity.
  - apply bool_decide_eq_false in Ein. rewrite map_app. cbn [map]. f_equal.
    + apply map_ext_in. intros d Hd. apply list_elem_of_In in Hd.
      rewrite levels_of_die_snoc, bool_decide_eq_false_2;
        [rewrite Z.add_0_r; reflexivity|].
      intros Heq. subst d. contradiction.
    + rewrite levels_of_die_snoc, (levels_of_die_absent _ _ Ein).
      rewrite bool_decide_eq_true_2 by reflexivity. reflexivity.
Qed.

(** ** Scores too large for a float *)

Lemma round_half_even_lower (a sh : Z) : Z.shiftr a sh <= round_half_even a sh.
Proof. unfold round_half_even. destruct (_ || _); lia. Qed.

Lemma int_truediv_2_overflow (n : Z) :
  2 ^ 1025 <= Z.abs n -> int_truediv_2 n = None.
Proof.
  intros Hn. unfold int_truediv_2.
  set (a := Z.abs n) in *. set (k := Z.log2 a).
  assert (0 < 2 ^ 1025) as Hpos by (apply Z.pow_pos_nonneg; lia).
  assert (1025 <= k) as Hk.
  { unfold k. rewrite <- (Z.log2_pow2 1025) by lia.
    apply Z.log2_le_mono. exact Hn. }
  assert (2 ^ k <= a) as Hlow by (apply Z.log2_spec; lia).
  replace (k + 1 <=? 53) with false by lia.
  replace (k + 1 - 53 - 1) with (k - 53) by lia.
  replace (k + 1 - 53) with (k - 52) by lia.
  assert (2 ^ 52 <= round_half_even a (k - 52)) as Hm.
  { etransitivity; [|apply round_half_even_lower].
    rewrite Z.shiftr_div_pow2 by lia.
    apply Z.div_le_lower_bound; [apply Z.pow_pos_nonneg; lia|].
    rewrite <- Z.pow_add_r by lia. replace (k - 52 + 52) with k by lia.
    exact Hlow. }
  assert ((2 ^ 1024 <=? Z.shiftl (round_half_even a (k - 52)) (k - 53)) = true)
    as ->; [|reflexivity].
  apply Z.leb_le. rewrite Z.shiftl_mul_pow2 by lia.
  replace 1024 with (52 + 972) by reflexivity. rewrite Z.pow_add_r by lia.
  assert (2 ^ 972 <= 2 ^ (k - 53)) by (apply Z.pow_le_mono_r; lia).
  assert (0 < 2 ^ 972) by (apply Z.pow_pos_nonneg; lia).
  assert (0 < 2 ^ 52) by (apply Z.pow_pos_nonneg; lia).
  apply Z.mul_le_mono_nonneg; lia.
Qed.

Lemma limits_v2_stats_at :
  V2.stats_at Limits.v2_heap Scenario.v2_stats Limits.layers.
Proof. repeat split; vm_compute; reflexivity. Qed.

Lemma limits_v1_scores_at :
  V1.scores_at Limits.v1_heap Scenario.v1_scores Limits.layers.
Proof. repeat split; vm_compute; reflexivity. Qed.

(** ** Facts about the example *)

Lemma demo_start :
  Main.CharacterBuilder_init (snd (Demo.new_scores Demo.empty_world))
  = (Return Demo.builder_at_start, Demo.world_at_start).
Proof. vm_compute. reflexivity. Qed.

Lemma demo_calls :
  Main.run_calls Demo.builder_at_start Demo.calls Demo.world_at_start
  = (Return Demo.builder, Demo.world_before_build).
Proof. vm_compute. reflexivity. Qed.

Lemma demo_reachable : Main.reachable Demo.world_before_build Demo.builder.
Proof.
  eapply reachable_run_calls; [|exact demo_calls].
  eapply Main.reach_init. exact demo_start.
Qed.

Lemma demo_build :
  Main.build Demo.builder Demo.world_before_build
  = (Return Demo.character, Demo.world_built).
Proof. vm_compute. reflexivity. Qed.

Lemma demo_acceptable :
  Main.acceptable (VStr "Silacks Dramalak") (Some Demo.scores) Demo.sheet.
Proof.
  unfold Main.acceptable. split; [eexists; reflexivity|].
  split; [discriminate|].
  split; [repeat constructor; simpl; lia|]. split; [eauto|].
  split; [intros H; contradiction H; reflexivity|].
  unfold Main.sum_levels. simpl. lia.
Qed.

Lemma demo_totals_small (a : Ability) :
  Z.abs (sum_of_layers Demo.layers a - 10) < 2 ^ 53.
Proof. destruct a; vm_compute; reflexivity. Qed.

Lemma demo_levels :
  Forall (fun cl => 1 <= Main.level cl) (Main.sheet_classes Demo.sheet) /\
  Main.sum_levels (Main.sheet_classes Demo.sheet) = 4.
Proof. split; [repeat constructor; simpl; lia | reflexivity]. Qed.

Lemma total_hp_of_sheet w self S L :
  Main.character_at w self S ->
  V1.scores_at (Main.scores w) (Main.ability self) L ->
  Z.abs (sum_of_layers L CONSTITUTION - 10) <= 2 ^ 40 ->
  Forall (fun cl => 1 <= Main.level cl) (Main.sheet_classes S) ->
  Main.sum_levels (Main.sheet_classes S) <= 20 ->
  Main.total_hp self w
  = (Return (Main.hit_points ((sum_of_layers L CONSTITUTION - 10) / 2)
               (Main.sheet_classes S)), w).
Proof.
  intros (Hc & _) Hat Hcon Hpos Hsum.
  assert (2 ^ 40 < 2 ^ 53) by reflexivity.
  assert (0 < 2 ^ 40) by reflexivity.
  apply total_hp_value; [exact Hc | | | exact Hpos | exact Hsum].
  - apply on_scores_reads.
    apply (v1_mod_value _ _ _ CONSTITUTION Hat). lia.
  - Z.div_mod_to_equations. lia.
Qed.

(** * Further properties of the code *)

(** ** [main.py]: a character *)

(** X1.  [Character.proficiency], for classes that [Character.__init__]
    accepts (at least one class, every level at least 1, at most 20 levels
    in all): the property changes nothing and returns the number [p] with
    [p - 1] the ceiling of a quarter of the total level; [p] is between 2
    and 6. *)
Theorem X1_proficiency_of_accepted_levels w self cls :
  Main.class_lists w !! Main.classes self = Some cls ->
  cls <> [] ->
  Forall (fun cl => 1 <= Main.level cl) cls ->
  Main.sum_levels cls <= 20 ->
  exists p,
    Main.proficiency self w = (Return p, w) /\
    Main.sum_levels cls <= 4 * (p - 1) < Main.sum_levels cls + 4 /\
    2 <= p <= 6.
Proof.
  intros Hc Hne Hpos Hsum.
  destruct (sum_levels_bounds _ Hpos) as [Hlen _].
  assert (1 <= Main.sum_levels cls) as Hone.
  { destruct cls; [contradiction | simpl length in Hlen; lia]. }
  assert (20 < 2 ^ 50) by reflexivity.
  exists ((Main.sum_levels cls + 3) / 4 + 1).
  split; [apply proficiency_value; [exact Hc | lia]|].
  split; Z.div_mod_to_equations; lia.
Qed.

Lemma X1_proficiency_of_accepted_levels_witness :
  exists p,
    Main.proficiency Demo.character Demo.world = (Return p, Demo.world) /\
    Main.sum_levels (Main.sheet_classes Demo.sheet) <= 4 * (p - 1)
      < Main.sum_levels (Main.sheet_classes Demo.sheet) + 4 /\
    2 <= p <= 6.
Proof.
  apply (X1_proficiency_of_accepted_levels Demo.world Demo.character
           (Main.sheet_classes Demo.sheet)).
  - vm_compute. reflexivity.
  - discriminate.
  - repeat constructor; simpl; lia.
  - vm_compute. discriminate.
Defined.

(** X2.  [Character.total_hp], for classes that [Character.__init__]
    accepts and a constitution total within [2^40] of 10: the property
    changes nothing and returns, with [con] the constitution modifier,
    [(die + con) * level] for the first entry of the list of classes plus
    [(die / 2 + 1 + con) * level] for every later entry.  No rounding takes
    place: every hit die is even. *)
Theorem X2_total_hp_of_accepted_levels w self S L :
  Main.character_at w self S ->
  V1.scores_at (Main.scores w) (Main.ability self) L ->
  Z.abs (sum_of_layers L CONSTITUTION - 10) <= 2 ^ 40 ->
  Forall (fun cl => 1 <= Main.level cl) (Main.sheet_classes S) ->
  Main.sum_levels (Main.sheet_classes S) <= 20 ->
  Main.total_hp self w
  = (Return (Main.hit_points ((sum_of_layers L CONSTITUTION - 10) / 2)
               (Main.sheet_classes S)), w).
Proof. exact (total_hp_of_sheet w self S L). Qed.

Lemma X2_total_hp_of_accepted_levels_witness :
  Main.total_hp Demo.character Demo.world = (Return 45, Demo.world).
Proof.
  apply (X2_total_hp_of_accepted_levels Demo.world Demo.character Demo.sheet
           Demo.layers).
  - exact demo_character_at.
  - exact demo_scores_at.
  - vm_compute. discriminate.
  - repeat constructor; simpl; lia.
  - vm_compute. discriminate.
Defined.

(** X3.  [Character.__init__] on containers whose elements have the
    annotated types ([ClassWithLevel] tuples with [int] levels, members of
    [Ability], members of [Skill]), as a builder makes them.  For such
    containers it returns exactly for acceptable arguments: a name that is a
    non-empty [str]; at least one class, every level at least 1; an instance
    of [AbilityScores]; expertise skills, if any, among a non-empty list of
    skills; at most 20 levels in all.  The character it returns holds what
    was given and no set of scores has changed.  For any other arguments
    over such containers it raises [ValueError] and the world is as before.
    A container with an element of another type is outside this statement:
    [__init__] refuses it by a test on the elements. *)
Theorem X3_Character_init_accepts_exactly w name classes ability save_throws
  skills expertise_skills S :
  Main.class_lists w !! classes = Some (Main.sheet_classes S) ->
  Main.given Main.ability_lists [] w save_throws
  = Some (Main.sheet_save_throws S) ->
  Main.given Main.skill_lists [] w skills = Some (Main.sheet_skills S) ->
  Main.given Main.skill_sets ∅ w expertise_skills
  = Some (Main.sheet_expertise S) ->
  (Main.acceptable name ability S ->
   exists self w',
     Main.Character_init name classes ability save_throws skills
       expertise_skills w = (Return self, w') /\
     Main.character_at w' self S /\
     name = VStr (Main.name self) /\
     ability = Some (Main.ability self) /\
     Main.scores w' = Main.scores w) /\
  (~ Main.acceptable name ability S ->
   exists m,
     Main.Character_init name classes ability save_throws skills
       expertise_skills w = (Raise (ValueError m), w)).
Proof.
  intros Hc Hst Hsk Hex.
  destruct (Character_init_cases w name classes ability save_throws skills
              expertise_skills S Hc Hst Hsk Hex)
    as [(Hacc & n & a & Hn & -> & Hinit)|(Hno & m & Hraise)].
  - split; [intros _ | intros Hno; contradiction].
    destruct (Character_init_assigns w n classes a save_throws skills
                expertise_skills _ _ _ _ Hc Hst Hsk Hex)
      as (self & w' & Hr & Hat & Hname & _ & Hab & Hsc & _).
    exists self, w'. rewrite Hinit. split; [exact Hr|].
    split; [destruct S; exact Hat|].
    apply nonempty_str_spec in Hn as [-> _]. rewrite Hname, Hab. auto.
  - split; [intros Hacc; contradiction | intros _; eauto].
Qed.

Lemma X3_Character_init_accepts_exactly_witness :
  exists self w',
    Main.Character_init (VStr "Silacks Dramalak") 0%nat (Some Demo.scores)
      (Some 0%nat) (Some 0%nat) (Some 0%nat) Demo.world_before_build
    = (Return self, w') /\
    Main.character_at w' self Demo.sheet /\
    VStr "Silacks Dramalak" = VStr (Main.name self) /\
    Some Demo.scores = Some (Main.ability self) /\
    Main.scores w' = Main.scores Demo.world_before_build.
Proof.
  apply (X3_Character_init_accepts_exactly Demo.world_before_build
           (VStr "Silacks Dramalak") 0%nat (Some Demo.scores)
           (Some 0%nat) (Some 0%nat) (Some 0%nat) Demo.sheet).
  - vm_compute. reflexivity.
  - vm_compute. reflexivity.
  - vm_compute. reflexivity.
  - vm_compute. reflexivity.
  - exact demo_acceptable.
Defined.

(** X4.  The containers of a new character.  [self.classes] is the very
    list that was passed.  Each of the three optional containers is the one
    that was passed when it is not empty; when it is empty or was not passed
    ([x or []], [x or set()]) the character gets a container of its own that
    did not exist before. *)
Theorem X4_Character_init_shares_what_is_not_empty w name classes ability
  save_throws skills expertise_skills S self w' :
  Main.class_lists w !! classes = Some (Main.sheet_classes S) ->
  Main.given Main.ability_lists [] w save_throws
  = Some (Main.sheet_save_throws S) ->
  Main.given Main.skill_lists [] w skills = Some (Main.sheet_skills S) ->
  Main.given Main.skill_sets ∅ w expertise_skills
  = Some (Main.sheet_expertise S) ->
  Main.Character_init name classes ability save_throws skills
    expertise_skills w = (Return self, w') ->
  Main.classes self = classes /\
  (forall c, save_throws = Some c -> Main.sheet_save_throws S <> [] ->
             Main.save_throws self = c) /\
  (save_throws = None \/ Main.sheet_save_throws S = [] ->
   Main.ability_lists w !! Main.save_throws self = None) /\
  (forall c, skills = Some c -> Main.sheet_skills S <> [] ->
             Main.skills self = c) /\
  (skills = None \/ Main.sheet_skills S = [] ->
   Main.skill_lists w !! Main.skills self = None) /\
  (forall c, expertise_skills = Some c -> Main.sheet_expertise S <> ∅ ->
             Main.expertise_skills self = c) /\
  (expertise_skills = None \/ Main.sheet_expertise S = ∅ ->
   Main.skill_sets w !! Main.expertise_skills self = None).
Proof.
  intros Hc Hst Hsk Hex Hcall.
  destruct (Character_init_cases w name classes ability save_throws skills
              expertise_skills S Hc Hst Hsk Hex)
    as [(_ & n & a & _ & _ & Hinit)|(_ & m & Hraise)];
    [|rewrite Hraise in Hcall; discriminate].
  destruct (Character_init_assigns w n classes a save_throws skills
              expertise_skills _ _ _ _ Hc Hst Hsk Hex)
    as (self0 & w0 & Hr & _ & _ & Hcls & _ & _ & _ & _ & _ & _
        & Rst & Rsk & Rex).
  rewrite Hinit, Hr in Hcall. injection Hcall as <- <-.
  assert (forall T (m : gmap loc T), m !! fresh (dom m) = None) as Hfresh
    by (intros T m; apply not_elem_of_dom, is_fresh).
  split; [exact Hcls|].
  split.
  { intros c -> Hne. rewrite Rst.
    destruct (Main.is_nil (Main.sheet_save_throws S)) eqn:E; [|reflexivity].
    apply is_nil_true in E. contradiction. }
  split.
  { intros Hnew. rewrite Rst. destruct save_throws as [c|]; [|apply Hfresh].
    destruct Hnew as [[=]|Hnil]. rewrite Hnil. apply Hfresh. }
  split.
  { intros c -> Hne. rewrite Rsk.
    destruct (Main.is_nil (Main.sheet_skills S)) eqn:E; [|reflexivity].
    apply is_nil_true in E. contradiction. }
  split.
  { intros Hnew. rewrite Rsk. destruct skills as [c|]; [|apply Hfresh].
    destruct Hnew as [[=]|Hnil]. rewrite Hnil. apply Hfresh. }
  split.
  { intros c -> Hne. rewrite Rex.
    destruct (Main.is_empty_set (Main.sheet_expertise S)) eqn:E;
      [|reflexivity].
    apply is_empty_set_true in E. contradiction. }
  intros Hnew. rewrite Rex. destruct expertise_skills as [c|]; [|apply Hfresh].
  destruct Hnew as [[=]|Hnil]. rewrite Hnil.
  rewrite (proj2 (is_empty_set_true ∅) eq_refl). apply Hfresh.
Qed.

Lemma X4_Character_init_shares_what_is_not_empty_witness :
  Main.classes Demo.character = 0%nat /\
  Main.save_throws Demo.character = 0%nat /\
  Main.skills Demo.character = 0%nat /\
  Main.skill_sets Demo.world_before_build
    !! Main.expertise_skills Demo.character = None.
Proof.
  destruct (X4_Character_init_shares_what_is_not_empty
              Demo.world_before_build
              (VStr "Silacks Dramalak") 0%nat (Some Demo.scores)
              (Some 0%nat) (Some 0%nat) (Some 0%nat) Demo.sheet
              Demo.character Demo.world_built)
    as (Hcls & Hst & _ & Hsk & _ & _ & Hex).
  - vm_compute. reflexivity.
  - vm_compute. reflexivity.
  - vm_compute. reflexivity.
  - vm_compute. reflexivity.
  - vm_compute. reflexivity.
  - split; [exact Hcls|].
    split; [apply (Hst 0%nat); [reflexivity | discriminate]|].
    split; [apply (Hsk 0%nat); [reflexivity | discriminate]|].
    apply Hex. right. reflexivity.
Defined.

(** ** [main.py]: the builder *)

(** X5.  [CharacterBuilder.add_class] on a builder that holds [S].  A level
    that is not a positive [int] is refused first, then a class that is not
    a [CharacterClass], then a total above 20; the world is then as before.
    Otherwise the call returns the builder and the list of classes has
    grown by [level] levels in all: the first class of a builder is entered
    as one level, which also gives the builder the saving throws of that
    class, followed by an entry for the remaining levels if there are any;
    a later class is one entry and adds no saving throw.  Nothing but the
    builder's own containers has changed. *)
Theorem X5_add_class_on_a_builder w self S lv class_ :
  Main.builder_at w self S ->
  match as_int lv, class_ with
  | None, _ =>
      Main.add_class self lv class_ w
      = (Raise (ValueError Main.LevelMustBePositiveInteger), w)
  | Some n, Other _ =>
      Main.add_class self lv class_ w
      = (Raise (ValueError (if n <=? 0 then Main.LevelMustBePositiveInteger
                            else Main.ClassMustBeInstance)), w)
  | Some n, Member c =>
      if n <=? 0
      then Main.add_class self lv class_ w
           = (Raise (ValueError Main.LevelMustBePositiveInteger), w)
      else if 20 <? Main.sum_levels (Main.sheet_classes S) + n
      then Main.add_class self lv class_ w
           = (Raise (ValueError Main.TotalLevelCannotExceed20), w)
      else
        exists w',
          Main.add_class self lv class_ w
          = (Return (Main.first_class_added self), w') /\
          Main.builder_at w' (Main.first_class_added self)
            (Main.after_add_class (Main.__first_class_level self) n c S) /\
          Main.sum_levels
            (Main.sheet_classes
               (Main.after_add_class (Main.__first_class_level self) n c S))
          = Main.sum_levels (Main.sheet_classes S) + n /\
          Main.others_kept self w w'
  end.
Proof.
  intros Hat. pose proof (add_class_spec w self S lv class_ Hat) as H.
  destruct (as_int lv) as [n|]; [|exact H].
  destruct class_ as [c|v]; [|exact H].
  destruct (n <=? 0) eqn:En; [exact H|].
  destruct (20 <? Main.sum_levels (Main.sheet_classes S) + n); [exact H|].
  destruct H as (w' & Hr & Hat' & Hkept). exists w'.
  split; [exact Hr|]. split; [exact Hat'|]. split; [|exact Hkept].
  apply level_after_add_class. lia.
Qed.

Lemma X5_add_class_on_a_builder_witness :
  exists w',
    Main.add_class Demo.builder (VInt 2) (Member Main.FIGHTER)
      Demo.world_before_build
    = (Return (Main.first_class_added Demo.builder), w') /\
    Main.builder_at w' (Main.first_class_added Demo.builder)
      (Main.after_add_class false 2 Main.FIGHTER Demo.sheet) /\
    Main.sum_levels
      (Main.sheet_classes
         (Main.after_add_class false 2 Main.FIGHTER Demo.sheet))
    = Main.sum_levels (Main.sheet_classes Demo.sheet) + 2 /\
    Main.others_kept Demo.builder Demo.world_before_build w'.
Proof.
  exact (X5_add_class_on_a_builder Demo.world_before_build Demo.builder
           Demo.sheet (VInt 2) (Member Main.FIGHTER) demo_builder_at).
Defined.

(** X6.  [add_skill] and [add_expertise] on a builder that holds [S].  Both
    refuse what is not a [Skill] and leave the world as it was.  [add_skill]
    appends the skill unless it is listed already, so that no skill is
    listed twice.  [add_expertise] refuses a skill that is not listed, with
    the world as before, and otherwise puts it into the set of expertise
    skills.  Both return the builder, and nothing but its own containers has
    changed. *)
Theorem X6_add_skill_and_add_expertise w self S skill :
  Main.builder_at w self S ->
  match skill with
  | Other _ =>
      Main.add_skill self skill w
      = (Raise (ValueError Main.SkillMustBeInstance), w) /\
      Main.add_expertise self skill w
      = (Raise (ValueError Main.SkillMustBeInstance), w)
  | Member s =>
      (exists w',
          Main.add_skill self skill w = (Return self, w') /\
          Main.builder_at w' self (Main.after_add_skill s S) /\
          Main.others_kept self w w') /\
      if bool_decide (s ∈ Main.sheet_skills S)
      then exists w',
          Main.add_expertise self skill w = (Return self, w') /\
          Main.builder_at w' self (Main.after_add_expertise s S) /\
          Main.others_kept self w w'
      else Main.add_expertise self skill w
           = (Raise (ValueError Main.NoExpertiseOnNonProficient), w)
  end.
Proof.
  intros Hat. pose proof (add_skill_spec w self S skill Hat) as Hs.
  pose proof (add_expertise_spec w self S skill Hat) as He.
  destruct skill as [s|v]; split; assumption.
Qed.

Lemma X6_add_skill_and_add_expertise_witness :
  (exists w',
      Main.add_skill Demo.builder (Member Main.ARCANISMO)
        Demo.world_before_build = (Return Demo.builder, w') /\
      Main.builder_at w' Demo.builder
        (Main.after_add_skill Main.ARCANISMO Demo.sheet) /\
      Main.others_kept Demo.builder Demo.world_before_build w') /\
  Main.add_expertise Demo.builder (Member Main.ARCANISMO)
    Demo.world_before_build
  = (Raise (ValueError Main.NoExpertiseOnNonProficient),
     Demo.world_before_build).
Proof.
  exact (X6_add_skill_and_add_expertise Demo.world_before_build Demo.builder
           Demo.sheet (Member Main.ARCANISMO) demo_builder_at).
Defined.

(** X7.  What a builder satisfies as long as its containers are changed
    through its own methods only: after [CharacterBuilder()] and any calls
    of its methods, returned or raised, and of [build], every level in its
    list of classes is at least 1 and the
    levels add up to at most 20; once a class has been added the first entry
    is one level of the first class and the saving throws are those of that
    class, before that there are neither classes nor saving throws; no skill
    is listed twice; every expertise skill is a listed skill; the name, once
    set, is not empty. *)
Theorem X7_what_a_builder_keeps w self :
  Main.reachable w self ->
  exists S, Main.builder_at w self S /\ Main.well_formed self S.
Proof. exact (reachable_well_formed w self). Qed.

Lemma X7_what_a_builder_keeps_witness :
  exists S,
    Main.builder_at Demo.world_before_build Demo.builder S /\
    Main.well_formed Demo.builder S.
Proof.
  exact (X7_what_a_builder_keeps Demo.world_before_build Demo.builder
           demo_reachable).
Defined.

(** X8.  [build] on a builder used through its own methods: it raises for
    a missing name, then for a missing class, then for a missing set of
    scores, with the world as before, and in every other case it returns a
    character:
    [Character.__init__] never refuses what a builder hands it.  The
    character holds what the builder holds, under the name and over the
    scores of the builder; the builder holds what it held. *)
Theorem X8_build_returns_unless_something_is_missing w self :
  Main.reachable w self ->
  exists S,
    Main.builder_at w self S /\
    match Main._name self with
    | None => Main.build self w = (Raise (ValueError Main.NameMustBeSet), w)
    | Some n =>
        if Main.is_nil (Main.sheet_classes S)
        then Main.build self w = (Raise (ValueError Main.ClassMustBeSet), w)
        else
          match Main._ability self with
          | None =>
              Main.build self w
              = (Raise (ValueError Main.AbilityMustBeSet), w)
          | Some a =>
              exists c w',
                Main.build self w = (Return c, w') /\
                Main.character_at w' c S /\
                Main.builder_at w' self S /\
                Main.name c = n /\ Main.ability c = a /\
                Main.scores w' = Main.scores w
          end
    end.
Proof.
  intros Hreach. destruct (reachable_well_formed w self Hreach)
    as (S & Hat & Hwf).
  exists S. split; [exact Hat|].
  pose proof (build_spec w self S Hat Hwf) as H.
  destruct (Main._name self) as [n|]; [|exact H].
  destruct (Main.is_nil (Main.sheet_classes S)); [exact H|].
  destruct (Main._ability self) as [a|]; [|exact H].
  destruct H as (c & w' & Hr & Hcat & Hat' & Hn & Ha & _ & _ & _ & _ & Hsc & _).
  exists c, w'. auto 10.
Qed.

Lemma X8_build_returns_unless_something_is_missing_witness :
  (exists c w',
      Main.build Demo.builder Demo.world_before_build = (Return c, w') /\
      Main.character_at w' c Demo.sheet /\
      Main.builder_at w' Demo.builder Demo.sheet /\
      Main.name c = "Silacks Dramalak" /\
      Main.ability c = Demo.scores /\
      Main.scores w' = Main.scores Demo.world_before_build) /\
  (exists S,
      Main.builder_at Demo.world_at_start Demo.builder_at_start S /\
      Main.build Demo.builder_at_start Demo.world_at_start
      = (Raise (ValueError Main.NameMustBeSet), Demo.world_at_start)).
Proof.
  split.
  - destruct (X8_build_returns_unless_something_is_missing
                Demo.world_before_build Demo.builder demo_reachable)
      as (S & Hat & H).
    assert (S = Demo.sheet) as ->.
    { destruct Hat as (A1 & A2 & A3 & A4).
      destruct demo_builder_at as (B1 & B2 & B3 & B4).
      destruct S. simpl in *. unfold Demo.sheet. f_equal; congruence. }
    exact H.
  - exact (X8_build_returns_unless_something_is_missing Demo.world_at_start
             Demo.builder_at_start
             (Main.reach_init _ _ _ demo_start)).
Defined.

(** X9.  A character built by a builder shares the builder's list of
    classes: when [add_class] is called on the builder after [build], the
    total level of the character that was built already goes up by the
    levels added. *)
Theorem X9_character_follows_classes_added_later w self c w1 n class_
  self' w2 :
  Main.reachable w self ->
  Main.build self w = (Return c, w1) ->
  Main.add_class self (VInt n) class_ w1 = (Return self', w2) ->
  exists t,
    Main.total_level c w1 = (Return t, w1) /\
    Main.total_level c w2 = (Return (t + n), w2).
Proof.
  intros Hreach Hbuild Hadd.
  destruct (reachable_well_formed w self Hreach) as (S & Hat & Hwf).
  destruct (build_returns w self S c w1 Hat Hwf Hbuild)
    as (Hcat & Hat1 & Hcls & _).
  destruct (add_class_returns w1 self S (VInt n) class_ self' w2 Hat1 Hadd)
    as (n' & cl & [= <-] & _ & Hn & _ & -> & Hat2 & _).
  exists (Main.sum_levels (Main.sheet_classes S)). split.
  - apply total_level_value. apply Hcat.
  - rewrite <- (level_after_add_class (Main.__first_class_level self) n cl S)
      by exact Hn.
    apply total_level_value. rewrite Hcls. apply Hat2.
Qed.

Lemma X9_character_follows_classes_added_later_witness :
  exists t,
    Main.total_level Demo.character Demo.world_built
    = (Return t, Demo.world_built) /\
    Main.total_level Demo.character Demo.world_multiclassed
    = (Return (t + 2), Demo.world_multiclassed).
Proof.
  apply (X9_character_follows_classes_added_later Demo.world_before_build
           Demo.builder Demo.character Demo.world_built 2
           (Member Main.FIGHTER) Demo.builder Demo.world_multiclassed).
  - exact demo_reachable.
  - exact demo_build.
  - vm_compute. reflexivity.
Defined.

(** X10.  The list of skills is shared only if it was not empty when
    [build] was called.  When a skill that is not yet listed is added to
    the builder after [build], a character built from a builder that had
    skills lists the new skill as well; a character built from a builder
    without skills has a list of its own, which stays empty. *)
Theorem X10_skills_added_later w self S c w1 s self' w2 :
  Main.reachable w self ->
  Main.builder_at w self S ->
  Main.build self w = (Return c, w1) ->
  s ∉ Main.sheet_skills S ->
  Main.add_skill self (Member s) w1 = (Return self', w2) ->
  Main.skill_lists w2 !! Main.skills c
  = Some (if Main.is_nil (Main.sheet_skills S) then []
          else Main.sheet_skills S ++ [s]).
Proof.
  intros Hreach Hat Hbuild Hnew Hadd.
  destruct (reachable_well_formed w self Hreach) as (S0 & Hat0 & Hwf).
  assert (S0 = S) as ->.
  { destruct Hat as (A1 & A2 & A3 & A4), Hat0 as (B1 & B2 & B3 & B4).
    destruct S, S0. simpl in *. congruence. }
  destruct (build_returns w self S c w1 Hat Hwf Hbuild)
    as (Hcat & Hat1 & _ & _ & Hsk & _).
  pose proof (add_skill_spec w1 self S (Member s) Hat1)
    as (w' & Hr & Hat2 & Hkept).
  rewrite Hr in Hadd. injection Hadd as _ <-.
  destruct (Main.is_nil (Main.sheet_skills S)) eqn:Enil.
  - destruct Hkept as (_ & _ & _ & Hframe & _).
    rewrite Hframe.
    + destruct Hcat as (_ & _ & Hc3 & _). rewrite Hc3.
      apply is_nil_true in Enil. rewrite Enil. reflexivity.
    + rewrite Hsk. intros Heq.
      destruct Hat as (_ & _ & Hlook & _). rewrite <- Heq in Hlook.
      assert (Main.skill_lists w !! fresh (dom (Main.skill_lists w)) = None)
        by apply not_elem_of_dom, is_fresh.
      congruence.
  - rewrite Hsk. destruct Hat2 as (_ & _ & Hlook & _).
    rewrite Hlook. unfold Main.after_add_skill. simpl.
    rewrite bool_decide_eq_false_2 by exact Hnew. reflexivity.
Qed.

Lemma X10_skills_added_later_witness :
  Main.skill_lists Demo.world_with_arcana !! Main.skills Demo.character
  = Some (Main.sheet_skills Demo.sheet ++ [Main.ARCANISMO]).
Proof.
  apply (X10_skills_added_later Demo.world_before_build Demo.builder
           Demo.sheet Demo.character Demo.world_built Main.ARCANISMO
           Demo.builder Demo.world_with_arcana).
  - exact demo_reachable.
  - exact demo_builder_at.
  - exact demo_build.
  - vm_compute. intros H. repeat (apply elem_of_cons in H as [H|H];
      [discriminate|]). inversion H.
  - vm_compute. reflexivity.
Defined.

(** ** [main.py]: modifiers and hit dice *)

(** X11.  [get_save_throw_modifier], for accepted classes and totals within
    [2^53] of 10: it changes nothing and returns the modifier of the ability,
    the floor of [(total - 10) / 2], plus the proficiency bonus if the
    ability is among the saving throws of the character. *)
Theorem X11_save_throw_modifier w self S L (a : Ability) :
  Main.character_at w self S ->
  V1.scores_at (Main.scores w) (Main.ability self) L ->
  (forall b : Ability, Z.abs (sum_of_layers L b - 10) < 2 ^ 53) ->
  Forall (fun cl => 1 <= Main.level cl) (Main.sheet_classes S) ->
  Main.sum_levels (Main.sheet_classes S) <= 20 ->
  Main.get_save_throw_modifier self a w
  = (Return ((sum_of_layers L a - 10) / 2
             + (if bool_decide (a ∈ Main.sheet_save_throws S)
                then (Main.sum_levels (Main.sheet_classes S) + 3) / 4 + 1
                else 0)), w).
Proof.
  intros Hcat Hat Hb Hpos Hsum.
  destruct (sum_levels_bounds _ Hpos) as [Hlen _].
  assert (20 < 2 ^ 50) by reflexivity.
  rewrite (get_save_throw_modifier_value w self S L a Hcat Hat Hb) by lia.
  destruct (bool_decide (a ∈ Main.sheet_save_throws S));
    do 2 f_equal; lia.
Qed.

Lemma X11_save_throw_modifier_witness :
  Main.get_save_throw_modifier Demo.character STRENGTH Demo.world
  = (Return 6, Demo.world) /\
  Main.get_save_throw_modifier Demo.character DEXTERITY Demo.world
  = (Return 2, Demo.world).
Proof.
  split.
  - apply (X11_save_throw_modifier Demo.world Demo.character Demo.sheet
             Demo.layers STRENGTH demo_character_at demo_scores_at
             demo_totals_small (proj1 demo_levels)).
    vm_compute. discriminate.
  - apply (X11_save_throw_modifier Demo.world Demo.character Demo.sheet
             Demo.layers DEXTERITY demo_character_at demo_scores_at
             demo_totals_small (proj1 demo_levels)).
    vm_compute. discriminate.
Defined.

(** X12.  [get_skill_modifier], under the same conditions: it changes
    nothing and returns the modifier of the ability the skill belongs to,
    plus twice the proficiency bonus for an expertise skill, the proficiency
    bonus for any other listed skill, and nothing for a skill that is not
    listed. *)
Theorem X12_skill_modifier w self S L (skill : Main.Skill) :
  Main.character_at w self S ->
  V1.scores_at (Main.scores w) (Main.ability self) L ->
  (forall b : Ability, Z.abs (sum_of_layers L b - 10) < 2 ^ 53) ->
  Forall (fun cl => 1 <= Main.level cl) (Main.sheet_classes S) ->
  Main.sum_levels (Main.sheet_classes S) <= 20 ->
  Main.get_skill_modifier self skill w
  = (Return ((sum_of_layers L (Main.skill_ability skill) - 10) / 2
             + ((Main.sum_levels (Main.sheet_classes S) + 3) / 4 + 1)
               * (if bool_decide (skill ∈ Main.sheet_expertise S) then 2
                  else if bool_decide (skill ∈ Main.sheet_skills S) then 1
                  else 0)), w).
Proof.
  intros Hcat Hat Hb Hpos Hsum.
  destruct (sum_levels_bounds _ Hpos) as [Hlen _].
  assert (20 < 2 ^ 50) by reflexivity.
  rewrite (get_skill_modifier_value w self S L skill Hcat Hat Hb) by lia.
  reflexivity.
Qed.

Lemma X12_skill_modifier_witness :
  Main.get_skill_modifier Demo.character Main.ATLETISMO Demo.world
  = (Return 6, Demo.world) /\
  Main.get_skill_modifier Demo.character Main.ARCANISMO Demo.world
  = (Return (-1), Demo.world).
Proof.
  split.
  - apply (X12_skill_modifier Demo.world Demo.character Demo.sheet
             Demo.layers Main.ATLETISMO demo_character_at demo_scores_at
             demo_totals_small (proj1 demo_levels)).
    vm_compute. discriminate.
  - apply (X12_skill_modifier Demo.world Demo.character Demo.sheet
             Demo.layers Main.ARCANISMO demo_character_at demo_scores_at
             demo_totals_small (proj1 demo_levels)).
    vm_compute. discriminate.
Defined.

(** X13.  [get_hitdices] changes nothing and returns one string for each
    hit die among the classes, in the order in which the dice first appear:
    the levels of all the classes with that die, then [dd], then the die.
    The letter is doubled because the key of the dictionary, which starts
    with [d] already, is formatted after a [d]. *)
Theorem X13_hit_dice_strings w self cls :
  Main.class_lists w !! Main.classes self = Some cls ->
  Main.get_hitdices self w
  = (Return (map (fun d => pretty (Main.levels_of_die d cls)
                           +:+ "dd" +:+ pretty d)
               (Main.dice_order cls)), w).
Proof.
  intros Hc. unfold Main.get_hitdices, bind. rewrite (read_at _ _ _ _ Hc).
  unfold ret. rewrite dices_of_value, map_map. reflexivity.
Qed.

Lemma X13_hit_dice_strings_witness :
  Main.get_hitdices Demo.character Demo.world_multiclassed
  = (Return ["4dd12"; "2dd10"], Demo.world_multiclassed).
Proof.
  apply (X13_hit_dice_strings Demo.world_multiclassed Demo.character
           (Main.sheet_classes
              (Main.after_add_class false 2 Main.FIGHTER Demo.sheet))).
  vm_compute. reflexivity.
Defined.

(** ** The two versions of [ability_score.py] *)

(** X14.  The cap is kept for an aggregator whose four sets are four
    objects, each of the kind of its slot: a base set and a bonus set for
    each category ([stats_at], [scores_at]).  In both versions, a call of
    [add_bonus] or [increment_attribute] on such an aggregator, whether it
    returns or raises, takes six totals that are at most 20 to six totals
    that are at most 20.  The condition on the four sets cannot be dropped:
    neither constructor compares the objects it is given, and for an
    aggregator with one object in two slots a batch that passes the check
    takes the total of strength from 10 to 30. *)
Theorem X14_totals_stay_within_the_cap :
  (forall h self L bonus_type increments r h',
      V2.stats_at h self L ->
      (forall a, sum_of_layers L a <= V2.MAX_SCORE) ->
      NoDup (map fst increments) ->
      V2.add_bonus self bonus_type increments h = (r, h') ->
      exists L', V2.stats_at h' self L' /\
                 forall a, sum_of_layers L' a <= V2.MAX_SCORE) /\
  (forall h self L component increments r h',
      V1.scores_at h self L ->
      (forall a, sum_of_layers L a <= V1.MAX_TOTAL) ->
      NoDup (map fst increments) ->
      V1.increment_attribute self component increments h = (r, h') ->
      exists L', V1.scores_at h' self L' /\
                 forall a, sum_of_layers L' a <= V1.MAX_TOTAL) /\
  (fst (Shared.v2_run ∅) = Return (10, 30) /\
   fst (Shared.v1_run ∅) = Return (10, 30)).
Proof.
  split; [exact (proj1 cap_is_kept)|]. split; [exact (proj2 cap_is_kept)|].
  split; vm_compute; reflexivity.
Qed.

Lemma X14_totals_stay_within_the_cap_witness :
  (exists L',
      V2.stats_at
        (snd (V2.add_bonus Scenario.v2_stats (Member V2.FEAT)
                [(DEXTERITY, VInt 2)] Scenario.v2_heap))
        Scenario.v2_stats L' /\
      forall a, sum_of_layers L' a <= V2.MAX_SCORE) /\
  (exists L',
      V1.scores_at
        (snd (V1.increment_attribute Scenario.v1_scores
                (Member V1.FEAT_BONUS) [(DEXTERITY, VInt 2)]
                Scenario.v1_heap))
        Scenario.v1_scores L' /\
      forall a, sum_of_layers L' a <= V1.MAX_TOTAL).
Proof.
  split.
  - apply (proj1 X14_totals_stay_within_the_cap Scenario.v2_heap
             Scenario.v2_stats Scenario.layers (Member V2.FEAT)
             [(DEXTERITY, VInt 2)]
             (fst (V2.add_bonus Scenario.v2_stats (Member V2.FEAT)
                     [(DEXTERITY, VInt 2)] Scenario.v2_heap))).
    + repeat split; vm_compute; reflexivity.
    + intros []; vm_compute; discriminate.
    + repeat constructor. intros H. inversion H.
    + apply surjective_pairing.
  - apply (proj1 (proj2 X14_totals_stay_within_the_cap) Scenario.v1_heap
             Scenario.v1_scores Scenario.layers (Member V1.FEAT_BONUS)
             [(DEXTERITY, VInt 2)]
             (fst (V1.increment_attribute Scenario.v1_scores
                     (Member V1.FEAT_BONUS) [(DEXTERITY, VInt 2)]
                     Scenario.v1_heap))).
    + repeat split; vm_compute; reflexivity.
    + intros []; vm_compute; discriminate.
    + repeat constructor. intros H. inversion H.
    + apply surjective_pairing.
Defined.

(** X15.  Where the modifier is the floor.  In both versions, for a total
    within [2^53] of 10, and so for every total up to the cap, the modifier
    is the floor of [(total - 10) / 2] and nothing is changed. *)
Theorem X15_modifier_is_the_floor_for_totals_near_10 :
  (forall h self L (a : Ability),
      V2.stats_at h self L ->
      Z.abs (sum_of_layers L a - 10) < 2 ^ 53 ->
      V2.modifier self a h = (Return ((sum_of_layers L a - 10) / 2), h)) /\
  (forall h self L (a : Ability),
      V1.scores_at h self L ->
      Z.abs (sum_of_layers L a - 10) < 2 ^ 53 ->
      V1.mod_of a self h = (Return ((sum_of_layers L a - 10) / 2), h)).
Proof. exact modifier_is_floor_below_2_53. Qed.

Lemma X15_modifier_is_the_floor_for_totals_near_10_witness :
  V2.modifier Scenario.v2_stats WISDOM Scenario.v2_heap
  = (Return (-1), Scenario.v2_heap) /\
  V1.mod_of WISDOM Scenario.v1_scores Scenario.v1_heap
  = (Return (-1), Scenario.v1_heap).
Proof.
  split.
  - apply (proj1 X15_modifier_is_the_floor_for_totals_near_10
             Scenario.v2_heap Scenario.v2_stats Scenario.layers WISDOM).
    + repeat split; vm_compute; reflexivity.
    + vm_compute. reflexivity.
  - apply (proj2 X15_modifier_is_the_floor_for_totals_near_10
             Scenario.v1_heap Scenario.v1_scores Scenario.layers WISDOM).
    + repeat split; vm_compute; reflexivity.
    + vm_compute. reflexivity.
Defined.

(** X16.  Where the modifier does not return.  In both versions, for a
    total at least [2^1025] away from 10 the modifier raises
    [OverflowError]: the quotient of the true division is too large for a
    float.  Nothing is changed. *)
Theorem X16_modifier_overflows_for_huge_totals :
  (forall h self L (a : Ability),
      V2.stats_at h self L ->
      2 ^ 1025 <= Z.abs (sum_of_layers L a - 10) ->
      V2.modifier self a h = (Raise OverflowError, h)) /\
  (forall h self L (a : Ability),
      V1.scores_at h self L ->
      2 ^ 1025 <= Z.abs (sum_of_layers L a - 10) ->
      V1.mod_of a self h = (Raise OverflowError, h)).
Proof.
  split.
  - intros h self L a Hat Hbig. unfold V2.modifier, bind.
    rewrite (v2_total_score _ _ _ a Hat), (int_truediv_2_overflow _ Hbig).
    reflexivity.
  - intros h self L a Hat Hbig. rewrite v1_mod_of.
    unfold V1.floor_half, bind.
    rewrite (v1_sum_scores _ _ _ a Hat), (int_truediv_2_overflow _ Hbig).
    reflexivity.
Qed.

Lemma X16_modifier_overflows_for_huge_totals_witness :
  V2.modifier Scenario.v2_stats STRENGTH Limits.v2_heap
  = (Raise OverflowError, Limits.v2_heap) /\
  V1.mod_of STRENGTH Scenario.v1_scores Limits.v1_heap
  = (Raise OverflowError, Limits.v1_heap).
Proof.
  split.
  - apply (proj1 X16_modifier_overflows_for_huge_totals Limits.v2_heap
             Scenario.v2_stats Limits.layers STRENGTH limits_v2_stats_at).
    vm_compute. discriminate.
  - apply (proj2 X16_modifier_overflows_for_huge_totals Limits.v1_heap
             Scenario.v1_scores Limits.layers STRENGTH limits_v1_scores_at).
    vm_compute. discriminate.
Defined.

(** X17.  What a call that returns has done, for an aggregator whose four
    sets are four objects, each of the kind of its slot ([stats_at],
    [scores_at]).  In both versions, after [add_bonus] or
    [increment_attribute] has returned for such an aggregator, the total of
    every ability is its total before the call plus the amount the batch
    gives for it, which is 0 for an ability the batch does not mention.  An
    aggregator with one object in two slots is outside this statement: there
    the amount counts once for each slot. *)
Theorem X17_totals_after_an_accepted_batch :
  (forall h self L bonus_type increments h' (a : Ability),
      V2.stats_at h self L ->
      V2.add_bonus self bonus_type increments h = (Return tt, h') ->
      V2.total_score self a h'
      = (Return (sum_of_layers L a + amount_for a increments), h')) /\
  (forall h self L component increments h' (a : Ability),
      V1.scores_at h self L ->
      V1.increment_attribute self component increments h = (Return tt, h') ->
      V1._sum_scores self a h'
      = (Return (sum_of_layers L a + amount_for a increments), h')).
Proof.
  split.
  - intros h self L bonus_type increments h' a Hat Hcall.
    destruct (v2_add_bonus_cases _ _ _ bonus_type increments Hat)
      as [[e He]|(t & h1 & -> & _ & Hr & Hat' & _)].
    + rewrite He in Hcall. discriminate.
    + rewrite Hr in Hcall. injection Hcall as <-.
      rewrite (v2_total_score _ _ _ a Hat'), sum_of_layers_v2_add_to.
      reflexivity.
  - intros h self L component increments h' a Hat Hcall.
    destruct (v1_increment_attribute_cases _ _ _ component increments Hat)
      as [[e He]|(c & h1 & -> & _ & Hr & Hat' & _)].
    + rewrite He in Hcall. discriminate.
    + rewrite Hr in Hcall. injection Hcall as <-.
      rewrite (v1_sum_scores _ _ _ a Hat'), sum_of_layers_v1_add_to.
      reflexivity.
Qed.

Lemma X17_totals_after_an_accepted_batch_witness :
  V2.total_score Scenario.v2_stats DEXTERITY
    (snd (V2.add_bonus Scenario.v2_stats (Member V2.FEAT)
            [(DEXTERITY, VInt 2)] Scenario.v2_heap))
  = (Return 14,
     snd (V2.add_bonus Scenario.v2_stats (Member V2.FEAT)
            [(DEXTERITY, VInt 2)] Scenario.v2_heap)) /\
  V1._sum_scores Scenario.v1_scores DEXTERITY
    (snd (V1.increment_attribute Scenario.v1_scores (Member V1.FEAT_BONUS)
            [(DEXTERITY, VInt 2)] Scenario.v1_heap))
  = (Return 14,
     snd (V1.increment_attribute Scenario.v1_scores (Member V1.FEAT_BONUS)
            [(DEXTERITY, VInt 2)] Scenario.v1_heap)).
Proof.
  split.
  - apply (proj1 X17_totals_after_an_accepted_batch Scenario.v2_heap
             Scenario.v2_stats Scenario.layers (Member V2.FEAT)
             [(DEXTERITY, VInt 2)]).
    + repeat split; vm_compute; reflexivity.
    + vm_compute. reflexivity.
  - apply (proj2 X17_totals_after_an_accepted_batch Scenario.v1_heap
             Scenario.v1_scores Scenario.layers (Member V1.FEAT_BONUS)
             [(DEXTERITY, VInt 2)]).
    + repeat split; vm_compute; reflexivity.
    + vm_compute. reflexivity.
Defined.

(** ** A character that a builder has built *)

(** X18.  The first level of a built character.  Whatever calls led to
    [build], the character it returns has a list of classes that starts with
    one level of the first class added; its saving throws are those of that
    class and of no later class; and, for a constitution total within [2^40]
    of 10, its hit points are the full hit die of that class plus the
    constitution modifier for that level, and half the die plus 1 plus the
    modifier for every other level. *)
Theorem X18_first_level_of_a_built_character w self c w1 L :
  Main.reachable w self ->
  Main.build self w = (Return c, w1) ->
  V1.scores_at (Main.scores w1) (Main.ability c) L ->
  Z.abs (sum_of_layers L CONSTITUTION - 10) <= 2 ^ 40 ->
  exists first rest,
    Main.class_lists w1 !! Main.classes c = Some (first :: rest) /\
    Main.level first = 1 /\
    Main.ability_lists w1 !! Main.save_throws c
    = Some (Main._proficiencies (Main.class_ first)) /\
    Main.total_hp c w1
    = (Return (Main.hit_dice (Main.class_ first)
               + (sum_of_layers L CONSTITUTION - 10) / 2
               + fold_right
                   (fun cl acc =>
                      Main.later_hp ((sum_of_layers L CONSTITUTION - 10) / 2)
                        cl + acc)
                   0 rest), w1).
Proof.
  intros Hreach Hbuild Hat Hcon.
  destruct (reachable_well_formed w self Hreach) as (S & Hb & Hwf).
  destruct (build_returns w self S c w1 Hb Hwf Hbuild) as (Hcat & _).
  pose proof Hwf as (Hpos & Hsum & Hfirst & _).
  assert (Main.__first_class_level self = false) as Hflag.
  { destruct (Main.__first_class_level self) eqn:E; [|reflexivity].
    destruct Hfirst as [Hnil _].
    pose proof (build_spec w self S Hb Hwf) as H.
    destruct (Main._name self); [|rewrite H in Hbuild; discriminate].
    rewrite Hnil in H. simpl in H. rewrite H in Hbuild. discriminate. }
  rewrite Hflag in Hfirst. destruct Hfirst as (first & rest & Hcls & Hone & Hsts).
  exists first, rest. pose proof Hcat as (Hc1 & Hc2 & _).
  split; [rewrite Hc1, Hcls; reflexivity|]. split; [exact Hone|].
  split; [rewrite Hc2, Hsts; reflexivity|].
  rewrite (total_hp_of_sheet w1 c S L Hcat Hat Hcon Hpos Hsum).
  rewrite Hcls. unfold Main.hit_points. rewrite Hone.
  do 2 f_equal. lia.
Qed.

Lemma X18_first_level_of_a_built_character_witness :
  exists first rest,
    Main.class_lists Demo.world_built !! Main.classes Demo.character
    = Some (first :: rest) /\
    Main.level first = 1 /\
    Main.ability_lists Demo.world_built !! Main.save_throws Demo.character
    = Some (Main._proficiencies (Main.class_ first)) /\
    Main.total_hp Demo.character Demo.world_built
    = (Return (Main.hit_dice (Main.class_ first)
               + (sum_of_layers Demo.layers_at_build CONSTITUTION - 10) / 2
               + fold_right
                   (fun cl acc =>
                      Main.later_hp
                        ((sum_of_layers Demo.layers_at_build CONSTITUTION
                          - 10) / 2) cl + acc)
                   0 rest), Demo.world_built).
Proof.
  apply (X18_first_level_of_a_built_character Demo.world_before_build
           Demo.builder Demo.character Demo.world_built
           Demo.layers_at_build demo_reachable demo_build).
  - repeat split; vm_compute; reflexivity.
  - vm_compute. discriminate.
Defined.

(** ** Two aggregators in one heap *)

Lemma v2_other_aggregator h self L other L' t increments h' :
  V2.stats_at h self L ->
  V2.stats_at h other L' ->
  V2.add_bonus self (Member t) increments h = (Return tt, h') ->
  V2.stats_at h' other
    (if decide (V2.bonus_map other t = V2.bonus_map self t)
     then V2.add_to t increments L' else L').
Proof.
  intros Hs Ho Hcall.
  destruct (v2_add_bonus_cases h self L (Member t) increments Hs)
    as [[e He]|(t0 & h1 & [= <-] & _ & Hr & Hs' & Hframe)];
    [rewrite He in Hcall; discriminate|].
  rewrite Hr in Hcall. injection Hcall as <-.
  destruct Hs as (Sb & Sr & Sf & Sl & _), Ho as (Ob & Or & Of & Ol & Oc),
    Hs' as (_ & Sr' & Sf' & Sl' & _).
  assert (forall l o, h !! l = Some o ->
                      (forall f, o <> V2.AbilityBonus f t) ->
                      h1 !! l = Some o) as Hkeep.
  { intros l o Hl Ho. rewrite Hframe; [exact Hl|]. intros ->.
    destruct t; simpl in Hl; [rewrite Sr in Hl | rewrite Sf in Hl
                              | rewrite Sl in Hl];
      injection Hl as <-; eapply Ho; reflexivity. }
  destruct (decide (V2.bonus_map other t = V2.bonus_map self t)) as [Heq|Hne].
  - destruct t; simpl in Heq, Sr', Sf', Sl'; unfold V2.stats_at; simpl;
      (split; [apply Hkeep; [exact Ob | discriminate]|]).
    + rewrite Heq in Or. rewrite Sr in Or. injection Or as Hset.
      rewrite Heq, Sr', Hset.
      split; [reflexivity|].
      split; [apply Hkeep; [exact Of | discriminate]|].
      split; [apply Hkeep; [exact Ol | discriminate] | rewrite <- Heq; exact Oc].
    + rewrite Heq in Of. rewrite Sf in Of. injection Of as Hset.
      rewrite Heq, Sf', Hset.
      split; [apply Hkeep; [exact Or | discriminate]|].
      split; [reflexivity|].
      split; [apply Hkeep; [exact Ol | discriminate] | rewrite <- Heq; exact Oc].
    + rewrite Heq in Ol. rewrite Sl in Ol. injection Ol as Hset.
      rewrite Heq, Sl', Hset.
      split; [apply Hkeep; [exact Or | discriminate]|].
      split; [apply Hkeep; [exact Of | discriminate]|].
      split; [reflexivity | rewrite <- Heq; exact Oc].
  - unfold V2.stats_at.
    split; [apply Hkeep; [exact Ob | discriminate]|].
    destruct t; simpl in Hne.
    + split; [rewrite Hframe by exact Hne; exact Or|].
      split; [apply Hkeep; [exact Of | discriminate]|].
      split; [apply Hkeep; [exact Ol | discriminate] | exact Oc].
    + split; [apply Hkeep; [exact Or | discriminate]|].
      split; [rewrite Hframe by exact Hne; exact Of|].
      split; [apply Hkeep; [exact Ol | discriminate] | exact Oc].
    + split; [apply Hkeep; [exact Or | discriminate]|].
      split; [apply Hkeep; [exact Of | discriminate]|].
      split; [rewrite Hframe by exact Hne; exact Ol | exact Oc].
Qed.

Lemma v1_other_aggregator h self L other L' c increments h' :
  V1.scores_at h self L ->
  V1.scores_at h other L' ->
  V1.increment_attribute self (Member c) increments h = (Return tt, h') ->
  V1.scores_at h' other
    (if decide (V1.component_map other c = V1.component_map self c)
     then V1.add_to c increments L' else L').
Proof.
  intros Hs Ho Hcall.
  destruct (v1_increment_attribute_cases h self L (Member c) increments Hs)
    as [[e He]|(c0 & h1 & [= <-] & _ & Hr & Hs' & Hframe)];
    [rewrite He in Hcall; discriminate|].
  rewrite Hr in Hcall. injection Hcall as <-.
  destruct Hs as (Sb & Sr & Sf & Sl), Ho as (Ob & Or & Of & Ol),
    Hs' as (_ & Sr' & Sf' & Sl').
  assert (forall l o, h !! l = Some o ->
                      h !! V1.component_map self c <> Some o ->
                      h1 !! l = Some o) as Hkeep.
  { intros l o Hl Ho. rewrite Hframe; [exact Hl|]. intros ->. contradiction. }
  destruct (decide (V1.component_map other c = V1.component_map self c))
    as [Heq|Hne].
  - destruct c; simpl in Heq, Hkeep, Sr', Sf', Sl'; unfold V1.scores_at;
      simpl.
    + rewrite Heq in Or. rewrite Sr in Or. injection Or as Hset.
      rewrite Heq, Sr', Hset.
      split; [apply Hkeep; [exact Ob | rewrite Sr; discriminate]|].
      split; [reflexivity|].
      split; [apply Hkeep; [exact Of | rewrite Sr; discriminate]|].
      apply Hkeep; [exact Ol | rewrite Sr; discriminate].
    + rewrite Heq in Of. rewrite Sf in Of. injection Of as Hset.
      rewrite Heq, Sf', Hset.
      split; [apply Hkeep; [exact Ob | rewrite Sf; discriminate]|].
      split; [apply Hkeep; [exact Or | rewrite Sf; discriminate]|].
      split; [reflexivity|].
      apply Hkeep; [exact Ol | rewrite Sf; discriminate].
    + rewrite Heq in Ol. rewrite Sl in Ol. injection Ol as Hset.
      rewrite Heq, Sl', Hset.
      split; [apply Hkeep; [exact Ob | rewrite Sl; discriminate]|].
      split; [apply Hkeep; [exact Or | rewrite Sl; discriminate]|].
      split; [apply Hkeep; [exact Of | rewrite Sl; discriminate]|].
      reflexivity.
  - unfold V1.scores_at. destruct c; simpl in Hne, Hkeep.
    + split; [apply Hkeep; [exact Ob | rewrite Sr; discriminate]|].
      split; [rewrite Hframe by exact Hne; exact Or|].
      split; [apply Hkeep; [exact Of | rewrite Sr; discriminate]|].
      apply Hkeep; [exact Ol | rewrite Sr; discriminate].
    + split; [apply Hkeep; [exact Ob | rewrite Sf; discriminate]|].
      split; [apply Hkeep; [exact Or | rewrite Sf; discriminate]|].
      split; [rewrite Hframe by exact Hne; exact Of|].
      apply Hkeep; [exact Ol | rewrite Sf; discriminate].
    + split; [apply Hkeep; [exact Ob | rewrite Sl; discriminate]|].
      split; [apply Hkeep; [exact Or | rewrite Sl; discriminate]|].
      split; [apply Hkeep; [exact Of | rewrite Sl; discriminate]|].
      rewrite Hframe by exact Hne. exact Ol.
Qed.

(** ** Aggregators built over default bonus sets *)

Lemma v1_init_defaults (h : V1.heap) base fb :
  h !! base = Some (V1.ScoreBase fb) ->
  exists self h',
    V1.AbilityScores_init base None None None h = (Return self, h') /\
    h ⊆ h' /\
    V1.scores_at h' self
      {| base_set := fb; racial_set := mkScores 0 0 0 0 0 0;
         feat_set := mkScores 0 0 0 0 0 0;
         level_set := mkScores 0 0 0 0 0 0 |} /\
    h !! V1._racial_bonus self = None /\
    h !! V1._feat_bonus self = None /\
    h !! V1._level_bonus self = None.
Proof.
  intros Hb.
  set (l1 := fresh (dom h)).
  set (h1 := <[l1 := V1.RacialBonus (mkScores 0 0 0 0 0 0)]> h).
  set (l2 := fresh (dom h1)).
  set (h2 := <[l2 := V1.FeatBonus (mkScores 0 0 0 0 0 0)]> h1).
  set (l3 := fresh (dom h2)).
  set (h3 := <[l3 := V1.LevelBonus (mkScores 0 0 0 0 0 0)]> h2).
  assert (h !! l1 = None) as F1 by apply not_elem_of_dom, is_fresh.
  assert (h1 !! l2 = None) as F2 by apply not_elem_of_dom, is_fresh.
  assert (h2 !! l3 = None) as F3 by apply not_elem_of_dom, is_fresh.
  assert (h ⊆ h1) as S1 by (apply insert_subseteq; exact F1).
  assert (h1 ⊆ h2) as S2 by (apply insert_subseteq; exact F2).
  assert (h2 ⊆ h3) as S3 by (apply insert_subseteq; exact F3).
  exists {| V1._score_base := base; V1._racial_bonus := l1;
            V1._feat_bonus := l2; V1._level_bonus := l3 |}, h3.
  split; [reflexivity|].
  split; [etrans; [exact S1|]; etrans; [exact S2 | exact S3]|].
  split.
  { unfold V1.scores_at. simpl.
    split; [exact (lookup_weaken _ _ _ _ (lookup_weaken _ _ _ _
                     (lookup_weaken _ _ _ _ Hb S1) S2) S3)|].
    split; [apply (lookup_weaken h1); [|etrans; [exact S2 | exact S3]];
            apply lookup_insert_eq|].
    split; [apply (lookup_weaken h2); [apply lookup_insert_eq | exact S3]|].
    apply lookup_insert_eq. }
  simpl. split; [exact F1|].
  split; [exact (lookup_weaken_None _ _ _ F2 S1)|].
  apply (lookup_weaken_None h h2); [exact F3 | etrans; [exact S1 | exact S2]].
Qed.

Lemma v2_init_defaults (h : V2.heap) base fb :
  h !! base = Some (V2.BaseAbilities fb) ->
  exists self h',
    V2.CharacterStats_init base None None None h = (Return self, h') /\
    h ⊆ h' /\
    V2.stats_at h' self
      {| base_set := fb; racial_set := mkScores 0 0 0 0 0 0;
         feat_set := mkScores 0 0 0 0 0 0;
         level_set := mkScores 0 0 0 0 0 0 |} /\
    h !! V2._racial_bonus self = None /\
    h !! V2._feat_bonus self = None /\
    h !! V2._level_bonus self = None.
Proof.
  intros Hb.
  set (l1 := fresh (dom h)).
  set (h1 := <[l1 := V2.AbilityBonus (mkScores 0 0 0 0 0 0) V2.RACIAL]> h).
  set (l2 := fresh (dom h1)).
  set (h2 := <[l2 := V2.AbilityBonus (mkScores 0 0 0 0 0 0) V2.FEAT]> h1).
  set (l3 := fresh (dom h2)).
  set (h3 := <[l3 := V2.AbilityBonus (mkScores 0 0 0 0 0 0) V2.LEVEL]> h2).
  assert (h !! l1 = None) as F1 by apply not_elem_of_dom, is_fresh.
  assert (h1 !! l2 = None) as F2 by apply not_elem_of_dom, is_fresh.
  assert (h2 !! l3 = None) as F3 by apply not_elem_of_dom, is_fresh.
  assert (h ⊆ h1) as S1 by (apply insert_subseteq; exact F1).
  assert (h1 ⊆ h2) as S2 by (apply insert_subseteq; exact F2).
  assert (h2 ⊆ h3) as S3 by (apply insert_subseteq; exact F3).
  assert (h3 !! l1 = Some (V2.AbilityBonus (mkScores 0 0 0 0 0 0) V2.RACIAL))
    as L1.
  { apply (lookup_weaken h1); [|etrans; [exact S2 | exact S3]].
    apply lookup_insert_eq. }
  assert (h3 !! l2 = Some (V2.AbilityBonus (mkScores 0 0 0 0 0 0) V2.FEAT))
    as L2 by (apply (lookup_weaken h2); [apply lookup_insert_eq | exact S3]).
  assert (h3 !! l3 = Some (V2.AbilityBonus (mkScores 0 0 0 0 0 0) V2.LEVEL))
    as L3 by apply lookup_insert_eq.
  exists {| V2._base_abilities := base; V2._racial_bonus := l1;
            V2._feat_bonus := l2; V2._level_bonus := l3;
            V2._score_components := [base; l1; l2; l3] |}, h3.
  split.
  { unfold V2.CharacterStats_init.
    unfold bind at 1.
    change (V2.or_default None V2.RACIAL h) with (@Return V2.msg _ l1, h1).
    unfold bind at 1.
    change (V2.or_default None V2.FEAT h1) with (@Return V2.msg _ l2, h2).
    unfold bind at 1.
    change (V2.or_default None V2.LEVEL h2) with (@Return V2.msg _ l3, h3).
    unfold bind at 1. rewrite (v2_get_bonus_type _ _ _ _ L1).
    unfold bind at 1.
    destruct (decide (V2.RACIAL <> V2.RACIAL)); [contradiction|].
    unfold ret at 1.
    unfold bind at 1. rewrite (v2_get_bonus_type _ _ _ _ L2).
    unfold bind at 1.
    destruct (decide (V2.FEAT <> V2.FEAT)); [contradiction|].
    unfold ret at 1.
    unfold bind at 1. rewrite (v2_get_bonus_type _ _ _ _ L3).
    unfold bind at 1.
    destruct (decide (V2.LEVEL <> V2.LEVEL)); [contradiction|].
    reflexivity. }
  split; [etrans; [exact S1|]; etrans; [exact S2 | exact S3]|].
  split.
  { unfold V2.stats_at. simpl.
    split; [exact (lookup_weaken _ _ _ _ (lookup_weaken _ _ _ _
                     (lookup_weaken _ _ _ _ Hb S1) S2) S3)|].
    auto. }
  simpl. split; [exact F1|].
  split; [exact (lookup_weaken_None _ _ _ F2 S1)|].
  apply (lookup_weaken_None h h2); [exact F3 | etrans; [exact S1 | exact S2]].
Qed.

(** X19.  A call and the other aggregators of the heap, each aggregator
    having four sets that are four objects of the kinds of their slots
    ([stats_at], [scores_at]).  In both versions, when [add_bonus] or
    [increment_attribute] has returned for one aggregator, any other
    aggregator holds the values it held before, unless the bonus set that
    the call has added to is one of its own sets: then that set has grown
    for it by the same batch. *)
Theorem X19_a_call_and_the_other_aggregators :
  (forall h self L other L' t increments h',
      V2.stats_at h self L ->
      V2.stats_at h other L' ->
      V2.add_bonus self (Member t) increments h = (Return tt, h') ->
      V2.stats_at h' other
        (if decide (V2.bonus_map other t = V2.bonus_map self t)
         then V2.add_to t increments L' else L')) /\
  (forall h self L other L' c increments h',
      V1.scores_at h self L ->
      V1.scores_at h other L' ->
      V1.increment_attribute self (Member c) increments h = (Return tt, h') ->
      V1.scores_at h' other
        (if decide (V1.component_map other c = V1.component_map self c)
         then V1.add_to c increments L' else L')).
Proof. split; [exact v2_other_aggregator | exact v1_other_aggregator]. Qed.

Lemma X19_a_call_and_the_other_aggregators_witness :
  V2.stats_at Pair.v2_heap_after Pair.v2_second Pair.layers /\
  V2.stats_at Pair.v2_heap_after Pair.v2_third
    (V2.add_to V2.FEAT Pair.batch Pair.layers) /\
  V1.scores_at Pair.v1_heap_after Pair.v1_second Pair.layers /\
  V1.scores_at Pair.v1_heap_after Pair.v1_third
    (V1.add_to V1.FEAT_BONUS Pair.batch Pair.layers).
Proof.
  assert (V2.stats_at Pair.v2_heap Scenario.v2_stats Scenario.layers) as S2
    by (repeat split; vm_compute; reflexivity).
  assert (V1.scores_at Pair.v1_heap Scenario.v1_scores Scenario.layers) as S1
    by (repeat split; vm_compute; reflexivity).
  assert (V2.add_bonus Scenario.v2_stats (Member V2.FEAT) Pair.batch
            Pair.v2_heap = (Return tt, Pair.v2_heap_after)) as R2
    by (vm_compute; reflexivity).
  assert (V1.increment_attribute Scenario.v1_scores (Member V1.FEAT_BONUS)
            Pair.batch Pair.v1_heap = (Return tt, Pair.v1_heap_after)) as R1
    by (vm_compute; reflexivity).
  split; [|split; [|split]].
  - apply (proj1 X19_a_call_and_the_other_aggregators Pair.v2_heap
             Scenario.v2_stats Scenario.layers Pair.v2_second Pair.layers
             V2.FEAT Pair.batch Pair.v2_heap_after S2);
      [repeat split; vm_compute; reflexivity | exact R2].
  - apply (proj1 X19_a_call_and_the_other_aggregators Pair.v2_heap
             Scenario.v2_stats Scenario.layers Pair.v2_third Pair.layers
             V2.FEAT Pair.batch Pair.v2_heap_after S2);
      [repeat split; vm_compute; reflexivity | exact R2].
  - apply (proj2 X19_a_call_and_the_other_aggregators Pair.v1_heap
             Scenario.v1_scores Scenario.layers Pair.v1_second Pair.layers
             V1.FEAT_BONUS Pair.batch Pair.v1_heap_after S1);
      [repeat split; vm_compute; reflexivity | exact R1].
  - apply (proj2 X19_a_call_and_the_other_aggregators Pair.v1_heap
             Scenario.v1_scores Scenario.layers Pair.v1_third Pair.layers
             V1.FEAT_BONUS Pair.batch Pair.v1_heap_after S1);
      [repeat split; vm_compute; reflexivity | exact R1].
Defined.

(** X20.  An aggregator built over a base set alone.  In both versions the
    constructor returns, keeps every object of the heap, and builds three
    bonus sets that did not exist before, so that no aggregator built
    earlier holds them; every total of the new aggregator is the value of
    its base set. *)
Theorem X20_an_aggregator_over_a_base_set_alone :
  (forall (h : V2.heap) base fb,
      h !! base = Some (V2.BaseAbilities fb) ->
      exists self h',
        V2.CharacterStats_init base None None None h = (Return self, h') /\
        h ⊆ h' /\
        (forall a : Ability,
            V2.total_score self a h' = (Return (get a fb), h')) /\
        h !! V2._racial_bonus self = None /\
        h !! V2._feat_bonus self = None /\
        h !! V2._level_bonus self = None) /\
  (forall (h : V1.heap) base fb,
      h !! base = Some (V1.ScoreBase fb) ->
      exists self h',
        V1.AbilityScores_init base None None None h = (Return self, h') /\
        h ⊆ h' /\
        (forall a : Ability,
            V1._sum_scores self a h' = (Return (get a fb), h')) /\
        h !! V1._racial_bonus self = None /\
        h !! V1._feat_bonus self = None /\
        h !! V1._level_bonus self = None).
Proof.
  split.
  - intros h base fb Hb.
    destruct (v2_init_defaults h base fb Hb)
      as (self & h' & Hr & Hsub & Hat & F1 & F2 & F3).
    exists self, h'. split; [exact Hr|]. split; [exact Hsub|].
    split; [|auto]. intros a. rewrite (v2_total_score _ _ _ a Hat).
    unfold sum_of_layers. simpl. destruct a; simpl; do 2 f_equal; lia.
  - intros h base fb Hb.
    destruct (v1_init_defaults h base fb Hb)
      as (self & h' & Hr & Hsub & Hat & F1 & F2 & F3).
    exists self, h'. split; [exact Hr|]. split; [exact Hsub|].
    split; [|auto]. intros a. rewrite (v1_sum_scores _ _ _ a Hat).
    unfold sum_of_layers. simpl. destruct a; simpl; do 2 f_equal; lia.
Qed.

Lemma X20_an_aggregator_over_a_base_set_alone_witness :
  exists self h',
    V2.CharacterStats_init 0%nat None None None Scenario.v2_heap
    = (Return self, h') /\
    Scenario.v2_heap ⊆ h' /\
    (forall a : Ability,
        V2.total_score self a h'
        = (Return (get a (mkScores 14 12 10 8 16 10)), h')) /\
    Scenario.v2_heap !! V2._racial_bonus self = None /\
    Scenario.v2_heap !! V2._feat_bonus self = None /\
    Scenario.v2_heap !! V2._level_bonus self = None.
Proof.
  apply (proj1 X20_an_aggregator_over_a_base_set_alone Scenario.v2_heap
           0%nat (mkScores 14 12 10 8 16 10)).
  vm_compute. reflexivity.
Defined.
